(** * Sentinel: storage-media integrity verifier

    A shallow embedding of the verification engine of Sentinel
    ([sentinel/core.py] and [sentinel/sweep.py]) together with the
    properties stated for it.

    Python integers are [Z]; [bytes] objects are [list byte]; [str] objects
    are [string]; floats are binary64 values of [SpecFloat]; dictionaries
    whose iteration order is observable are association lists kept in
    insertion order.

    What the environment decides is part of the [World] a run starts in:
    the files of the drive and of the host, what the device answers for
    each test file, the readings of the clock and the answers of the abort
    probe.  A callback is a flag (passed or not); what it is called with is
    kept, with the device operations, in a trace of events.

    An [OSError] is modelled wherever the program handles one.  An
    exception that no handler catches ends the run as [Raised].  The calls
    the program makes outside any handler (the disk usage query, saving the
    manifest, writing the marker file) succeed in the model.  Paths are
    those of Windows, the platform whose drive roots the program lists. *)

From Stdlib Require Import ZArith List Bool Lia String Ascii.
From Stdlib.Strings Require Import Byte.
From Stdlib Require Import DecimalString SpecFloat.
Import ListNotations.

Local Open Scope string_scope.
Local Open Scope list_scope.
Local Open Scope Z_scope.

(** String concatenation, kept apart from list concatenation. *)
Notation "a +++ b" := (String.append a b)
  (at level 60, right associativity).

(** ** Constants of [sentinel/core.py] *)

Definition SAFETY_MARGIN_BYTES : Z := 100 * 1024 * 1024.
Definition MAX_FILE_BYTES : Z := 2 * 1024 * 1024 * 1024.
Definition WRITE_CHUNK_BYTES : Z := 64 * 1024 * 1024.

(** ** Batch planning

    The loop shared by [quick_check] (core.py, lines 56-60) and
    [free_space_sweep] (sweep.py, lines 196-200):
<<
    batch_sizes = []
    remaining = size_bytes
    while remaining > 0:
        batch_sizes.append(min(remaining, MAX_FILE_BYTES))
        remaining -= batch_sizes[-1]
>>
    The cap is a parameter here; the program always passes
    [MAX_FILE_BYTES].  The loop is unrolled over an iteration budget. *)

Fixpoint plan_loop (fuel : nat) (cap remaining : Z) : list Z :=
  match fuel with
  | O => []
  | S fuel' =>
      if 0 <? remaining
      then let b := Z.min remaining cap in
           b :: plan_loop fuel' cap (remaining - b)
      else []
  end.

(** [remaining / cap + 1] iterations always suffice (see
    [plan_loop_enough]), so [plan_batches] is the list the loop leaves in
    [batch_sizes]. *)
Definition plan_batches (cap remaining : Z) : list Z :=
  plan_loop (S (Z.to_nat (remaining / cap))) cap remaining.

Definition sum_Z (l : list Z) : Z := fold_right Z.add 0 l.

(** ** Python values and built-ins used by the program *)

(** Exceptions that leave a modelled function uncaught. *)
Inductive Exn : Type :=
| UnicodeDecodeError
| AttributeError
| ValueError
| OverflowError
| ZeroDivisionError.

Inductive Outcome (A : Type) : Type :=
| Returned (a : A)
| Raised (e : Exn).
Arguments Returned {A} a.
Arguments Raised {A} e.

(** *** Strings *)

(** [str(n)] for an integer. *)
Definition str_of_Z (n : Z) : string := NilZero.string_of_int (Z.to_int n).

Fixpoint group3 (k : nat) (rev_digits : list ascii) : list ascii :=
  match rev_digits with
  | [] => []
  | d :: rest =>
      match k with
      | O => d :: match rest with
                  | [] => []
                  | _ :: _ => ","%char :: group3 2 rest
                  end
      | S k' => d :: group3 k' rest
      end
  end.

(** [f"{n:,}"]: decimal digits with a comma between groups of three. *)
Definition fmt_commas (n : Z) : string :=
  let digits := list_ascii_of_string (str_of_Z (Z.abs n)) in
  let body := string_of_list_ascii (rev (group3 2 (rev digits))) in
  if n <? 0 then "-" +++ body else body.

(** [s.replace(c, r)] where the pattern [c] is a single character. *)
Fixpoint str_replace (c : ascii) (r : string) (s : string) : string :=
  match s with
  | EmptyString => EmptyString
  | String a rest =>
      if Ascii.eqb a c then r +++ str_replace c r rest
      else String a (str_replace c r rest)
  end.

Definition upper_ascii (a : ascii) : ascii :=
  let n := nat_of_ascii a in
  if (andb (Nat.leb 97 n) (Nat.leb n 122)) then ascii_of_nat (n - 32) else a.

(** [s.upper()] on ASCII letters. *)
Fixpoint str_upper (s : string) : string :=
  match s with
  | EmptyString => EmptyString
  | String a rest => String (upper_ascii a) (str_upper rest)
  end.

(** [c in s] for a single character. *)
Fixpoint str_mem (c : ascii) (s : string) : bool :=
  match s with
  | EmptyString => false
  | String a rest => orb (Ascii.eqb a c) (str_mem c rest)
  end.

Definition backslash : ascii := ascii_of_nat 92.
Definition slash : ascii := "/"%char.
Definition colon : ascii := ":"%char.
Definition newline : string := String (ascii_of_nat 10) EmptyString.

(** The character U+2026 (horizontal ellipsis) as its UTF-8 bytes. *)
Definition ellipsis : string :=
  String (ascii_of_nat 226) (String (ascii_of_nat 128)
    (String (ascii_of_nat 166) EmptyString)).

(** *** Floating point (IEEE 754 binary64, as CPython's [float]) *)

Definition prec : Z := 53.
Definition emax : Z := 1024.

(** [float(n)] for an integer: correctly rounded, [OverflowError] when the
    integer is too large for a float. *)
Definition float_of_int (n : Z) : Outcome spec_float :=
  match binary_normalize prec emax n 0 false with
  | S754_infinity _ => Raised OverflowError
  | f => Returned f
  end.

(** [x * n] for a float [x] and an integer [n]. *)
Definition float_mul_int (x : spec_float) (n : Z) : Outcome spec_float :=
  match float_of_int n with
  | Returned f => Returned (SFmul prec emax x f)
  | Raised e => Raised e
  end.

Definition signed (neg : bool) (mag : Z) : Z := if neg then - mag else mag.

(** [int(x)]: truncation toward zero. *)
Definition int_of_float (x : spec_float) : Outcome Z :=
  match x with
  | S754_zero _ => Returned 0
  | S754_finite s m e =>
      Returned (signed s (if 0 <=? e then Zpos m * 2 ^ e
                          else Zpos m / 2 ^ (- e)))
  | S754_infinity _ => Raised OverflowError
  | S754_nan => Raised ValueError
  end.

(** [a / b] for integers: the correctly rounded quotient. *)
Definition py_truediv (a b : Z) : Outcome spec_float :=
  match a, b with
  | _, 0 => Raised ZeroDivisionError
  | 0, _ => Returned (S754_zero (b <? 0))
  | _, _ =>
      match SFdiv prec emax
              (S754_finite (a <? 0) (Z.to_pos (Z.abs a)) 0)
              (S754_finite (b <? 0) (Z.to_pos (Z.abs b)) 0) with
      | S754_infinity _ => Raised OverflowError
      | f => Returned f
      end
  end.

(** [round(x)] with one argument: nearest integer, ties to even. *)
Definition py_round (x : spec_float) : Outcome Z :=
  match x with
  | S754_zero _ => Returned 0
  | S754_finite s m e =>
      Returned (signed s
        (if 0 <=? e then Zpos m * 2 ^ e
         else let d := 2 ^ (- e) in
              let q := Zpos m / d in
              match (2 * (Zpos m mod d)) ?= d with
              | Lt => q
              | Gt => q + 1
              | Eq => if Z.even q then q else q + 1
              end))
  | S754_infinity _ => Raised OverflowError
  | S754_nan => Raised ValueError
  end.

(** [round(100 * done / total) if total else 0], the extrapolated
    confidence of an aborted run (core.py line 184, sweep.py line 224). *)
Definition confidence_pct (bytes_tested total : Z) : Outcome Z :=
  if total =? 0 then Returned 0
  else match py_truediv (100 * bytes_tested) total with
       | Returned q => py_round q
       | Raised e => Raised e
       end.

(** ** The Python runtime the program relies on

    [random.Random], [hashlib.sha256] and [datetime.isoformat] are library
    code; the model is parametric in them.  [randbytes_length] is the
    documented contract of [Random.randbytes]. *)

Class Runtime : Type := {
  rng : Type;
  Random : Z -> rng;
  randbytes : rng -> Z -> list byte * rng;
  randbytes_length :
    forall g n, 0 <= n -> Z.of_nat (List.length (fst (randbytes g n))) = n;
  sha256 : list byte -> string;
  isoformat : Z -> string
}.

(** ** The world a run acts on *)

(** An entry of the drive under test, keyed by its path relative to the
    drive root in the notation of the operating system. *)
Inductive Node : Type :=
| RegularFile (content : list byte)
| UnreadableFile (err : string)   (* a regular file; reading raises OSError *)
| Directory.

(** What the device answers when a test file is read back. *)
Inductive ReadReply : Type :=
| Intact                          (* the bytes that were written *)
| Altered (data : list byte)      (* some other bytes *)
| ReadFails (err : string).       (* OSError *)

(** How the device treats the test file of one batch. *)
Record BatchFate : Type := mkFate {
  write_error : option string;    (* OSError raised while writing, if any *)
  first_read : ReadReply;
  second_read : ReadReply
}.

(** A manifest file on the host, as [open(path, encoding="utf-8")] followed
    by [json.load] sees it. *)
Inductive HostFile : Type :=
| Unopenable (err : string)       (* OSError *)
| NotUtf8                         (* UnicodeDecodeError while reading *)
| NotJson                         (* json.JSONDecodeError *)
| JsonNull                        (* the document [null] *)
| JsonObject (entries : list (string * string))
| JsonOther.                      (* a list, number, string or boolean *)

(** Effects a run performs, in order. *)
Inductive Event : Type :=
| EvPhase (phase : string)              (* manifest_callback(phase) *)
| EvProgress (current total : Z)        (* progress_callback(current, total, _) *)
| EvMkdir (prefix : string)             (* temp_path.mkdir *)
| EvWrite (batch_i size : Z)            (* test file written *)
| EvRead (batch_i : Z) (second : bool)  (* test file read back *)
| EvCleanup                             (* test files and directory removed *)
| EvHash (rel_native : string)          (* a file of the drive hashed *)
| EvSaveManifest (name : string)
| EvWriteMarker (stamp : string).

Record Drive : Type := mkDrive {
  disk_total : Z;                       (* shutil.disk_usage(...).total *)
  disk_free : Z;                        (* shutil.disk_usage(...).free *)
  tree : list (string * Node);          (* root.rglob("*"), in order *)
  mkdir_error : option string;          (* OSError of temp_path.mkdir, if any *)
  fate : Z -> BatchFate
}.

Record Host : Type := mkHost {
  manifests : list (string * HostFile); (* <config dir>/manifests/ *)
  config_last_sweep_time : option string
}.

Record World : Type := mkWorld {
  drive : Drive;
  host : Host;
  now : Z;                              (* last reading of the clock *)
  clock_script : list Z;                (* advance before each later reading *)
  abort_script : list bool;             (* answers of abort_check(), in order *)
  trace : list Event
}.

Definition set_drive (d : Drive) (w : World) : World :=
  mkWorld d (host w) (now w) (clock_script w) (abort_script w) (trace w).
Definition set_host (h : Host) (w : World) : World :=
  mkWorld (drive w) h (now w) (clock_script w) (abort_script w) (trace w).
Definition set_clock (t : Z) (script : list Z) (w : World) : World :=
  mkWorld (drive w) (host w) t script (abort_script w) (trace w).
Definition set_abort_script (s : list bool) (w : World) : World :=
  mkWorld (drive w) (host w) (now w) (clock_script w) s (trace w).
Definition set_trace (t : list Event) (w : World) : World :=
  mkWorld (drive w) (host w) (now w) (clock_script w) (abort_script w) t.
Definition set_tree (t : list (string * Node)) (d : Drive) : Drive :=
  mkDrive (disk_total d) (disk_free d) t (mkdir_error d) (fate d).
Definition set_manifests (m : list (string * HostFile)) (h : Host) : Host :=
  mkHost m (config_last_sweep_time h).
Definition set_config_last_sweep_time (s : option string) (h : Host) : Host :=
  mkHost (manifests h) s.

(** *** Dictionaries in insertion order *)

Fixpoint dict_get {V : Type} (k : string) (d : list (string * V)) : option V :=
  match d with
  | [] => None
  | (k', v) :: rest => if String.eqb k' k then Some v else dict_get k rest
  end.

(** [d[k] = v]: an existing key keeps its position. *)
Fixpoint dict_set {V : Type} (k : string) (v : V) (d : list (string * V))
  : list (string * V) :=
  match d with
  | [] => [(k, v)]
  | (k', v') :: rest =>
      if String.eqb k' k then (k', v) :: rest
      else (k', v') :: dict_set k v rest
  end.

(** *** State and exceptions *)

Definition M (A : Type) : Type := World -> Outcome A * World.

Definition ret {A : Type} (a : A) : M A := fun w => (Returned a, w).
Definition raise {A : Type} (e : Exn) : M A := fun w => (Raised e, w).
Definition lift {A : Type} (o : Outcome A) : M A := fun w => (o, w).
Definition bind {A B : Type} (m : M A) (k : A -> M B) : M B :=
  fun w => match m w with
           | (Returned a, w') => k a w'
           | (Raised e, w') => (Raised e, w')
           end.

(** [try: body finally: cleanup], with a cleanup that swallows its own
    errors. *)
Definition finally {A : Type} (body : M A) (cleanup : World -> World) : M A :=
  fun w => let (r, w') := body w in (r, cleanup w').

Declare Scope run_scope.
Delimit Scope run_scope with run.
Notation "x <- m ;; k" := (bind m (fun x => k))
  (at level 100, m at next level, right associativity) : run_scope.
Notation "m ;; k" := (bind m (fun _ => k))
  (at level 100, right associativity) : run_scope.
Local Open Scope run_scope.

Definition emit (e : Event) : M unit :=
  fun w => (Returned tt, set_trace (trace w ++ [e]) w).

(** [datetime.now()]. *)
Definition datetime_now : M Z :=
  fun w => match clock_script w with
           | [] => (Returned (now w), w)
           | d :: rest => (Returned (now w + d), set_clock (now w + d) rest w)
           end.

(** [abort_check and abort_check()]; the flag tells whether a probe was
    passed. *)
Definition poll_abort (abort_check : bool) : M bool :=
  fun w => if abort_check
           then match abort_script w with
                | [] => (Returned false, w)
                | b :: rest => (Returned b, set_abort_script rest w)
                end
           else (Returned false, w).

(** [if progress_callback: progress_callback(current, total, message)]. *)
Definition report_progress (progress_callback : bool) (current total : Z)
  : M unit :=
  if progress_callback then emit (EvProgress current total) else ret tt.

(** [if manifest_callback: manifest_callback(phase)]. *)
Definition report_phase (manifest_callback : bool) (phase : string) : M unit :=
  if manifest_callback then emit (EvPhase phase) else ret tt.

(** [sentinel.drive.get_drive_usage]. *)
Definition get_drive_usage (path : string) : M (Z * Z) :=
  fun w => (Returned (disk_total (drive w), disk_free (drive w)), w).

(** ** Result values *)

(** One entry of [verification_details] of a check (core.py lines 134-140
    and 165-171). *)
Record BatchRecord : Type := mkBatchRecord {
  br_batch : Z;
  br_expected_hash : string;
  br_read1_hash : string;
  br_read2_hash : option string;
  br_match : bool
}.

(** The keys an aborted check adds to its result. *)
Record AbortInfo : Type := mkAbortInfo {
  batches_completed : Z;
  batches_total : Z;
  bytes_tested : Z;
  bytes_total : Z;
  extrapolated_confidence_pct : Z
}.

(** The dictionary returned by [quick_check] and [free_space_sweep];
    [abort_info] is present exactly when the key ["aborted"] is. *)
Record CheckResult : Type := mkCheckResult {
  passed : bool;
  message : string;
  details : string;
  verification_details : list BatchRecord;
  abort_info : option AbortInfo
}.

Definition aborted (r : CheckResult) : bool :=
  match abort_info r with Some _ => true | None => false end.

Definition failure (msg dtl : string) (vd : list BatchRecord) : CheckResult :=
  mkCheckResult false msg dtl vd None.

(** ** sentinel/core.py *)

Section Core.
Context {rt : Runtime}.

(** *** Chunked hasher *)

(** A [hashlib.sha256()] object is the bytes fed to it so far. *)
Definition hasher_update (hasher chunk : list byte) : list byte :=
  hasher ++ chunk.
Definition hexdigest (hasher : list byte) : string := sha256 hasher.

(** [f.read(n)] for a positive [n]: up to [n] bytes, and what is left. *)
Fixpoint file_read (n : Z) (file : list byte) : list byte * list byte :=
  match file with
  | [] => ([], [])
  | b :: rest =>
      if 0 <? n
      then let (chunk, left) := file_read (n - 1) rest in (b :: chunk, left)
      else ([], file)
  end.

Fixpoint hash_loop (fuel : nat) (chunk_size : Z) (hasher file : list byte)
  : list byte :=
  match fuel with
  | O => hasher
  | S fuel' =>
      let (chunk, left) := file_read chunk_size file in
      match chunk with
      | [] => hasher
      | _ :: _ => hash_loop fuel' chunk_size (hasher_update hasher chunk) left
      end
  end.

(** [_hash_file_chunked] (core.py lines 219-228).  [opened] is what
    opening and reading the path gives: the bytes of the file, or the
    text of the [OSError] that the call lets through. *)
Definition _hash_file_chunked (opened : string + list byte) (chunk_size : Z)
  : string + string :=
  match opened with
  | inl err => inl err
  | inr file =>
      inr (hexdigest (hash_loop (S (List.length file)) chunk_size [] file))
  end.

(** *** Writing one test file (core.py lines 97-107, sweep.py 248-258) *)

Fixpoint write_loop (fuel : nat) (g : rng) (hasher file : list byte)
  (written fsize : Z) : list byte * list byte :=
  match fuel with
  | O => (hasher, file)
  | S fuel' =>
      if written <? fsize
      then let chunk_size := Z.min WRITE_CHUNK_BYTES (fsize - written) in
           let (chunk, g') := randbytes g chunk_size in
           write_loop fuel' g' (hasher_update hasher chunk) (file ++ chunk)
             (written + chunk_size) fsize
      else (hasher, file)
  end.

(** The hasher state and the bytes handed to [f.write] for batch
    [batch_i] of [fsize] bytes. *)
Definition generate_batch (batch_i fsize : Z) : list byte * list byte :=
  write_loop (S (Z.to_nat (fsize / WRITE_CHUNK_BYTES))) (Random batch_i)
    [] [] 0 fsize.

Definition batch_content (batch_i fsize : Z) : list byte :=
  snd (generate_batch batch_i fsize).

Definition batch_expected_hash (batch_i fsize : Z) : string :=
  hexdigest (fst (generate_batch batch_i fsize)).

(** *** The device *)

Definition mkdir_temp (prefix : string) : M (option string) :=
  fun w => (Returned (mkdir_error (drive w)),
            set_trace (trace w ++ [EvMkdir prefix]) w).

Definition device_write (batch_i fsize : Z) : M (option string) :=
  fun w => (Returned (write_error (fate (drive w) batch_i)),
            set_trace (trace w ++ [EvWrite batch_i fsize]) w).

(** What opening and reading the test file gives: its bytes, or the
    text of the [OSError]. *)
Definition answer (reply : ReadReply) (written : list byte)
  : string + list byte :=
  match reply with
  | Intact => inr written
  | Altered data => inr data
  | ReadFails err => inl err
  end.

Definition reply_of (f : BatchFate) (second : bool) : ReadReply :=
  if second then second_read f else first_read f.

Definition device_read (batch_i : Z) (second : bool) (written : list byte)
  : M (string + list byte) :=
  fun w =>
    (Returned (answer (reply_of (fate (drive w) batch_i) second) written),
     set_trace (trace w ++ [EvRead batch_i second]) w).

(** The [finally] clause: [unlink] every test file, [rmdir]; an [OSError]
    is swallowed. *)
Definition cleanup_temp (w : World) : World :=
  set_trace (trace w ++ [EvCleanup]) w.

(** *** One batch: write, read twice, compare
    (core.py lines 88-178, sweep.py lines 241-327).  The two functions
    differ in the [message] of a failure only.  [inl r]: the function
    returns [r]; [inr vd]: the loop goes on with [vd]. *)
Definition write_verify_batch (fail_message : string)
  (progress_callback : bool) (total_steps : Z)
  (batch_i fsize : Z) (vd : list BatchRecord)
  : M (CheckResult + list BatchRecord) :=
  let n := str_of_Z (batch_i + 1) in
  report_progress progress_callback (batch_i * 3) total_steps ;;
  let (hasher, content) := generate_batch batch_i fsize in
  werr <- device_write batch_i fsize ;;
  match werr with
  | Some e =>
      ret (inl (failure fail_message
                  ("Write error (batch " +++ n +++ "): " +++ e) vd))
  | None =>
      let expected_hash := hexdigest hasher in
      report_progress progress_callback (batch_i * 3 + 1) total_steps ;;
      opened1 <- device_read batch_i false content ;;
      match _hash_file_chunked opened1 WRITE_CHUNK_BYTES with
      | inl e =>
          ret (inl (failure fail_message
                      ("Read error (batch " +++ n +++ "): " +++ e) vd))
      | inr h1 =>
          if negb (String.eqb h1 expected_hash)
          then
            ret (inl (failure fail_message
                        ("Hash mismatch on batch " +++ n +++ " (first read).")
                        (vd ++ [mkBatchRecord (batch_i + 1) expected_hash
                                  h1 None false])))
          else
            report_progress progress_callback (batch_i * 3 + 2) total_steps ;;
            opened2 <- device_read batch_i true content ;;
            match _hash_file_chunked opened2 WRITE_CHUNK_BYTES with
            | inl e =>
                ret (inl (failure fail_message
                            ("Read error (batch " +++ n
                             +++ ", second pass): " +++ e) vd))
            | inr h2 =>
                let match_ :=
                  String.eqb h1 expected_hash
                  && String.eqb h2 expected_hash
                  && String.eqb h1 h2 in
                let vd' := vd ++ [mkBatchRecord (batch_i + 1) expected_hash
                                    h1 (Some h2) match_] in
                if negb match_
                then
                  ret (inl (failure fail_message
                              ("Hash mismatch on batch " +++ n
                               +++ " (second read).") vd'))
                else ret (inr vd')
            end
      end
  end.

(** *** The result of an aborted run
    (core.py lines 181-200, sweep.py lines 222-240).  [tested_word] is
    [" bytes tested (~"] in [quick_check] and [" bytes (~"] in
    [free_space_sweep]. *)
Definition sum_first (k : nat) (batch_sizes : list Z) : Z :=
  sum_Z (map (fun i => nth i batch_sizes 0) (seq 0 k)).

Definition aborted_result (abort_message tested_word : string)
  (batch_sizes : list Z) (size_bytes : Z) (vd : list BatchRecord)
  : M CheckResult :=
  let batches_done := Z.of_nat (List.length vd) in
  let tested := sum_first (List.length vd) batch_sizes in
  let num_batches := Z.of_nat (List.length batch_sizes) in
  pct <- lift (confidence_pct tested size_bytes) ;;
  ret (mkCheckResult
         (forallb br_match vd)
         abort_message
         (str_of_Z batches_done +++ "/" +++ str_of_Z num_batches
          +++ " batches completed, all passed. "
          +++ fmt_commas tested +++ " of " +++ fmt_commas size_bytes
          +++ tested_word +++ str_of_Z pct
          +++ "%). Extrapolated: no failures in tested area.")
         vd
         (Some (mkAbortInfo batches_done num_batches tested size_bytes pct))).

(** *** [quick_check] (core.py lines 18-216) *)

Inductive LoopExit : Type :=
| ExitReturn (r : CheckResult)          (* a [return] inside the loop *)
| ExitBreak (vd : list BatchRecord)     (* [aborted = True; break] *)
| ExitDone (vd : list BatchRecord).     (* the loop ran to its end *)

Fixpoint quick_check_loop (progress_callback abort_check : bool)
  (total_steps : Z) (batches : list Z) (batch_i : Z)
  (vd : list BatchRecord) : M LoopExit :=
  match batches with
  | [] => ret (ExitDone vd)
  | fsize :: later =>
      stop <- poll_abort abort_check ;;
      if stop : bool then ret (ExitBreak vd)
      else
        step <- write_verify_batch "Integrity check failed"
                  progress_callback total_steps batch_i fsize vd ;;
        match step with
        | inl r => ret (ExitReturn r)
        | inr vd' =>
            quick_check_loop progress_callback abort_check total_steps
              later (batch_i + 1) vd'
        end
  end.

(** [int(size_fraction * total_bytes_d)]. *)
Definition target_bytes_of (size_fraction : spec_float) (total_bytes_d : Z)
  : Outcome Z :=
  match float_mul_int size_fraction total_bytes_d with
  | Returned x => int_of_float x
  | Raised e => Raised e
  end.

Definition quick_check (drive_root : string) (size_fraction : spec_float)
  (progress_callback abort_check : bool) : M CheckResult :=
  usage <- get_drive_usage drive_root ;;
  let (total_bytes_d, free_bytes_d) := usage : Z * Z in
  target_bytes <- lift (target_bytes_of size_fraction total_bytes_d) ;;
  let usable_bytes := Z.max 0 (free_bytes_d - SAFETY_MARGIN_BYTES) in
  let size_bytes := Z.min target_bytes usable_bytes in
  if size_bytes <? 1024
  then ret (failure "Integrity check failed"
              "Not enough free space for check (need at least 100 MB free)."
              [])
  else
    let batch_sizes := plan_batches MAX_FILE_BYTES size_bytes in
    let num_batches := Z.of_nat (List.length batch_sizes) in
    let total_steps := num_batches * 3 in
    datetime_now ;;
    made <- mkdir_temp "SentinelCheck" ;;
    match made with
    | Some e =>
        ret (failure "Integrity check failed"
               ("Could not create test directory: " +++ e) [])
    | None =>
        finally
          (exit <- quick_check_loop progress_callback abort_check
                     total_steps batch_sizes 0 [] ;;
           match exit with
           | ExitReturn r => ret r
           | ExitBreak vd =>
               aborted_result "Check aborted by user" " bytes tested (~"
                 batch_sizes size_bytes vd
           | ExitDone vd =>
               report_progress progress_callback total_steps total_steps ;;
               ret (mkCheckResult true "Integrity check passed"
                      ("Verified " +++ str_of_Z num_batches +++ " batches, "
                       +++ fmt_commas size_bytes +++ " bytes total.")
                      vd None)
           end)
          cleanup_temp
    end.

End Core.

(** ** sentinel/sweep.py *)

Definition SENTINEL_DIR : string := "Sentinel".
Definition LAST_SWEEP_FILE : string := ".last_sweep".

(** [os.sep]: the program addresses Windows drive roots
    ([sentinel/drive.py]), where the separator is the backslash. *)
Definition os_sep : string := String backslash EmptyString.

(** One entry of the manifest part of [verification_details]
    (sweep.py lines 144-172). *)
Record ManifestRecord : Type := mkManifestRecord {
  mr_path : string;
  mr_expected_hash : string;
  mr_read_hash : option string;
  mr_match : bool;
  mr_note : option string
}.

(** The dictionary returned by [full_sweep]. *)
Record SweepResult : Type := mkSweepResult {
  sw_passed : bool;
  sw_message : string;
  sw_details : string;
  sw_manifest_passed : bool;
  sw_free_space_passed : bool;
  sw_vd_manifest : list ManifestRecord;
  sw_vd_free_space : list BatchRecord;
  sw_aborted : bool                      (* the key ["aborted"] is present *)
}.

Section Sweep.
Context {rt : Runtime}.

(** [_manifest_path] (lines 25-31): the file name under
    [<config dir>/manifests/]. *)
Definition _manifest_path (drive_root : string) : string :=
  let letter :=
    str_upper (str_replace colon EmptyString
                 (str_replace backslash EmptyString drive_root)) in
  (if String.eqb letter EmptyString then "UNKNOWN" else letter) +++ ".json".

(** [_sentinel_path] (lines 34-36), relative to the drive root. *)
Definition _sentinel_path (drive_root : string) : string := SENTINEL_DIR.

Definition marker_path (drive_root : string) : string :=
  _sentinel_path drive_root +++ os_sep +++ LAST_SWEEP_FILE.

(** [write_last_sweep_timestamp] (lines 51-56). *)
Definition write_last_sweep_timestamp (drive_root : string) : M unit :=
  t <- datetime_now ;;
  let stamp := isoformat t in
  fun w =>
    let sentinel_dir := _sentinel_path drive_root in
    let tree1 :=
      match dict_get sentinel_dir (tree (drive w)) with
      | Some _ => tree (drive w)
      | None => dict_set sentinel_dir Directory (tree (drive w))
      end in
    let tree2 :=
      dict_set (marker_path drive_root)
        (RegularFile (list_byte_of_string stamp)) tree1 in
    (Returned tt,
     set_trace (trace w ++ [EvWriteMarker stamp])
       (set_drive (set_tree tree2 (drive w)) w)).

(** *** Files of the drive *)

Definition path_exists (rel_native : string) : M bool :=
  fun w => (Returned match dict_get rel_native (tree (drive w)) with
                     | Some _ => true
                     | None => false
                     end, w).

Definition is_file (t : list (string * Node)) (rel_native : string) : bool :=
  match dict_get rel_native t with
  | Some (RegularFile _) | Some (UnreadableFile _) => true
  | _ => false
  end.

(** Opening and reading a file of the drive: its bytes, or the text of
    the [OSError]. *)
Definition open_drive_file (rel_native : string) : M (string + list byte) :=
  fun w =>
    (Returned match dict_get rel_native (tree (drive w)) with
              | Some (RegularFile content) => inr content
              | Some (UnreadableFile err) => inl err
              | Some Directory => inl "Is a directory"
              | None => inl "No such file or directory"
              end,
     set_trace (trace w ++ [EvHash rel_native]) w).

(** *** [build_manifest] (lines 68-98) *)

(** Lines 80-83: regular files whose path does not start with the path
    of the Sentinel folder. *)
Definition all_files (t : list (string * Node)) : list string :=
  filter (fun p => is_file t p && negb (String.prefix SENTINEL_DIR p))
    (map fst t).

Fixpoint build_loop (progress_callback abort_check : bool) (total : Z)
  (files : list string) (i : Z)
  (manifest : list (string * string)) (paths : list string)
  : M (list (string * string) * list string * bool) :=
  match files with
  | [] => ret (manifest, paths, false)
  | p :: later =>
      stop <- poll_abort abort_check ;;
      if stop : bool then ret (manifest, paths, true)
      else
        report_progress progress_callback i (Z.max total 1) ;;
        opened <- open_drive_file p ;;
        match _hash_file_chunked opened WRITE_CHUNK_BYTES with
        | inr h =>
            let rel := str_replace backslash "/" p in
            build_loop progress_callback abort_check total later (i + 1)
              (dict_set rel h manifest) (paths ++ [rel])
        | inl _ =>
            build_loop progress_callback abort_check total later (i + 1)
              manifest paths
        end
  end.

Definition build_manifest (drive_root : string)
  (progress_callback abort_check : bool)
  : M (list (string * string) * list string * bool) :=
  fun w =>
    let files := all_files (tree (drive w)) in
    build_loop progress_callback abort_check (Z.of_nat (List.length files))
      files 0 [] [] w.

(** *** [save_manifest] and [load_manifest] (lines 101-117) *)

Definition save_manifest (drive_root : string)
  (manifest : list (string * string)) : M unit :=
  fun w =>
    let name := _manifest_path drive_root in
    (Returned tt,
     set_trace (trace w ++ [EvSaveManifest name])
       (set_host
          (set_manifests
             (dict_set name (JsonObject manifest) (manifests (host w)))
             (host w))
          w)).

(** What [json.load] returned. *)
Inductive Loaded : Type :=
| LoadedDict (entries : list (string * string))
| LoadedOther.

Definition load_manifest (drive_root : string) : M (option Loaded) :=
  fun w =>
    match dict_get (_manifest_path drive_root) (manifests (host w)) with
    | None => (Returned None, w)                (* not path.exists() *)
    | Some (Unopenable _) => (Returned None, w) (* except OSError *)
    | Some NotJson => (Returned None, w)        (* except JSONDecodeError *)
    | Some NotUtf8 => (Raised UnicodeDecodeError, w)
    | Some JsonNull => (Returned None, w)
    | Some (JsonObject entries) => (Returned (Some (LoadedDict entries)), w)
    | Some JsonOther => (Returned (Some LoadedOther), w)
    end.

(** *** [verify_manifest] (lines 120-174) *)

Definition is_empty {A : Type} (l : list A) : bool :=
  match l with [] => true | _ :: _ => false end.

Fixpoint verify_loop (progress_callback abort_check : bool) (total : Z)
  (entries : list (string * string)) (i : Z)
  (mismatches : list string) (vd : list ManifestRecord)
  : M (bool * list string * list ManifestRecord * bool) :=
  match entries with
  | [] => ret (is_empty mismatches, mismatches, vd, false)
  | (rel, expected_hash) :: later =>
      stop <- poll_abort abort_check ;;
      if stop : bool then ret (is_empty mismatches, mismatches, vd, true)
      else
        report_progress progress_callback i total ;;
        let path := str_replace slash os_sep rel in
        there <- path_exists path ;;
        if negb there
        then
          verify_loop progress_callback abort_check total later (i + 1)
            (mismatches ++ [rel +++ " (missing)"])
            (vd ++ [mkManifestRecord rel expected_hash None false
                      (Some "missing")])
        else
          opened <- open_drive_file path ;;
          match _hash_file_chunked opened WRITE_CHUNK_BYTES with
          | inr h =>
              let match_ := String.eqb h expected_hash in
              verify_loop progress_callback abort_check total later (i + 1)
                (if match_ then mismatches else mismatches ++ [rel])
                (vd ++ [mkManifestRecord rel expected_hash (Some h) match_
                          None])
          | inl _ =>
              verify_loop progress_callback abort_check total later (i + 1)
                (mismatches ++ [rel +++ " (read error)"])
                (vd ++ [mkManifestRecord rel expected_hash None false
                          (Some "read error")])
          end
  end.

Definition verify_manifest (drive_root : string)
  (manifest : list (string * string))
  (progress_callback abort_check : bool)
  : M (bool * list string * list ManifestRecord * bool) :=
  verify_loop progress_callback abort_check
    (Z.max (Z.of_nat (List.length manifest)) 1) manifest 0 [] [].

(** *** [free_space_sweep] (lines 177-343) *)

Fixpoint free_space_loop (progress_callback abort_check : bool)
  (batch_sizes : list Z) (usable_bytes total_steps : Z)
  (batches : list Z) (batch_i : Z) (vd : list BatchRecord)
  : M CheckResult :=
  match batches with
  | [] =>
      report_progress progress_callback total_steps total_steps ;;
      ret (mkCheckResult true "Free-space sweep passed"
             ("Verified " +++ str_of_Z (Z.of_nat (List.length batch_sizes))
              +++ " batches, " +++ fmt_commas usable_bytes
              +++ " bytes total.")
             vd None)
  | fsize :: later =>
      stop <- poll_abort abort_check ;;
      if stop : bool
      then aborted_result "Free-space sweep aborted by user" " bytes (~"
             batch_sizes usable_bytes vd
      else
        step <- write_verify_batch "Free-space sweep failed"
                  progress_callback total_steps batch_i fsize vd ;;
        match step with
        | inl r => ret r
        | inr vd' =>
            free_space_loop progress_callback abort_check batch_sizes
              usable_bytes total_steps later (batch_i + 1) vd'
        end
  end.

Definition free_space_sweep (drive_root : string)
  (progress_callback abort_check : bool) : M CheckResult :=
  usage <- get_drive_usage drive_root ;;
  let (total_bytes_d, free_bytes_d) := usage : Z * Z in
  let usable_bytes := Z.max 0 (free_bytes_d - SAFETY_MARGIN_BYTES) in
  if usable_bytes <? 1024
  then ret (failure "Free-space sweep failed"
              "Not enough free space (need at least 100 MB free)." [])
  else
    let batch_sizes := plan_batches MAX_FILE_BYTES usable_bytes in
    let num_batches := Z.of_nat (List.length batch_sizes) in
    let total_steps := num_batches * 3 in
    datetime_now ;;
    made <- mkdir_temp "SentinelSweep" ;;
    match made with
    | Some e =>
        ret (failure "Free-space sweep failed"
               ("Could not create test directory: " +++ e) [])
    | None =>
        finally
          (free_space_loop progress_callback abort_check batch_sizes
             usable_bytes total_steps batch_sizes 0 [])
          cleanup_temp
    end.

(** *** [full_sweep] (lines 346-443) *)

Definition count_matched (vd : list ManifestRecord) : Z :=
  Z.of_nat (List.length (filter mr_match vd)).

Definition mismatch_part (mismatches : list string) : string :=
  let n := Z.of_nat (List.length mismatches) in
  let head := "File verification failed (" +++ str_of_Z n
              +++ " mismatch(es)): "
              +++ String.concat "; " (firstn 5 mismatches) in
  if 5 <? n
  then head +++ " " +++ ellipsis +++ " and " +++ str_of_Z (n - 5) +++ " more"
  else head.

(** Lines 418-443, after the manifest phase left [parts] and the fields
    [manifest_passed] and [verification_details["manifest"]]. *)
Definition free_space_phase (drive_root : string)
  (progress_callback manifest_callback abort_check : bool)
  (parts : list string) (manifest_passed : bool)
  (manifest_vd : list ManifestRecord) : M SweepResult :=
  report_phase manifest_callback "free_space" ;;
  fs_result <- free_space_sweep drive_root progress_callback abort_check ;;
  let fs_vd := verification_details fs_result in
  if aborted fs_result
  then ret (mkSweepResult true "Full sweep aborted"
              (String.concat newline parts +++ newline
               +++ details fs_result)
              manifest_passed (passed fs_result) manifest_vd fs_vd true)
  else if negb (passed fs_result)
  then ret (mkSweepResult false "Full sweep failed"
              (String.concat newline
                 (parts ++ ["Free-space sweep failed: "
                            +++ details fs_result]))
              manifest_passed (passed fs_result) manifest_vd fs_vd false)
  else
    write_last_sweep_timestamp drive_root ;;
    ret (mkSweepResult true "Full sweep passed"
           (String.concat newline (parts ++ [details fs_result]))
           manifest_passed (passed fs_result) manifest_vd fs_vd false).

Definition full_sweep (drive_root : string)
  (progress_callback manifest_callback abort_check : bool) : M SweepResult :=
  loaded <- load_manifest drive_root ;;
  match loaded with
  | None =>
      report_phase manifest_callback "build_manifest" ;;
      built <- build_manifest drive_root progress_callback abort_check ;;
      let '(m, paths, build_aborted) :=
        built : list (string * string) * list string * bool in
      if build_aborted
      then ret (mkSweepResult true "Full sweep aborted"
                  ("Manifest build aborted. "
                   +++ str_of_Z (Z.of_nat (List.length paths))
                   +++ " files hashed. "
                   +++ "No manifest saved; no timestamp written.")
                  true true [] [] true)
      else
        save_manifest drive_root m ;;
        free_space_phase drive_root progress_callback manifest_callback
          abort_check ["Manifest built (new card)."] true []
  | Some LoadedOther =>
      report_phase manifest_callback "verify_manifest" ;;
      raise AttributeError             (* [manifest.items()], line 133 *)
  | Some (LoadedDict manifest) =>
      report_phase manifest_callback "verify_manifest" ;;
      verified <- verify_manifest drive_root manifest progress_callback
                    abort_check ;;
      let '(passed_, mismatches, manifest_vd, verify_aborted) :=
        verified : bool * list string * list ManifestRecord * bool in
      if verify_aborted
      then ret (mkSweepResult true "Full sweep aborted"
                  ("File verification aborted. "
                   +++ str_of_Z (count_matched manifest_vd) +++ "/"
                   +++ str_of_Z (Z.of_nat (List.length manifest_vd))
                   +++ " files verified, all matched. No timestamp written.")
                  passed_ true manifest_vd [] true)
      else if negb passed_
      then ret (mkSweepResult false "Full sweep failed"
                  (String.concat newline [mismatch_part mismatches])
                  passed_ true manifest_vd [] false)
      else
        free_space_phase drive_root progress_callback manifest_callback
          abort_check ["File verification passed."] passed_ manifest_vd
  end.

(** ** sentinel_ui.py: what [_on_full_sweep_done] (lines 508-547) saves.
    [save_config(last_drive=..., last_sweep_time=datetime.now().isoformat())]
    is the only place of the program that stores the host-side time of
    the last sweep. *)
Definition _on_full_sweep_done (result : SweepResult) : M unit :=
  t <- datetime_now ;;
  fun w =>
    (Returned tt,
     set_host (set_config_last_sweep_time (Some (isoformat t)) (host w)) w).

End Sweep.

(** ** A reference runtime and reference worlds

    A small deterministic generator and a checksum stand in for
    [random.Random] and [hashlib.sha256] wherever the model is run on a
    concrete world. *)

Definition byte_of_Z (z : Z) : byte :=
  match Byte.of_N (Z.to_N (z mod 256)) with
  | Some b => b
  | None => x00
  end.

Definition sim_bytes (g n : Z) : list byte :=
  map (fun i => byte_of_Z (g * 1103515245 + 12345 + Z.of_nat i))
    (seq 0 (Z.to_nat n)).

Definition checksum (data : list byte) : string :=
  str_of_Z (fold_left
              (fun acc b => (acc * 31 + Z.of_N (Byte.to_N b)) mod 1000003)
              data 7).

Definition sim_runtime : Runtime.
Proof.
  refine {| rng := Z;
            Random := fun s => s;
            randbytes := fun g n => (sim_bytes g n, g + n);
            sha256 := checksum;
            isoformat := str_of_Z |}.
  intros g n Hn. unfold sim_bytes. cbn [fst].
  rewrite length_map, length_seq. apply Z2Nat.id. exact Hn.
Defined.

(** A device without faults. *)
Definition healthy : Z -> BatchFate := fun _ => mkFate None Intact Intact.

Definition no_abort : list bool := [].

(** The float [0.1], the default [size_fraction]. *)
Definition tenth : spec_float := S754_finite false 7205759403792794 (-56).

Definition GiB : Z := 1024 * 1024 * 1024.
Definition MiB : Z := 1024 * 1024.

(** A world whose clock starts at [0] and advances by one at each
    reading, with an empty host and an empty trace. *)
Definition world_of (d : Drive) (aborts : list bool) : World :=
  mkWorld d (mkHost [] None) 0 [1; 1; 1; 1] aborts [].

(** 10 GiB in all, 5 GiB free, and a user who aborts at the first poll. *)
Definition w_abort_first : World :=
  world_of (mkDrive (10 * GiB) (5 * GiB) [] None healthy) [true].

Definition abort_first_result : CheckResult :=
  Eval vm_compute in
    match fst (quick_check (rt := sim_runtime) "G:\" tenth false true
                 w_abort_first) with
    | Returned r => r
    | Raised _ => failure EmptyString EmptyString []
    end.

Definition abort_first_world : World :=
  Eval vm_compute in
    snd (quick_check (rt := sim_runtime) "G:\" tenth false true w_abort_first).

(** A drive with only 50 MiB free. *)
Definition w_low_space : World :=
  world_of (mkDrive (10 * GiB) (50 * MiB) [] None healthy) no_abort.

(** 2 GiB + 1 MiB usable: two batches; the user aborts at the second
    poll. *)
Definition w_abort_second : World :=
  world_of (mkDrive (10 * GiB) (SAFETY_MARGIN_BYTES + 2 * GiB + MiB) []
              None healthy)
    [false; true].

(** 1 KiB usable, on a device that answers the first read of the first
    test file with nothing. *)
Definition w_bad_first_read : World :=
  world_of (mkDrive (10 * GiB) (SAFETY_MARGIN_BYTES + 1024) [] None
              (fun _ => mkFate None (Altered []) Intact))
    no_abort.

Definition bad_first_read_result : CheckResult :=
  Eval vm_compute in
    match fst (free_space_sweep (rt := sim_runtime) "G:\" false false
                 w_bad_first_read) with
    | Returned r => r
    | Raised _ => failure EmptyString EmptyString []
    end.

Definition bad_first_read_world : World :=
  Eval vm_compute in
    snd (free_space_sweep (rt := sim_runtime) "G:\" false false
           w_bad_first_read).

Definition bad_first_read_record : BatchRecord :=
  Eval vm_compute in
    match verification_details bad_first_read_result with
    | v :: _ => v
    | [] => mkBatchRecord 0 EmptyString EmptyString None false
    end.

(** A card with a photo, a note, a file that cannot be read and the
    Sentinel folder; 1 KiB usable. *)
Definition card_tree : list (string * Node) :=
  [("DCIM", Directory);
   ("DCIM\photo.jpg", RegularFile (list_byte_of_string "JFIF photo"));
   ("notes.txt", RegularFile (list_byte_of_string "buy film"));
   ("locked.bin", UnreadableFile "Permission denied");
   ("Sentinel", Directory);
   ("Sentinel\.last_sweep", RegularFile (list_byte_of_string "0"))].

Definition w_card : World :=
  world_of (mkDrive (10 * GiB) (SAFETY_MARGIN_BYTES + 1024) card_tree None
              healthy)
    no_abort.

(** A manifest of that card taken when the note read differently and two
    more files were there. *)
Definition old_manifest : list (string * string) :=
  [("DCIM/photo.jpg", checksum (list_byte_of_string "JFIF photo"));
   ("notes.txt", checksum (list_byte_of_string "buy films"));
   ("gone.txt", checksum (list_byte_of_string "gone"));
   ("locked.bin", checksum (list_byte_of_string "locked"))].

(** The first sweep of that card: no manifest on the host yet. *)
Definition card_sweep_result : SweepResult :=
  Eval vm_compute in
    match fst (full_sweep (rt := sim_runtime) "G:\" false true false w_card)
    with
    | Returned r => r
    | Raised _ => mkSweepResult false EmptyString EmptyString false false [] [] false
    end.

Definition card_sweep_world : World :=
  Eval vm_compute in
    snd (full_sweep (rt := sim_runtime) "G:\" false true false w_card).

(** The same card when the manifest file on the host holds bytes that are
    not UTF-8. *)
Definition w_garbled_manifest : World :=
  mkWorld (drive w_card) (mkHost [("G.json", NotUtf8)] None) 0 [1; 1; 1; 1]
    no_abort [].

(** ** Vocabulary of the statements *)

(** The clock of [w'] is the clock of [w] after some readings. *)
Definition clock_follows (w w' : World) : Prop :=
  exists used, clock_script w = used ++ clock_script w'
               /\ now w' = now w + sum_Z used.

(** [w'] comes from [w] by emitting [ev] and reading the clock or the
    abort probe: the drive and the host are as they were. *)
Definition evolves (w w' : World) (ev : list Event) : Prop :=
  drive w' = drive w /\ host w' = host w /\ clock_follows w w'
  /\ trace w' = trace w ++ ev.

Definition progress_events (progress_callback : bool) (current total : Z)
  : list Event :=
  if progress_callback then [EvProgress current total] else [].

(** The time stamps written by [write_last_sweep_timestamp] among the
    events [ev]. *)
Definition stamps_written (ev : list Event) : list string :=
  flat_map (fun e => match e with EvWriteMarker s => [s] | _ => [] end) ev.

(** The events emitted from [w] to [w']. *)
Definition new_events (w w' : World) : list Event :=
  skipn (List.length (trace w)) (trace w').

(** A batch record of a batch that passed. *)
Definition clean (v : BatchRecord) : Prop :=
  br_match v = true
  /\ br_read1_hash v = br_expected_hash v
  /\ br_read2_hash v = Some (br_expected_hash v).

(** [usable_bytes] of a run on [w]: [max(0, free_bytes_d -
    SAFETY_MARGIN_BYTES)]. *)
Definition usable_of (w : World) : Z :=
  Z.max 0 (disk_free (drive w) - SAFETY_MARGIN_BYTES).

(** [size_bytes] of [quick_check]: [min(target_bytes, usable_bytes)]. *)
Definition planned_size (size_fraction : spec_float) (w : World)
  : Outcome Z :=
  match target_bytes_of size_fraction (disk_total (drive w)) with
  | Returned target_bytes => Returned (Z.min target_bytes (usable_of w))
  | Raised e => Raised e
  end.

Section StepSpec.
Context {rt : Runtime}.

(** The record at position [k] is the record of batch [k]: numbered
    [k + 1], with the hash planned for index [k] and the size of that
    batch. *)
Definition indexed (batch_sizes : list Z) (vd : list BatchRecord) : Prop :=
  forall k v, nth_error vd k = Some v ->
    br_batch v = Z.of_nat k + 1
    /\ exists fsize, nth_error batch_sizes k = Some fsize
         /\ br_expected_hash v = batch_expected_hash (Z.of_nat k) fsize.

(** The six ways through [write_verify_batch], each with what it
    returns and the events it emits. *)
Inductive step_spec (fail_message : string) (pcb : bool) (total_steps : Z)
  (batch_i fsize : Z) (vd : list BatchRecord) (f : BatchFate)
  : CheckResult + list BatchRecord -> list Event -> Prop :=
| step_write_error e :
    write_error f = Some e ->
    step_spec fail_message pcb total_steps batch_i fsize vd f
      (inl (failure fail_message
              ("Write error (batch " +++ str_of_Z (batch_i + 1) +++ "): "
               +++ e) vd))
      (progress_events pcb (batch_i * 3) total_steps
       ++ [EvWrite batch_i fsize])
| step_read1_error e :
    write_error f = None ->
    _hash_file_chunked (answer (first_read f) (batch_content batch_i fsize))
      WRITE_CHUNK_BYTES = inl e ->
    step_spec fail_message pcb total_steps batch_i fsize vd f
      (inl (failure fail_message
              ("Read error (batch " +++ str_of_Z (batch_i + 1) +++ "): "
               +++ e) vd))
      (progress_events pcb (batch_i * 3) total_steps
       ++ [EvWrite batch_i fsize]
       ++ progress_events pcb (batch_i * 3 + 1) total_steps
       ++ [EvRead batch_i false])
| step_first_mismatch h1 :
    write_error f = None ->
    _hash_file_chunked (answer (first_read f) (batch_content batch_i fsize))
      WRITE_CHUNK_BYTES = inr h1 ->
    h1 <> batch_expected_hash batch_i fsize ->
    step_spec fail_message pcb total_steps batch_i fsize vd f
      (inl (failure fail_message
              ("Hash mismatch on batch " +++ str_of_Z (batch_i + 1)
               +++ " (first read).")
              (vd ++ [mkBatchRecord (batch_i + 1)
                        (batch_expected_hash batch_i fsize) h1 None false])))
      (progress_events pcb (batch_i * 3) total_steps
       ++ [EvWrite batch_i fsize]
       ++ progress_events pcb (batch_i * 3 + 1) total_steps
       ++ [EvRead batch_i false])
| step_read2_error e :
    write_error f = None ->
    _hash_file_chunked (answer (first_read f) (batch_content batch_i fsize))
      WRITE_CHUNK_BYTES = inr (batch_expected_hash batch_i fsize) ->
    _hash_file_chunked (answer (second_read f) (batch_content batch_i fsize))
      WRITE_CHUNK_BYTES = inl e ->
    step_spec fail_message pcb total_steps batch_i fsize vd f
      (inl (failure fail_message
              ("Read error (batch " +++ str_of_Z (batch_i + 1)
               +++ ", second pass): " +++ e) vd))
      (progress_events pcb (batch_i * 3) total_steps
       ++ [EvWrite batch_i fsize]
       ++ progress_events pcb (batch_i * 3 + 1) total_steps
       ++ [EvRead batch_i false]
       ++ progress_events pcb (batch_i * 3 + 2) total_steps
       ++ [EvRead batch_i true])
| step_second_mismatch h2 :
    write_error f = None ->
    _hash_file_chunked (answer (first_read f) (batch_content batch_i fsize))
      WRITE_CHUNK_BYTES = inr (batch_expected_hash batch_i fsize) ->
    _hash_file_chunked (answer (second_read f) (batch_content batch_i fsize))
      WRITE_CHUNK_BYTES = inr h2 ->
    h2 <> batch_expected_hash batch_i fsize ->
    step_spec fail_message pcb total_steps batch_i fsize vd f
      (inl (failure fail_message
              ("Hash mismatch on batch " +++ str_of_Z (batch_i + 1)
               +++ " (second read).")
              (vd ++ [mkBatchRecord (batch_i + 1)
                        (batch_expected_hash batch_i fsize)
                        (batch_expected_hash batch_i fsize) (Some h2)
                        false])))
      (progress_events pcb (batch_i * 3) total_steps
       ++ [EvWrite batch_i fsize]
       ++ progress_events pcb (batch_i * 3 + 1) total_steps
       ++ [EvRead batch_i false]
       ++ progress_events pcb (batch_i * 3 + 2) total_steps
       ++ [EvRead batch_i true])
| step_pass :
    write_error f = None ->
    _hash_file_chunked (answer (first_read f) (batch_content batch_i fsize))
      WRITE_CHUNK_BYTES = inr (batch_expected_hash batch_i fsize) ->
    _hash_file_chunked (answer (second_read f) (batch_content batch_i fsize))
      WRITE_CHUNK_BYTES = inr (batch_expected_hash batch_i fsize) ->
    step_spec fail_message pcb total_steps batch_i fsize vd f
      (inr (vd ++ [mkBatchRecord (batch_i + 1)
                     (batch_expected_hash batch_i fsize)
                     (batch_expected_hash batch_i fsize)
                     (Some (batch_expected_hash batch_i fsize)) true]))
      (progress_events pcb (batch_i * 3) total_steps
       ++ [EvWrite batch_i fsize]
       ++ progress_events pcb (batch_i * 3 + 1) total_steps
       ++ [EvRead batch_i false]
       ++ progress_events pcb (batch_i * 3 + 2) total_steps
       ++ [EvRead batch_i true]).

(** The loop over the batches, common to [quick_check] and
    [free_space_sweep] up to the failure message and to what follows
    the loop. *)
Fixpoint cycle_loop (fail_message : string)
  (progress_callback abort_check : bool) (total_steps : Z)
  (batches : list Z) (batch_i : Z) (vd : list BatchRecord) : M LoopExit :=
  match batches with
  | [] => ret (ExitDone vd)
  | fsize :: later =>
      bind (poll_abort abort_check) (fun stop : bool =>
        if stop then ret (ExitBreak vd)
        else
          bind (write_verify_batch fail_message progress_callback
                  total_steps batch_i fsize vd)
            (fun step =>
               match step with
               | inl r => ret (ExitReturn r)
               | inr vd' =>
                   cycle_loop fail_message progress_callback abort_check
                     total_steps later (batch_i + 1) vd'
               end))
  end.

(** The failing record [bad] of [r] failed on the first read: no second
    hash, the message of the first read, and no second read of that test
    file among the events [ev]. *)
Definition first_read_failure (r : CheckResult) (bad : BatchRecord)
  (ev : list Event) : Prop :=
  br_read1_hash bad <> br_expected_hash bad
  /\ br_read2_hash bad = None
  /\ details r = "Hash mismatch on batch " +++ str_of_Z (br_batch bad)
                 +++ " (first read)."
  /\ ~ In (EvRead (br_batch bad - 1) true) ev.

Definition second_read_failure (r : CheckResult) (bad : BatchRecord)
  : Prop :=
  br_read1_hash bad = br_expected_hash bad
  /\ (exists h2, br_read2_hash bad = Some h2 /\ h2 <> br_expected_hash bad)
  /\ details r = "Hash mismatch on batch " +++ str_of_Z (br_batch bad)
                 +++ " (second read).".

(** A result returned from inside the loop: a failure whose records are
    those of the batches that passed, followed by at most one record of
    a batch that did not. *)
Definition failing (fail_message : string) (batch_sizes : list Z)
  (r : CheckResult) (ev : list Event) : Prop :=
  passed r = false /\ message r = fail_message /\ abort_info r = None
  /\ indexed batch_sizes (verification_details r)
  /\ exists good, Forall clean good
       /\ (verification_details r = good
           \/ exists bad, verification_details r = good ++ [bad]
                 /\ br_match bad = false
                 /\ (first_read_failure r bad ev
                     \/ second_read_failure r bad)).

Definition exit_records (exit : LoopExit) : list BatchRecord :=
  match exit with
  | ExitReturn r => verification_details r
  | ExitBreak vd => vd
  | ExitDone vd => vd
  end.

Definition exit_post (fail_message : string) (batch_sizes : list Z)
  (exit : LoopExit) (ev : list Event) : Prop :=
  match exit with
  | ExitDone vd =>
      Forall clean vd /\ indexed batch_sizes vd
      /\ List.length vd = List.length batch_sizes
  | ExitBreak vd =>
      Forall clean vd /\ indexed batch_sizes vd
      /\ (List.length vd < List.length batch_sizes)%nat
  | ExitReturn r => failing fail_message batch_sizes r ev
  end.

(** What follows the loop: the result of an aborted run, or of a run
    that passed (core.py lines 180-208; in [free_space_sweep] the same
    results are built inside and after the loop). *)
Definition finish (abort_message tested_word pass_message : string)
  (progress_callback : bool) (batch_sizes : list Z)
  (size_bytes total_steps : Z) (exit : LoopExit) : M CheckResult :=
  match exit with
  | ExitReturn r => ret r
  | ExitBreak vd =>
      aborted_result abort_message tested_word batch_sizes size_bytes vd
  | ExitDone vd =>
      bind (report_progress progress_callback total_steps total_steps)
        (fun _ =>
           ret (mkCheckResult true pass_message
                  ("Verified "
                   +++ str_of_Z (Z.of_nat (List.length batch_sizes))
                   +++ " batches, " +++ fmt_commas size_bytes
                   +++ " bytes total.")
                  vd None))
  end.

(** What a returned result of [quick_check] or [free_space_sweep] can
    be, for a planned size [size_bytes] and the events [ev] of the run. *)
Inductive run_post (fail_message : string) (size_bytes : Z)
  (r : CheckResult) (ev : list Event) : Prop :=
| run_refused :
    passed r = false -> message r = fail_message -> abort_info r = None ->
    verification_details r = [] ->
    (forall j n, ~ In (EvWrite j n) ev) ->
    run_post fail_message size_bytes r ev
| run_failed :
    1024 <= size_bytes ->
    failing fail_message (plan_batches MAX_FILE_BYTES size_bytes) r ev ->
    run_post fail_message size_bytes r ev
| run_aborted pct :
    1024 <= size_bytes ->
    Forall clean (verification_details r) ->
    indexed (plan_batches MAX_FILE_BYTES size_bytes)
      (verification_details r) ->
    (List.length (verification_details r)
     < List.length (plan_batches MAX_FILE_BYTES size_bytes))%nat ->
    passed r = true ->
    confidence_pct
      (sum_first (List.length (verification_details r))
         (plan_batches MAX_FILE_BYTES size_bytes)) size_bytes
    = Returned pct ->
    abort_info r
    = Some (mkAbortInfo
              (Z.of_nat (List.length (verification_details r)))
              (Z.of_nat (List.length
                           (plan_batches MAX_FILE_BYTES size_bytes)))
              (sum_first (List.length (verification_details r))
                 (plan_batches MAX_FILE_BYTES size_bytes))
              size_bytes pct) ->
    run_post fail_message size_bytes r ev
| run_passed :
    1024 <= size_bytes ->
    Forall clean (verification_details r) ->
    indexed (plan_batches MAX_FILE_BYTES size_bytes)
      (verification_details r) ->
    List.length (verification_details r)
    = List.length (plan_batches MAX_FILE_BYTES size_bytes) ->
    passed r = true -> abort_info r = None ->
    run_post fail_message size_bytes r ev.

End StepSpec.

(** ** Vocabulary of the manifest statements *)

(** The path under the drive root at which [verify_manifest] looks for
    the manifest key [rel]. *)
Definition native_of (rel : string) : string := str_replace slash os_sep rel.

(** No path of the drive contains a slash: so it is with the paths that
    [str(p.relative_to(root))] gives on Windows. *)
Definition windows_paths (t : list (string * Node)) : Prop :=
  Forall (fun p => str_mem slash p = false) (map fst t).

Section ManifestSpec.
Context {rt : Runtime}.

(** The outcome of verifying the entry [rel -> expected] on the tree [t]:
    a match, a content mismatch, a missing path, or a path that is there
    and cannot be read (the note the program writes is ["read error"]). *)
Inductive entry_outcome (t : list (string * Node)) (rel expected : string)
  : ManifestRecord -> Prop :=
| outcome_match content :
    dict_get (native_of rel) t = Some (RegularFile content) ->
    sha256 content = expected ->
    entry_outcome t rel expected
      (mkManifestRecord rel expected (Some expected) true None)
| outcome_mismatch content :
    dict_get (native_of rel) t = Some (RegularFile content) ->
    sha256 content <> expected ->
    entry_outcome t rel expected
      (mkManifestRecord rel expected (Some (sha256 content)) false None)
| outcome_missing :
    dict_get (native_of rel) t = None ->
    entry_outcome t rel expected
      (mkManifestRecord rel expected None false (Some "missing"))
| outcome_read_error node :
    dict_get (native_of rel) t = Some node ->
    (forall content, node <> RegularFile content) ->
    entry_outcome t rel expected
      (mkManifestRecord rel expected None false (Some "read error")).

(** The entry that [verify_manifest] adds to [mismatches] for a record. *)
Definition mismatch_of (v : ManifestRecord) : list string :=
  if mr_match v then []
  else match mr_note v with
       | None => [mr_path v]
       | Some note => [mr_path v +++ " (" +++ note +++ ")"]
       end.

(** Every entry of [manifest] records a readable file of [t] under the
    hash of its content. *)
Definition faithful (t : list (string * Node))
  (manifest : list (string * string)) : Prop :=
  forall rel h, In (rel, h) manifest ->
    exists content,
      dict_get (native_of rel) t = Some (RegularFile content)
      /\ sha256 content = h.

End ManifestSpec.

(** ** Vocabulary of the sweep statements *)

(** From [w] to [w'] the files of the drive and the host-side time of the
    last sweep stay as they are, while the events [ev] are emitted. *)
Definition keeps (w w' : World) (ev : list Event) : Prop :=
  tree (drive w') = tree (drive w)
  /\ config_last_sweep_time (host w') = config_last_sweep_time (host w)
  /\ clock_follows w w'
  /\ trace w' = trace w ++ ev.

Section SweepSpec.
Context {rt : Runtime}.

(** From [w] to [w'] the marker file of the drive was written once, with
    the time [now w'] read for it; the host-side time stays as it is. *)
Definition marker_written (drive_root : string) (w w' : World)
  (ev : list Event) : Prop :=
  stamps_written ev = [isoformat (now w')]
  /\ dict_get (marker_path drive_root) (tree (drive w'))
     = Some (RegularFile (list_byte_of_string (isoformat (now w'))))
  /\ config_last_sweep_time (host w') = config_last_sweep_time (host w)
  /\ clock_follows w w'
  /\ trace w' = trace w ++ ev.

(** Both phases of a sweep completed successfully. *)
Definition both_phases_passed (r : SweepResult) : bool :=
  sw_manifest_passed r && sw_free_space_passed r && negb (sw_aborted r).

(** What a sweep leaves behind, by its outcome. *)
Definition sweep_post (root : string) (w w' : World) (ev : list Event)
  (o : Outcome SweepResult) : Prop :=
  match o with
  | Raised _ => keeps w w' ev /\ stamps_written ev = []
  | Returned r =>
      (sw_passed r = true /\ both_phases_passed r = true
       /\ marker_written root w w' ev)
      \/ (both_phases_passed r = false
          /\ (sw_aborted r = true \/ sw_passed r = false)
          /\ keeps w w' ev /\ stamps_written ev = [])
  end.

End SweepSpec.

(** * The modules around the engine

    [sentinel/drive.py], [sentinel/recommendation.py],
    [sentinel/config.py], the scheduling functions of [sentinel/sweep.py]
    and the readers of [sentinel/api.py] that use them. *)

From Stdlib Require Import DecimalPos DecimalZ Sorted FinFun.

(** ** sentinel/drive.py *)

Definition drive_letters : list ascii :=
  list_ascii_of_string "ABCDEFGHIJKLMNOPQRSTUVWXYZ".

(** [str(Path(f"{letter}:\\"))]. *)
Definition drive_root_of (letter : ascii) : string :=
  String letter (String colon os_sep).

(** [get_available_drives] (lines 7-17); [mounted] is what
    [Path.exists] answers for a drive root. *)
Definition get_available_drives (mounted : string -> bool) : list string :=
  filter mounted (map drive_root_of drive_letters).

(** ** sentinel/recommendation.py *)

Definition VERY_SMALL_BYTES : Z := 4 * 1024 * 1024 * 1024.
Definition SMALL_BYTES : Z := 32 * 1024 * 1024 * 1024.
Definition BALANCED_BYTES : Z := 128 * 1024 * 1024 * 1024.
Definition HIGH_END_BYTES : Z := 256 * 1024 * 1024 * 1024.

(** The float [0.95]. *)
Definition FULL_THRESHOLD : spec_float :=
  S754_finite false 8556839292003942 (-53).

(** The float [0.05]. *)
Definition twentieth : spec_float := S754_finite false 7205759403792794 (-57).

(** [x >= y] for floats. *)
Definition float_ge (x y : spec_float) : bool := SFleb y x.

(** [recommend_schedule] (lines 15-28). *)
Definition recommend_schedule (drive_root : string) : M (Z * string) :=
  usage <- get_drive_usage drive_root ;;
  let total := fst (usage : Z * Z) in
  if total <? SMALL_BYTES
  then ret (7, "Low-end / small card (recommend checking every 7 days)")
  else if total <? BALANCED_BYTES
  then ret (14, "Balanced capacity (recommend checking every 14 days)")
  else if total <? HIGH_END_BYTES
  then ret (21, "High-capacity card (recommend checking every 21 days)")
  else ret (30, "High-capacity card (recommend checking every 30 days)").

(** [get_quality_warnings] (lines 31-46). *)
Definition get_quality_warnings (drive_root : string) : M (list string) :=
  usage <- get_drive_usage drive_root ;;
  let (total, free) := usage : Z * Z in
  let used := total - free in
  if 0 <? total
  then
    used_pct <- lift (py_truediv used total) ;;
    let warnings :=
      if total <? VERY_SMALL_BYTES then ["Card very small (< 4 GB)"]
      else [] in
    if float_ge used_pct FULL_THRESHOLD
    then
      scaled <- lift (float_mul_int used_pct 100) ;;
      pct <- lift (int_of_float scaled) ;;
      ret (warnings ++ ["Card nearly full (" +++ str_of_Z pct +++ "% used)"])
    else ret warnings
  else ret [].

(** [recommend_check_size_fraction] (lines 49-57). *)
Definition recommend_check_size_fraction (drive_root : string)
  : M spec_float :=
  usage <- get_drive_usage drive_root ;;
  let total := fst (usage : Z * Z) in
  if total <? SMALL_BYTES then ret twentieth else ret tenth.

(** ** sentinel/config.py *)

(** A value of a JSON document. *)
Inductive JValue : Type :=
| JNull
| JBool (b : bool)
| JInt (n : Z)
| JFloat (x : spec_float)
| JStr (s : string)
| JList (doc : string)            (* a list, by its text *)
| JDict (doc : string).           (* an object, by its text *)

(** The configuration file, as [config_path.exists()], [open] and
    [json.load] see it. *)
Inductive ConfigFile : Type :=
| CfgMissing                      (* not config_path.exists() *)
| CfgUnopenable (err : string)    (* OSError *)
| CfgNotUtf8                      (* UnicodeDecodeError while reading *)
| CfgNotJson                      (* json.JSONDecodeError *)
| CfgObject (data : list (string * JValue))
| CfgOther.                       (* a document that is not an object *)

(** The dictionary that [load_config] returns. *)
Record Config : Type := mkConfig {
  last_drive : JValue;
  check_size_fraction : JValue;
  sweep_interval_days : JValue;
  last_check_time : JValue;
  last_sweep_time : JValue
}.

(** [data.get(key, default)]. *)
Definition json_get (key : string) (default : JValue)
  (data : list (string * JValue)) : JValue :=
  match dict_get key data with
  | Some v => v
  | None => default
  end.

Definition default_config : Config :=
  mkConfig JNull (JFloat tenth) (JInt 14) JNull JNull.

(** [load_config] (lines 25-57).  [data.get] on a document that is not an
    object raises [AttributeError]; neither it nor a [UnicodeDecodeError]
    is among the handled exceptions. *)
Definition load_config (file : ConfigFile) : Outcome Config :=
  match file with
  | CfgMissing => Returned default_config
  | CfgUnopenable _ => Returned default_config
  | CfgNotJson => Returned default_config
  | CfgNotUtf8 => Raised UnicodeDecodeError
  | CfgOther => Raised AttributeError
  | CfgObject data =>
      Returned
        (mkConfig (json_get "last_drive" JNull data)
           (json_get "check_size_fraction" (JFloat tenth) data)
           (json_get "sweep_interval_days" (JInt 14) data)
           (json_get "last_check_time" JNull data)
           (json_get "last_sweep_time" JNull data))
  end.

(** The object that [json.dump(current, f, indent=2)] writes. *)
Definition config_entries (c : Config) : list (string * JValue) :=
  [("last_drive", last_drive c);
   ("check_size_fraction", check_size_fraction c);
   ("sweep_interval_days", sweep_interval_days c);
   ("last_check_time", last_check_time c);
   ("last_sweep_time", last_sweep_time c)].

(** [current[key] = value] unless the argument is [None]. *)
Definition updated {A : Type} (inject : A -> JValue) (arg : option A)
  (old : JValue) : JValue :=
  match arg with
  | Some a => inject a
  | None => old
  end.

(** [save_config] (lines 60-84): the outcome and the file it leaves.
    The write itself, which no handler guards, succeeds in the model. *)
Definition save_config (last_drive_ : option string)
  (check_size_fraction_ : option spec_float)
  (sweep_interval_days_ : option Z)
  (last_check_time_ last_sweep_time_ : option string) (file : ConfigFile)
  : Outcome unit * ConfigFile :=
  match load_config file with
  | Raised e => (Raised e, file)
  | Returned current =>
      (Returned tt,
       CfgObject
         (config_entries
            (mkConfig
               (updated JStr last_drive_ (last_drive current))
               (updated JFloat check_size_fraction_
                  (check_size_fraction current))
               (updated JInt sweep_interval_days_
                  (sweep_interval_days current))
               (updated JStr last_check_time_ (last_check_time current))
               (updated JStr last_sweep_time_ (last_sweep_time current)))))
  end.

(** ** Reading times back

    Times are counted in microseconds, the resolution of [datetime]. *)

Definition DAY : Z := 86400 * 1000000.

(** A [datetime]: naive, as [datetime.now()] gives it, or aware of a UTC
    offset. *)
Inductive Datetime : Type :=
| Naive (t : Z)
| Aware.

(** [str.strip], [bytes.decode] and [datetime.fromisoformat] are library
    code.  [None] stands for the [UnicodeDecodeError] of the decoder and
    the [ValueError] of the parser.  The laws say that the text written
    by [isoformat] is read back as the time it was written for: it is
    not empty, it is ASCII without blanks around it, and [fromisoformat]
    is documented as the inverse of [isoformat]. *)
Class TextRuntime {rt : Runtime} : Type := {
  decode_utf8 : list byte -> option string;
  str_strip : string -> string;
  fromisoformat : string -> option Datetime;
  isoformat_not_empty : forall t, isoformat t <> EmptyString;
  decode_isoformat :
    forall t, decode_utf8 (list_byte_of_string (isoformat t))
              = Some (isoformat t);
  strip_isoformat : forall t, str_strip (isoformat t) = isoformat t;
  fromisoformat_isoformat :
    forall t, fromisoformat (isoformat t) = Some (Naive t)
}.

(** The [TypeError] of [datetime.now() - last] for an aware [last]. *)
Inductive TypeError : Type := NaiveMinusAware.

Section Schedule.
Context {rt : Runtime} {tx : TextRuntime}.

(** [read_last_sweep_timestamp] (sweep.py lines 39-48). *)
Definition read_last_sweep_timestamp (drive_root : string)
  : M (option Datetime) :=
  fun w =>
    (Returned
       match dict_get (marker_path drive_root) (tree (drive w)) with
       | None => None                         (* not path.exists() *)
       | Some (RegularFile content) =>
           match decode_utf8 content with
           | Some text => fromisoformat (str_strip text)
           | None => None                     (* a ValueError *)
           end
       | Some (UnreadableFile _) => None      (* OSError *)
       | Some Directory => None               (* OSError *)
       end, w).

(** [sweep_due] (sweep.py lines 59-65); [inl]: the call raises. *)
Definition sweep_due (drive_root : string) (interval_days : Z)
  : M (TypeError + bool) :=
  last <- read_last_sweep_timestamp drive_root ;;
  match last with
  | None => ret (inr true)
  | Some stamp =>
      t <- datetime_now ;;
      match stamp with
      | Naive t0 => ret (inr (interval_days <=? (t - t0) / DAY))
      | Aware => ret (inl NaiveMinusAware)
      end
  end.

(** [fromisoformat(s)] guarded as in api.py lines 62-68 and 81-87:
    nothing for a value that is empty or not a text. *)
Definition time_of_json (v : JValue) : option Datetime :=
  match v with
  | JStr s => if String.eqb s EmptyString then None else fromisoformat s
  | _ => None
  end.

(** [get_last_check_time] (api.py lines 59-68). *)
Definition get_last_check_time (file : ConfigFile)
  : Outcome (option Datetime) :=
  match load_config file with
  | Returned config => Returned (time_of_json (last_check_time config))
  | Raised e => Raised e
  end.

(** [get_last_sweep_time] (api.py lines 71-87); the configuration file
    is the one on the host at the time of the call. *)
Definition get_last_sweep_time (file : ConfigFile) (drive_ : option string)
  : M (option Datetime) :=
  on_card <- match drive_ with
             | Some d =>
                 if String.eqb d EmptyString then ret None
                 else read_last_sweep_timestamp d
             | None => ret None
             end ;;
  match on_card with
  | Some ts => ret (Some ts)
  | None =>
      config <- lift (load_config file) ;;
      ret (time_of_json (last_sweep_time config))
  end.

End Schedule.

(** ** A reference reader of texts *)

Definition sim_texts : @TextRuntime sim_runtime.
Proof.
  refine {| decode_utf8 := fun data => Some (string_of_list_byte data);
            str_strip := fun s => s;
            fromisoformat :=
              fun s => option_map (fun i => Naive (Z.of_int i))
                         (NilZero.int_of_string s) |}.
  - intros t. cbn [isoformat sim_runtime]. unfold str_of_Z.
    destruct t; cbn; try discriminate.
    destruct (Pos.to_uint p); discriminate.
  - intros t. rewrite string_of_list_byte_of_string. reflexivity.
  - intros t. reflexivity.
  - intros t. cbn [isoformat sim_runtime]. unfold str_of_Z.
    rewrite NilZero.isi.
    + cbn [option_map]. rewrite DecimalZ.of_to. reflexivity.
    + destruct t; cbn; try discriminate.
      intros H. injection H as H.
      exact (DecimalPos.Unsigned.to_uint_nonnil _ H).
    + destruct t; cbn; try discriminate.
      intros H. injection H as H.
      exact (DecimalPos.Unsigned.to_uint_nonnil _ H).
Defined.

(** ** Vocabulary of the further statements *)

(** The place of an event in the protocol of the batches: for batch [i],
    progress [3i], the write, progress [3i + 1], the first read, progress
    [3i + 2], the second read; progress is reported against [total]. *)
Definition stage (total : Z) (e : Event) : option Z :=
  match e with
  | EvProgress current total' =>
      if total' =? total then Some (2 * current) else None
  | EvWrite batch_i _ => Some (6 * batch_i + 1)
  | EvRead batch_i false => Some (6 * batch_i + 3)
  | EvRead batch_i true => Some (6 * batch_i + 5)
  | _ => None
  end.

(** Every event of [ev] has a stage from [lo] up to [hi], and the stages
    increase strictly. *)
Fixpoint in_order (total lo hi : Z) (ev : list Event) : bool :=
  match ev with
  | [] => true
  | e :: rest =>
      match stage total e with
      | Some s => (lo <=? s) && (s <? hi) && in_order total (s + 1) hi rest
      | None => false
      end
  end.

(** The values of [current] passed to [progress_callback] among [ev]. *)
Definition progress_values (ev : list Event) : list Z :=
  flat_map (fun e => match e with EvProgress c _ => [c] | _ => [] end) ev.

(** The test files written among [ev]: index and size, in order. *)
Definition written (ev : list Event) : list (Z * Z) :=
  flat_map (fun e => match e with EvWrite i size => [(i, size)] | _ => [] end)
    ev.

(** [enumerate(batch_sizes)], counting from [i]. *)
Fixpoint numbered (i : Z) (batch_sizes : list Z) : list (Z * Z) :=
  match batch_sizes with
  | [] => []
  | fsize :: later => (i, fsize) :: numbered (i + 1) later
  end.

(** The device operations among [ev]. *)
Definition touches_device (e : Event) : bool :=
  match e with
  | EvMkdir _ | EvWrite _ _ | EvRead _ _ | EvCleanup => true
  | _ => false
  end.

(** The manifest key under which [build_manifest] files a path. *)
Definition key_of (p : string) : string := str_replace backslash "/" p.

(** The path holds a regular file that can be read. *)
Definition readable (t : list (string * Node)) (p : string) : bool :=
  match dict_get p t with
  | Some (RegularFile _) => true
  | _ => false
  end.

(** A device without faults, and an abort probe that never answers yes. *)
Definition fault_free (w : World) : Prop :=
  mkdir_error (drive w) = None
  /\ forall i, fate (drive w) i = mkFate None Intact Intact.

Definition never_aborts (w : World) : Prop :=
  Forall (fun b => b = false) (abort_script w).

(** The outcome of a check over [size_bytes] bytes that was aborted after
    [k] batches: the aborted result with [k] records that all match, or
    the exception of the computation of the confidence. *)
Definition aborted_after (k : nat) (size_bytes : Z) (abort_message : string)
  (o : Outcome CheckResult) : Prop :=
  let batch_sizes := plan_batches MAX_FILE_BYTES size_bytes in
  match confidence_pct (sum_first k batch_sizes) size_bytes with
  | Returned pct =>
      exists r,
        o = Returned r /\ passed r = true /\ message r = abort_message
        /\ abort_info r
           = Some (mkAbortInfo (Z.of_nat k)
                     (Z.of_nat (List.length batch_sizes))
                     (sum_first k batch_sizes) size_bytes pct)
        /\ List.length (verification_details r) = k
        /\ Forall clean (verification_details r)
  | Raised e => o = Raised e
  end.

(** A result that fails at the batch of index [k]: the records of the
    [k] batches before it, which passed, and at most the record of the
    batch that did not. *)
Definition fails_at (k : nat) (r : CheckResult) : Prop :=
  passed r = false /\ aborted r = false
  /\ exists good,
       Forall clean good /\ List.length good = k
       /\ (verification_details r = good
           \/ exists bad, verification_details r = good ++ [bad]
                          /\ br_match bad = false).

(** Worlds for the examples: the card of [w_card] after a first sweep,
    read some days later. *)
Definition w_later (days : Z) : World :=
  set_clock (now card_sweep_world + days * DAY) [] card_sweep_world.

Section RunVocabulary.
Context {rt : Runtime}.

(** What [quick_check] and [free_space_sweep] do once the planned size
    passed the floor of 1024 bytes, up to their messages and the prefix
    of the directory of test files. *)
Definition check_body (fail_message abort_message tested_word
  pass_message prefix : string) (progress_callback abort_check : bool)
  (size_bytes : Z) : M CheckResult :=
  let batch_sizes := plan_batches MAX_FILE_BYTES size_bytes in
  let total_steps := Z.of_nat (List.length batch_sizes) * 3 in
  bind datetime_now (fun _ =>
    bind (mkdir_temp prefix) (fun made =>
      match made with
      | Some e =>
          ret (failure fail_message
                 ("Could not create test directory: " +++ e) [])
      | None =>
          finally
            (bind (cycle_loop fail_message progress_callback abort_check
                     total_steps batch_sizes 0 [])
               (finish abort_message tested_word pass_message
                  progress_callback batch_sizes size_bytes total_steps))
            cleanup_temp
      end)).

(** The events of a check planned over [size_bytes] bytes: none when the
    size is under the floor; the attempt to create the directory when
    that fails; else the creation, the batches in the order of the
    protocol, and the removal. *)
Definition run_events (prefix : string) (size_bytes : Z)
  (made : option string) (ev : list Event) : Prop :=
  if size_bytes <? 1024 then ev = []
  else
    match made with
    | Some _ => ev = [EvMkdir prefix]
    | None =>
        let n := Z.of_nat (List.length
                             (plan_batches MAX_FILE_BYTES size_bytes)) in
        exists batches,
          ev = EvMkdir prefix :: batches ++ [EvCleanup]
          /\ in_order (n * 3) 0 (6 * n + 1) batches = true
    end.

(** The device does not treat the test file of batch [batch_i] as it
    should: the write fails, or one of the two reads fails or gives bytes
    with another digest than the bytes written. *)
Definition faulty (batch_i fsize : Z) (f : BatchFate) : Prop :=
  write_error f <> None
  \/ _hash_file_chunked
       (answer (first_read f) (batch_content batch_i fsize))
       WRITE_CHUNK_BYTES
     <> inr (batch_expected_hash batch_i fsize)
  \/ _hash_file_chunked
       (answer (second_read f) (batch_content batch_i fsize))
       WRITE_CHUNK_BYTES
     <> inr (batch_expected_hash batch_i fsize).

End RunVocabulary.

(** The free-space sweep of the card of [w_card], with a progress
    callback. *)
Definition card_progress_result : CheckResult :=
  Eval vm_compute in
    match fst (free_space_sweep (rt := sim_runtime) "G:\" true false w_card)
    with
    | Returned r => r
    | Raised _ => failure EmptyString EmptyString []
    end.

Definition card_progress_world : World :=
  Eval vm_compute in
    snd (free_space_sweep (rt := sim_runtime) "G:\" true false w_card).

(** The manifest that [build_manifest] makes of the card of [w_card]. *)
Definition card_manifest : list (string * string) :=
  Eval vm_compute in
    match fst (build_manifest (rt := sim_runtime) "G:\" true true w_card)
    with
    | Returned (m, _, _) => m
    | Raised _ => []
    end.

Definition card_paths : list string :=
  Eval vm_compute in
    match fst (build_manifest (rt := sim_runtime) "G:\" true true w_card)
    with
    | Returned (_, paths, _) => paths
    | Raised _ => []
    end.

Definition card_build_world : World :=
  Eval vm_compute in
    snd (build_manifest (rt := sim_runtime) "G:\" true true w_card).

(** The records that verifying [old_manifest] leaves. *)
Definition old_manifest_records : list ManifestRecord :=
  [mkManifestRecord "DCIM/photo.jpg" "197561" (Some "197561") true None;
   mkManifestRecord "notes.txt" "195900" (Some "877286") false None;
   mkManifestRecord "gone.txt" "643275" None false (Some "missing");
   mkManifestRecord "locked.bin" "12043" None false (Some "read error")].

Definition old_manifest_world : World :=
  Eval vm_compute in
    snd (verify_manifest (rt := sim_runtime) "G:\" old_manifest false false
           w_card).

(** The card of [w_card] after its photo changed, with the manifest of
    [w_card] on the host, and a user who aborts at the second poll. *)
Definition rotten_tree : list (string * Node) :=
  [("DCIM", Directory);
   ("DCIM\photo.jpg", RegularFile (list_byte_of_string "JFIF phot0"));
   ("notes.txt", RegularFile (list_byte_of_string "buy film"))].

Definition w_rotten : World :=
  mkWorld
    (mkDrive (10 * GiB) (SAFETY_MARGIN_BYTES + 1024) rotten_tree None
       healthy)
    (mkHost [("G.json", JsonObject card_manifest)] None)
    0 [1; 1; 1; 1] [false; true] [].

Definition rotten_sweep_result : SweepResult :=
  Eval vm_compute in
    match fst (full_sweep (rt := sim_runtime) "G:\" true true true w_rotten)
    with
    | Returned r => r
    | Raised _ =>
        mkSweepResult false EmptyString EmptyString false false [] [] false
    end.

Definition rotten_sweep_world : World :=
  Eval vm_compute in
    snd (full_sweep (rt := sim_runtime) "G:\" true true true w_rotten).

(** The same card and manifest, with nobody to abort. *)
Definition w_rotten_unattended : World := set_abort_script [] w_rotten.

Definition unattended_sweep_result : SweepResult :=
  Eval vm_compute in
    match fst (full_sweep (rt := sim_runtime) "G:\" true true true
                 w_rotten_unattended)
    with
    | Returned r => r
    | Raised _ =>
        mkSweepResult false EmptyString EmptyString false false [] [] false
    end.

Definition unattended_sweep_world : World :=
  Eval vm_compute in
    snd (full_sweep (rt := sim_runtime) "G:\" true true true
           w_rotten_unattended).

(** * Properties *)

(** ** The state-and-exception layer *)

Lemma bind_returned {A B : Type} (m : M A) (k : A -> M B) w a w1 :
  m w = (Returned a, w1) -> bind m k w = k a w1.
Proof. intros H. unfold bind. rewrite H. reflexivity. Qed.

Lemma bind_raised {A B : Type} (m : M A) (k : A -> M B) w e w1 :
  m w = (Raised e, w1) -> bind m k w = (Raised e, w1).
Proof. intros H. unfold bind. rewrite H. reflexivity. Qed.

Lemma clock_follows_refl w : clock_follows w w.
Proof. exists []. cbn. split; [reflexivity | lia]. Qed.

Lemma sum_Z_app (l1 l2 : list Z) : sum_Z (l1 ++ l2) = sum_Z l1 + sum_Z l2.
Proof.
  induction l1 as [|a l1 IH]; [reflexivity|].
  change (a + sum_Z (l1 ++ l2) = a + sum_Z l1 + sum_Z l2). lia.
Qed.

Lemma sum_Z_repeat (x : Z) (n : nat) : sum_Z (repeat x n) = x * Z.of_nat n.
Proof.
  induction n as [|n IH]; [cbn; lia|].
  change (x + sum_Z (repeat x n) = x * Z.of_nat (S n)). lia.
Qed.

Lemma clock_follows_trans w1 w2 w3 :
  clock_follows w1 w2 -> clock_follows w2 w3 -> clock_follows w1 w3.
Proof.
  intros [u1 [H1 N1]] [u2 [H2 N2]]. exists (u1 ++ u2). split.
  - rewrite H1, H2, app_assoc. reflexivity.
  - rewrite sum_Z_app. lia.
Qed.

Lemma evolves_refl w : evolves w w [].
Proof.
  repeat split; try reflexivity; [apply clock_follows_refl|].
  rewrite app_nil_r. reflexivity.
Qed.

Lemma evolves_trans w1 w2 w3 ev1 ev2 :
  evolves w1 w2 ev1 -> evolves w2 w3 ev2 -> evolves w1 w3 (ev1 ++ ev2).
Proof.
  intros (D1 & H1 & C1 & T1) (D2 & H2 & C2 & T2). repeat split.
  - congruence.
  - congruence.
  - eapply clock_follows_trans; eassumption.
  - rewrite T2, T1, app_assoc. reflexivity.
Qed.

Lemma evolves_emit w ev :
  evolves w (set_trace (trace w ++ ev) w) ev.
Proof.
  repeat split; try reflexivity.
  exists []. cbn. split; [reflexivity | lia].
Qed.


Lemma poll_abort_spec ac w :
  exists b w', poll_abort ac w = (Returned b, w') /\ evolves w w' [].
Proof.
  unfold poll_abort. destruct ac.
  - destruct (abort_script w) as [|b rest] eqn:E.
    + exists false, w. split; [reflexivity | apply evolves_refl].
    + exists b, (set_abort_script rest w). split; [reflexivity|].
      repeat split; cbn; try reflexivity.
      * exists []. cbn. split; [reflexivity | lia].
      * rewrite app_nil_r. reflexivity.
  - exists false, w. split; [reflexivity | apply evolves_refl].
Qed.

Lemma datetime_now_spec w :
  exists t w', datetime_now w = (Returned t, w') /\ evolves w w' []
               /\ t = now w'.
Proof.
  unfold datetime_now. destruct (clock_script w) as [|d rest] eqn:E.
  - exists (now w), w. repeat split; try reflexivity.
    + apply clock_follows_refl.
    + rewrite app_nil_r. reflexivity.
  - exists (now w + d), (set_clock (now w + d) rest w).
    repeat split; cbn; try reflexivity.
    + exists [d]. cbn. split; [exact E | lia].
    + rewrite app_nil_r. reflexivity.
Qed.

Lemma report_progress_spec pcb cur tot w :
  report_progress pcb cur tot w
  = (Returned tt, set_trace (trace w ++ progress_events pcb cur tot) w).
Proof.
  unfold report_progress, progress_events. destruct pcb; cbn.
  - reflexivity.
  - unfold ret. rewrite app_nil_r. destruct w; reflexivity.
Qed.

Lemma in_progress_events pcb cur tot e :
  In e (progress_events pcb cur tot) -> e = EvProgress cur tot.
Proof.
  destruct pcb; cbn; intros H; [destruct H as [H|[]]; auto | destruct H].
Qed.

(** Decides what an event found in a list of emitted events can be. *)
Ltac in_events Hin :=
  repeat match type of Hin with
         | In _ (_ ++ _) => apply in_app_or in Hin; destruct Hin as [Hin|Hin]
         | In _ (progress_events _ _ _) =>
             apply in_progress_events in Hin; discriminate
         | In _ (_ :: _) => destruct Hin as [Hin|Hin]
         | In _ [] => destruct Hin
         | _ = _ => first [discriminate | congruence]
         end.

(** ** The chunked hasher *)

Section CoreProperties.
Context {rt : Runtime}.

Lemma file_read_split n file :
  file = fst (file_read n file) ++ snd (file_read n file).
Proof.
  revert n. induction file as [|b rest IH]; intros n; cbn; [reflexivity|].
  destruct (0 <? n); [|reflexivity].
  specialize (IH (n - 1)). destruct (file_read (n - 1) rest) as [c l].
  cbn in *. congruence.
Qed.

Lemma file_read_progress n file :
  0 < n -> fst (file_read n file) = [] -> file = [].
Proof.
  intros Hn. destruct file as [|b rest]; cbn; [reflexivity|].
  apply Z.ltb_lt in Hn. rewrite Hn.
  destruct (file_read (n - 1) rest). discriminate.
Qed.

(** The digest does not depend on where the chunk boundaries fall: the
    loop feeds the hasher exactly the bytes of the file. *)
Lemma hash_loop_all chunk_size :
  0 < chunk_size ->
  forall fuel hasher file,
    (List.length file < fuel)%nat ->
    hash_loop fuel chunk_size hasher file = hasher ++ file.
Proof.
  intros Hc. induction fuel as [|fuel IH]; intros hasher file Hlen; [lia|].
  cbn [hash_loop].
  pose proof (file_read_split chunk_size file) as Hsplit.
  pose proof (file_read_progress chunk_size file Hc) as Hprog.
  destruct (file_read chunk_size file) as [chunk left]. cbn in *.
  destruct chunk as [|b chunk].
  - rewrite Hprog by reflexivity. rewrite app_nil_r. reflexivity.
  - unfold hasher_update. rewrite IH.
    + rewrite Hsplit, app_assoc. reflexivity.
    + rewrite Hsplit in Hlen. rewrite length_app in Hlen. cbn in Hlen. lia.
Qed.

Lemma hash_file_chunked_bytes file :
  _hash_file_chunked (inr file) WRITE_CHUNK_BYTES = inr (sha256 file).
Proof.
  unfold _hash_file_chunked, hexdigest.
  rewrite hash_loop_all; [reflexivity | reflexivity | lia].
Qed.

Lemma write_loop_same fuel :
  forall g hasher file written fsize,
    hasher = file ->
    fst (write_loop fuel g hasher file written fsize)
    = snd (write_loop fuel g hasher file written fsize).
Proof.
  induction fuel as [|fuel IH]; intros g hasher file written fsize E;
    cbn [write_loop]; [exact E|].
  destruct (written <? fsize); [|exact E].
  destruct (randbytes g _) as [chunk g']. apply IH.
  unfold hasher_update. rewrite E. reflexivity.
Qed.

(** The expected hash is the digest of exactly the bytes handed to
    [f.write]. *)
Lemma expected_hash_of_content batch_i fsize :
  batch_expected_hash batch_i fsize = sha256 (batch_content batch_i fsize).
Proof.
  unfold batch_expected_hash, batch_content, hexdigest, generate_batch.
  rewrite write_loop_same; reflexivity.
Qed.

Lemma intact_read_hash batch_i fsize :
  _hash_file_chunked (answer Intact (batch_content batch_i fsize))
    WRITE_CHUNK_BYTES = inr (batch_expected_hash batch_i fsize).
Proof.
  cbn [answer]. rewrite hash_file_chunked_bytes, expected_hash_of_content.
  reflexivity.
Qed.

(** ** One batch *)

Lemma write_verify_batch_spec msg pcb ts i fsize vd w :
  exists x ev,
    write_verify_batch msg pcb ts i fsize vd w
    = (Returned x, set_trace (trace w ++ ev) w)
    /\ step_spec msg pcb ts i fsize vd (fate (drive w) i) x ev.
Proof.
  unfold write_verify_batch.
  destruct (generate_batch i fsize) as [hasher content] eqn:G.
  assert (Hc : batch_content i fsize = content)
    by (unfold batch_content; rewrite G; reflexivity).
  assert (He : batch_expected_hash i fsize = hexdigest hasher)
    by (unfold batch_expected_hash; rewrite G; reflexivity).
  rewrite <- Hc, <- He. clear G Hc He hasher content.
  set (exp := batch_expected_hash i fsize).
  set (content := batch_content i fsize).
  set (f := fate (drive w) i).
  erewrite bind_returned by apply report_progress_spec.
  unfold device_write at 1.
  erewrite bind_returned by reflexivity.
  cbn [drive set_trace trace].
  fold f.
  destruct (write_error f) as [e|] eqn:W.
  { do 2 eexists. split.
    - unfold ret. f_equal. unfold set_trace. cbn. rewrite <- app_assoc. reflexivity.
    - apply step_write_error. exact W. }
  erewrite bind_returned by apply report_progress_spec.
  unfold device_read at 1.
  erewrite bind_returned by reflexivity.
  cbn [drive set_trace trace reply_of]. fold f.
  destruct (_hash_file_chunked (answer (first_read f) content) WRITE_CHUNK_BYTES)
    as [e|h1] eqn:R1.
  { do 2 eexists. split.
    - unfold ret. f_equal. unfold set_trace. cbn. repeat rewrite <- app_assoc. reflexivity.
    - apply step_read1_error; assumption. }
  destruct (String.eqb h1 exp) eqn:E1; cbn [negb].
  2:{ do 2 eexists. split.
    - unfold ret. f_equal. unfold set_trace. cbn. repeat rewrite <- app_assoc. reflexivity.
    - apply step_first_mismatch; try assumption. apply String.eqb_neq. exact E1. }
  apply String.eqb_eq in E1. subst h1.
  erewrite bind_returned by apply report_progress_spec.
  unfold device_read at 1.
  erewrite bind_returned by reflexivity.
  cbn [drive set_trace trace reply_of]. fold f.
  destruct (_hash_file_chunked (answer (second_read f) content) WRITE_CHUNK_BYTES)
    as [e|h2] eqn:R2.
  { do 2 eexists. split.
    - unfold ret. f_equal. unfold set_trace. cbn. repeat rewrite <- app_assoc. reflexivity.
    - apply step_read2_error; assumption. }
  cbn [andb].
  destruct (String.eqb h2 exp) eqn:E2.
  - apply String.eqb_eq in E2. subst h2. rewrite String.eqb_refl. cbn [andb negb].
    do 2 eexists. split.
    + unfold ret. f_equal. unfold set_trace. cbn. repeat rewrite <- app_assoc. reflexivity.
    + apply step_pass; assumption.
  - cbn [andb negb].
    do 2 eexists. split.
    + unfold ret. f_equal. unfold set_trace. cbn. repeat rewrite <- app_assoc. reflexivity.
    + apply step_second_mismatch; try assumption. apply String.eqb_neq. exact E2.
Qed.

Lemma stamps_written_app ev1 ev2 :
  stamps_written (ev1 ++ ev2) = stamps_written ev1 ++ stamps_written ev2.
Proof. unfold stamps_written. apply flat_map_app. Qed.

Lemma stamps_written_progress pcb cur tot :
  stamps_written (progress_events pcb cur tot) = [].
Proof. destruct pcb; reflexivity. Qed.

(** Facts about the events of one batch. *)
Lemma step_spec_events msg pcb ts i fsize vd f x ev :
  step_spec msg pcb ts i fsize vd f x ev ->
  stamps_written ev = []
  /\ (forall j s, In (EvRead j s) ev -> j = i).
Proof.
  intros H. split.
  - destruct H; repeat rewrite stamps_written_app;
      repeat rewrite stamps_written_progress; reflexivity.
  - intros j s Hin.
    destruct H; in_events Hin.
Qed.

Lemma step_spec_inr msg pcb ts i fsize vd f vd' ev :
  step_spec msg pcb ts i fsize vd f (inr vd') ev ->
  exists v, vd' = vd ++ [v] /\ clean v /\ br_batch v = i + 1
            /\ br_expected_hash v = batch_expected_hash i fsize.
Proof.
  intros H. inversion H; subst.
  eexists. split; [reflexivity|]. repeat split.
Qed.

Lemma step_spec_inl msg pcb ts i fsize vd f r ev :
  step_spec msg pcb ts i fsize vd f (inl r) ev ->
  passed r = false /\ message r = msg /\ abort_info r = None
  /\ (verification_details r = vd
      \/ exists bad, verification_details r = vd ++ [bad]
           /\ br_batch bad = i + 1
           /\ br_expected_hash bad = batch_expected_hash i fsize
           /\ br_match bad = false
           /\ ((br_read1_hash bad <> br_expected_hash bad
                /\ br_read2_hash bad = None
                /\ details r = "Hash mismatch on batch "
                               +++ str_of_Z (br_batch bad)
                               +++ " (first read)."
                /\ ~ In (EvRead i true) ev)
               \/ second_read_failure r bad)).
Proof.
  intros H. inversion H; subst; cbn; repeat split; auto.
  - right. eexists. split; [reflexivity|]. cbn. repeat split.
    left. repeat split; auto.
    intros Hin. in_events Hin.
  - right. eexists. split; [reflexivity|]. cbn. repeat split.
    right. unfold second_read_failure. cbn. repeat split.
    eexists; split; [reflexivity | assumption].
Qed.

(** ** The loop over the batches *)

Lemma indexed_snoc batch_sizes done later fsize vd v :
  batch_sizes = done ++ fsize :: later ->
  List.length done = List.length vd ->
  indexed batch_sizes vd ->
  br_batch v = Z.of_nat (List.length vd) + 1 ->
  br_expected_hash v = batch_expected_hash (Z.of_nat (List.length vd)) fsize ->
  indexed batch_sizes (vd ++ [v]).
Proof.
  intros Hb Hlen Hidx Hbatch Hexp k u Hk.
  destruct (Nat.lt_ge_cases k (List.length vd)) as [Hlt|Hge].
  - rewrite nth_error_app1 in Hk by exact Hlt. apply Hidx. exact Hk.
  - rewrite nth_error_app2 in Hk by exact Hge.
    destruct (k - List.length vd)%nat as [|n] eqn:E; cbn in Hk.
    + injection Hk as <-. assert (k = List.length vd) by lia. subst k.
      split; [exact Hbatch|]. exists fsize. split; [|exact Hexp].
      rewrite Hb, nth_error_app2 by lia.
      rewrite Hlen, Nat.sub_diag. reflexivity.
    + destruct n; discriminate.
Qed.

Lemma cycle_loop_spec msg pcb ac ts batch_sizes :
  forall batches done vd w,
    batch_sizes = done ++ batches ->
    List.length done = List.length vd ->
    Forall clean vd ->
    indexed batch_sizes vd ->
    exists exit w' ev,
      cycle_loop msg pcb ac ts batches (Z.of_nat (List.length vd)) vd w
      = (Returned exit, w')
      /\ evolves w w' ev
      /\ stamps_written ev = []
      /\ (forall j s, In (EvRead j s) ev -> Z.of_nat (List.length vd) <= j)
      /\ (exists more, exit_records exit = vd ++ more)
      /\ exit_post msg batch_sizes exit ev.
Proof.
  induction batches as [|fsize later IH]; intros done vd w Hb Hlen Hclean Hidx.
  - exists (ExitDone vd), w, []. cbn.
    split; [reflexivity|]. split; [apply evolves_refl|].
    split; [reflexivity|]. split; [intros j s []|].
    split; [exists []; rewrite app_nil_r; reflexivity|].
    split; [exact Hclean|]. split; [exact Hidx|].
    rewrite Hb, app_nil_r. symmetry. exact Hlen.
  - cbn [cycle_loop].
    destruct (poll_abort_spec ac w) as (stop & w1 & Hpoll & Hev1).
    rewrite (bind_returned _ _ _ _ _ Hpoll).
    destruct stop.
    + exists (ExitBreak vd), w1, [].
      split; [reflexivity|]. split; [exact Hev1|].
      split; [reflexivity|]. split; [intros j s []|].
      split; [exists []; rewrite app_nil_r; reflexivity|].
      split; [exact Hclean|]. split; [exact Hidx|].
      rewrite Hb, length_app. cbn. lia.
    + destruct (write_verify_batch_spec msg pcb ts
                  (Z.of_nat (List.length vd)) fsize vd w1)
        as (x & ev & Hstep & Hspec).
      rewrite (bind_returned _ _ _ _ _ Hstep).
      pose proof (step_spec_events _ _ _ _ _ _ _ _ _ Hspec) as [Hst Hrd].
      assert (Hev2 : evolves w (set_trace (trace w1 ++ ev) w1) ev).
      { replace ev with ([] ++ ev) at 2 by reflexivity.
        eapply evolves_trans; [exact Hev1 | apply evolves_emit]. }
      destruct x as [r|vd'].
      * exists (ExitReturn r), (set_trace (trace w1 ++ ev) w1), ev.
        split; [reflexivity|]. split; [exact Hev2|]. split; [exact Hst|].
        split; [intros j s Hin; rewrite (Hrd _ _ Hin); lia|].
        apply step_spec_inl in Hspec.
        destruct Hspec as (Hp & Hm & Ha & Hvd).
        split.
        { destruct Hvd as [Hvd|(bad & Hvd & _)]; cbn; rewrite Hvd;
            [exists []; rewrite app_nil_r | exists [bad]]; reflexivity. }
        cbn. unfold failing.
        split; [exact Hp|]. split; [exact Hm|]. split; [exact Ha|]. split.
        -- destruct Hvd as [->|(bad & -> & Hbn & Hbe & _)]; [exact Hidx|].
           eapply indexed_snoc; eauto.
        -- exists vd. split; [exact Hclean|].
           destruct Hvd as [Hvd|(bad & Hvd & Hbn & Hbe & Hbm & Hkind)];
             [left; exact Hvd|].
           right. exists bad. split; [exact Hvd|]. split; [exact Hbm|].
           destruct Hkind as [(K1 & K2 & K3 & K4)|K]; [left|right; exact K].
           unfold first_read_failure.
           split; [exact K1|]. split; [exact K2|]. split; [exact K3|].
           rewrite Hbn. replace (Z.of_nat (List.length vd) + 1 - 1)
             with (Z.of_nat (List.length vd)) by lia. exact K4.
      * apply step_spec_inr in Hspec.
        destruct Hspec as (v & -> & Hcv & Hbn & Hbe).
        assert (Hlen' : List.length (done ++ [fsize])
                        = List.length (vd ++ [v])).
        { rewrite !length_app. cbn. lia. }
        assert (Hb' : batch_sizes = (done ++ [fsize]) ++ later).
        { rewrite <- app_assoc. exact Hb. }
        assert (Hidx' : indexed batch_sizes (vd ++ [v])).
        { eapply indexed_snoc; eauto. }
        assert (Hclean' : Forall clean (vd ++ [v])).
        { apply Forall_app. split; [exact Hclean | constructor; auto]. }
        destruct (IH (done ++ [fsize]) (vd ++ [v])
                    (set_trace (trace w1 ++ ev) w1) Hb' Hlen' Hclean' Hidx')
          as (exit & w' & ev' & Hloop & Hev3 & Hst' & Hrd' & Hpre & Hpost).
        assert (Hnext : Z.of_nat (List.length (vd ++ [v]))
                        = Z.of_nat (List.length vd) + 1).
        { rewrite length_app. cbn. lia. }
        rewrite Hnext in Hloop, Hrd'.
        exists exit, w', (ev ++ ev'). split; [exact Hloop|].
        split; [eapply evolves_trans; eassumption|].
        split; [rewrite stamps_written_app, Hst, Hst'; reflexivity|].
        split.
        { intros j s Hin. apply in_app_or in Hin. destruct Hin as [Hin|Hin].
          - rewrite (Hrd _ _ Hin). lia.
          - specialize (Hrd' _ _ Hin). lia. }
        destruct Hpre as [more Hmore].
        split; [exists (v :: more); rewrite Hmore, <- app_assoc; reflexivity|].
        destruct exit as [r|vd''|vd'']; cbn in Hpost |- *; try exact Hpost.
        unfold failing in *.
        destruct Hpost as (Hp & Hm & Ha & Hix & good & Hg & Hvd).
        split; [exact Hp|]. split; [exact Hm|]. split; [exact Ha|].
        split; [exact Hix|]. exists good. split; [exact Hg|].
        destruct Hvd as [Hvd|(bad & Hvd & Hbm & Hkind)]; [left; exact Hvd|].
        right. exists bad. split; [exact Hvd|]. split; [exact Hbm|].
        destruct Hkind as [(K1 & K2 & K3 & K4)|K]; [left|right; exact K].
        unfold first_read_failure.
        split; [exact K1|]. split; [exact K2|]. split; [exact K3|].
        intros Hin. apply in_app_or in Hin. destruct Hin as [Hin|Hin];
          [|exact (K4 Hin)].
        (* the failing batch comes after this one *)
        pose proof (Hrd _ _ Hin) as Hj.
        cbn in Hmore. rewrite Hvd in Hmore.
        assert (Hbad : br_batch bad = Z.of_nat (List.length good) + 1).
        { apply (Hix (List.length good) bad). rewrite Hvd.
          rewrite nth_error_app2, Nat.sub_diag by lia. reflexivity. }
        destruct more as [|m more].
        -- rewrite app_nil_r in Hmore.
           apply app_inj_tail in Hmore. destruct Hmore as [_ ->].
           destruct Hcv as [Hcv _]. congruence.
        -- apply (f_equal (@List.length _)) in Hmore.
           rewrite !length_app in Hmore. cbn in Hmore. lia.
Qed.

Lemma quick_check_loop_cycle pcb ac ts :
  forall batches i vd w,
    quick_check_loop pcb ac ts batches i vd w
    = cycle_loop "Integrity check failed" pcb ac ts batches i vd w.
Proof.
  induction batches as [|fsize later IH]; intros i vd w; [reflexivity|].
  cbn [quick_check_loop cycle_loop]. unfold bind.
  destruct (poll_abort ac w) as [[[|]|e] w1]; try reflexivity.
  destruct (write_verify_batch _ _ _ _ _ _ w1) as [[[r|vd']|e] w2];
    try reflexivity.
  apply IH.
Qed.

Lemma free_space_loop_cycle pcb ac bs usable ts :
  forall batches i vd w,
    free_space_loop pcb ac bs usable ts batches i vd w
    = bind (cycle_loop "Free-space sweep failed" pcb ac ts batches i vd)
        (finish "Free-space sweep aborted by user" " bytes (~"
           "Free-space sweep passed" pcb bs usable ts) w.
Proof.
  induction batches as [|fsize later IH]; intros i vd w; [reflexivity|].
  cbn [free_space_loop cycle_loop]. unfold bind.
  destruct (poll_abort ac w) as [[[|]|e] w1]; try reflexivity.
  destruct (write_verify_batch _ _ _ _ _ _ w1) as [[[r|vd']|e] w2];
    try reflexivity.
  rewrite IH. reflexivity.
Qed.

Lemma forallb_clean vd : Forall clean vd -> forallb br_match vd = true.
Proof.
  induction 1 as [|v vd [Hv _] _ IH]; [reflexivity|].
  cbn. rewrite Hv, IH. reflexivity.
Qed.

Lemma failing_more_events msg bs r ev ev' :
  (forall j, In (EvRead j true) ev' -> In (EvRead j true) ev) ->
  failing msg bs r ev -> failing msg bs r ev'.
Proof.
  intros Hsub (Hp & Hm & Ha & Hix & good & Hg & Hvd).
  split; [exact Hp|]. split; [exact Hm|]. split; [exact Ha|].
  split; [exact Hix|]. exists good. split; [exact Hg|].
  destruct Hvd as [Hvd|(bad & Hvd & Hbm & Hkind)]; [left; exact Hvd|].
  right. exists bad. split; [exact Hvd|]. split; [exact Hbm|].
  destruct Hkind as [(K1 & K2 & K3 & K4)|K]; [left|right; exact K].
  split; [exact K1|]. split; [exact K2|]. split; [exact K3|].
  intros Hin. apply K4, Hsub, Hin.
Qed.

(** What follows the loop turns the way the loop ended into the result
    of the run. *)
Lemma finish_spec amsg word pmsg fmsg pcb size_bytes ts exit ev0 w :
  1024 <= size_bytes ->
  exit_post fmsg (plan_batches MAX_FILE_BYTES size_bytes) exit ev0 ->
  exists o w' ev,
    finish amsg word pmsg pcb (plan_batches MAX_FILE_BYTES size_bytes)
      size_bytes ts exit w = (o, w')
    /\ evolves w w' ev
    /\ stamps_written ev = []
    /\ (forall e, In e ev -> e = EvProgress ts ts)
    /\ match o with
       | Returned r => run_post fmsg size_bytes r ev0
       | Raised _ => True
       end.
Proof.
  intros Hsize Hpost. destruct exit as [r|vd|vd]; cbn [finish exit_post] in *.
  - exists (Returned r), w, []. split; [reflexivity|].
    split; [apply evolves_refl|]. split; [reflexivity|].
    split; [intros e []|]. apply run_failed; assumption.
  - destruct Hpost as (Hclean & Hidx & Hlen).
    unfold aborted_result, bind, lift.
    destruct (confidence_pct _ _) as [pct|e] eqn:Hpct.
    + eexists (Returned _), w, []. split; [reflexivity|].
      split; [apply evolves_refl|]. split; [reflexivity|].
      split; [intros e []|].
      apply run_aborted with (pct := pct); cbn; auto.
      apply forallb_clean. exact Hclean.
    + exists (Raised e), w, []. split; [reflexivity|].
      split; [apply evolves_refl|]. split; [reflexivity|].
      split; [intros e0 []|]. exact I.
  - destruct Hpost as (Hclean & Hidx & Hlen).
    erewrite bind_returned by apply report_progress_spec.
    eexists (Returned _), _, _. split; [reflexivity|].
    split; [apply evolves_emit|].
    split; [apply stamps_written_progress|].
    split; [intros e He; apply in_progress_events in He; exact He|].
    apply run_passed; cbn; auto.
Qed.

(** ** Whole runs of the two checks *)

Lemma run_post_more_events msg size r ev ev' :
  (forall j, In (EvRead j true) ev' -> In (EvRead j true) ev) ->
  (forall j n, In (EvWrite j n) ev' -> In (EvWrite j n) ev) ->
  run_post msg size r ev -> run_post msg size r ev'.
Proof.
  intros Hr Hw H. destruct H.
  - apply run_refused; auto. intros j n Hin. eapply H3, Hw, Hin.
  - apply run_failed; auto. eapply failing_more_events; eassumption.
  - eapply run_aborted; eauto.
  - apply run_passed; auto.
Qed.

(** The part of a run after the planned size passed the 1 KiB floor. *)
Lemma cycle_run fmsg amsg word pmsg prefix pcb ac size_bytes w :
  1024 <= size_bytes ->
  exists o w' ev,
    bind datetime_now (fun _ =>
      bind (mkdir_temp prefix) (fun made =>
        match made with
        | Some e =>
            ret (failure fmsg ("Could not create test directory: " +++ e) [])
        | None =>
            finally
              (bind (cycle_loop fmsg pcb ac
                       (Z.of_nat (List.length
                          (plan_batches MAX_FILE_BYTES size_bytes)) * 3)
                       (plan_batches MAX_FILE_BYTES size_bytes) 0 [])
                 (finish amsg word pmsg pcb
                    (plan_batches MAX_FILE_BYTES size_bytes) size_bytes
                    (Z.of_nat (List.length
                       (plan_batches MAX_FILE_BYTES size_bytes)) * 3)))
              cleanup_temp
        end)) w = (o, w')
    /\ evolves w w' ev
    /\ stamps_written ev = []
    /\ match o with
       | Returned r => run_post fmsg size_bytes r ev
       | Raised _ => True
       end.
Proof.
  intros Hsize.
  destruct (datetime_now_spec w) as (t & w1 & Hnow & Hev1 & _).
  rewrite (bind_returned _ _ _ _ _ Hnow).
  unfold mkdir_temp at 1. erewrite bind_returned by reflexivity.
  assert (Hev2 : evolves w (set_trace (trace w1 ++ [EvMkdir prefix]) w1)
                   [EvMkdir prefix]).
  { change [EvMkdir prefix] with ([] ++ [EvMkdir prefix]) at 2.
    eapply evolves_trans; [exact Hev1 | apply evolves_emit]. }
  destruct (mkdir_error (drive w1)) as [e|].
  - eexists (Returned _), _, _. split; [reflexivity|].
    split; [exact Hev2|]. split; [reflexivity|].
    apply run_refused; try reflexivity.
    intros j n [Hin|[]]. discriminate.
  - set (w2 := set_trace (trace w1 ++ [EvMkdir prefix]) w1) in *.
    set (bs := plan_batches MAX_FILE_BYTES size_bytes).
    destruct (cycle_loop_spec fmsg pcb ac (Z.of_nat (List.length bs) * 3)
                bs bs [] [] w2 eq_refl eq_refl (Forall_nil _))
      as (exit & w3 & ev3 & Hloop & Hev3 & Hst3 & _ & _ & Hpost).
    { intros k v Hk. destruct k; discriminate. }
    cbn [List.length Z.of_nat] in Hloop.
    unfold finally. rewrite (bind_returned _ _ _ _ _ Hloop).
    destruct (finish_spec amsg word pmsg fmsg pcb size_bytes
                (Z.of_nat (List.length bs) * 3) exit ev3 w3 Hsize Hpost)
      as (o & w4 & ev4 & Hfin & Hev4 & Hst4 & Hprog & Hres).
    fold bs in Hfin. rewrite Hfin.
    exists o, (cleanup_temp w4), ([EvMkdir prefix] ++ ev3 ++ ev4 ++ [EvCleanup]).
    split; [reflexivity|]. split.
    { eapply evolves_trans; [exact Hev2|].
      eapply evolves_trans; [exact Hev3|].
      eapply evolves_trans; [exact Hev4|]. apply evolves_emit. }
    split.
    { rewrite !stamps_written_app, Hst3, Hst4. reflexivity. }
    destruct o as [r|e]; [|exact I].
    eapply run_post_more_events; [| |exact Hres].
    + intros j Hin. rewrite !in_app_iff in Hin.
      destruct Hin as [[Hin|[]]|[Hin|[Hin|[Hin|[]]]]];
        try discriminate; [exact Hin|].
      apply Hprog in Hin. discriminate.
    + intros j n Hin. rewrite !in_app_iff in Hin.
      destruct Hin as [[Hin|[]]|[Hin|[Hin|[Hin|[]]]]];
        try discriminate; [exact Hin|].
      apply Hprog in Hin. discriminate.
Qed.

Lemma free_space_sweep_run root pcb ac w :
  exists o w' ev,
    free_space_sweep root pcb ac w = (o, w')
    /\ evolves w w' ev
    /\ stamps_written ev = []
    /\ match o with
       | Returned r => run_post "Free-space sweep failed" (usable_of w) r ev
       | Raised _ => True
       end.
Proof.
  unfold free_space_sweep, get_drive_usage.
  erewrite bind_returned by reflexivity. cbv beta iota. fold (usable_of w).
  destruct (usable_of w <? 1024) eqn:Hsmall.
  - eexists (Returned _), w, []. split; [reflexivity|].
    split; [apply evolves_refl|]. split; [reflexivity|].
    apply run_refused; try reflexivity. intros j n [].
  - apply Z.ltb_ge in Hsmall.
    destruct (cycle_run "Free-space sweep failed"
                "Free-space sweep aborted by user" " bytes (~"
                "Free-space sweep passed" "SentinelSweep" pcb ac
                (usable_of w) w Hsmall)
      as (o & w' & ev & Hrun & Hev & Hst & Hres).
    exists o, w', ev. split; [|auto].
    rewrite <- Hrun. unfold bind.
    destruct (datetime_now w) as [[t|e] w1]; [|reflexivity].
    destruct (mkdir_temp "SentinelSweep" w1) as [[[e|]|e] w2];
      try reflexivity.
    unfold finally. rewrite free_space_loop_cycle. reflexivity.
Qed.

Lemma quick_check_run root frac pcb ac w :
  exists o w' ev,
    quick_check root frac pcb ac w = (o, w')
    /\ evolves w w' ev
    /\ stamps_written ev = []
    /\ match o with
       | Returned r =>
           exists size_bytes,
             planned_size frac w = Returned size_bytes
             /\ run_post "Integrity check failed" size_bytes r ev
       | Raised e => planned_size frac w = Raised e
                     \/ exists size_bytes,
                          planned_size frac w = Returned size_bytes
       end.
Proof.
  unfold quick_check, get_drive_usage, planned_size.
  erewrite bind_returned by reflexivity. cbv beta iota.
  unfold lift at 1.
  destruct (target_bytes_of frac (disk_total (drive w))) as [target|e].
  2:{ exists (Raised e), w, []. split; [reflexivity|].
      split; [apply evolves_refl|]. split; [reflexivity|]. left. reflexivity. }
  erewrite bind_returned by reflexivity. fold (usable_of w).
  destruct (Z.min target (usable_of w) <? 1024) eqn:Hsmall.
  - eexists (Returned _), w, []. split; [reflexivity|].
    split; [apply evolves_refl|]. split; [reflexivity|].
    eexists. split; [reflexivity|].
    apply run_refused; try reflexivity. intros j n [].
  - apply Z.ltb_ge in Hsmall.
    destruct (cycle_run "Integrity check failed"
                "Check aborted by user" " bytes tested (~"
                "Integrity check passed" "SentinelCheck" pcb ac
                (Z.min target (usable_of w)) w Hsmall)
      as (o & w' & ev & Hrun & Hev & Hst & Hres).
    exists o, w', ev. split.
    { rewrite <- Hrun. unfold bind.
      destruct (datetime_now w) as [[t|e] w1]; [|reflexivity].
      destruct (mkdir_temp "SentinelCheck" w1) as [[[e|]|e] w2];
        try reflexivity.
      unfold finally. rewrite quick_check_loop_cycle. reflexivity. }
    split; [exact Hev|]. split; [exact Hst|].
    destruct o as [r|e]; [|right]; eexists; eauto.
Qed.

End CoreProperties.

(** ** Results of runs, seen from outside *)



Lemma events_of_run w w' ev :
  evolves w w' ev -> new_events w w' = ev.
Proof.
  intros (_ & _ & _ & Ht). unfold new_events. rewrite Ht.
  rewrite skipn_app, Nat.sub_diag, skipn_all. reflexivity.
Qed.

Lemma quick_check_run_post (rt : Runtime) root frac pcb ac w w' r :
  quick_check root frac pcb ac w = (Returned r, w') ->
  exists size,
    planned_size frac w = Returned size
    /\ run_post "Integrity check failed" size r
         (new_events w w').
Proof.
  intros Hrun.
  destruct (quick_check_run root frac pcb ac w)
    as (o & w1 & ev & Hq & Hev & _ & Hres).
  rewrite Hrun in Hq. injection Hq as <- <-.
  destruct Hres as (size & Hsize & Hpost).
  rewrite (events_of_run _ _ _ Hev). eauto.
Qed.

Lemma free_space_sweep_run_post (rt : Runtime) root pcb ac w w' r :
  free_space_sweep root pcb ac w = (Returned r, w') ->
  run_post "Free-space sweep failed" (usable_of w) r
    (new_events w w').
Proof.
  intros Hrun.
  destruct (free_space_sweep_run root pcb ac w)
    as (o & w1 & ev & Hq & Hev & _ & Hres).
  rewrite Hrun in Hq. injection Hq as <- <-.
  rewrite (events_of_run _ _ _ Hev). exact Hres.
Qed.

Lemma check_run_post (rt : Runtime) root frac pcb ac w w' r :
  quick_check root frac pcb ac w = (Returned r, w')
  \/ free_space_sweep root pcb ac w = (Returned r, w') ->
  exists msg size,
    run_post msg size r (new_events w w').
Proof.
  intros [Hrun|Hrun].
  - destruct (quick_check_run_post rt _ _ _ _ _ _ _ Hrun) as (size & _ & H).
    eauto.
  - pose proof (free_space_sweep_run_post rt _ _ _ _ _ _ Hrun). eauto.
Qed.


(** ** The manifest engine *)

Section ManifestProperties.
Context {rt : Runtime}.

Lemma open_drive_file_spec p w :
  open_drive_file p w
  = (Returned match dict_get p (tree (drive w)) with
              | Some (RegularFile content) => inr content
              | Some (UnreadableFile err) => inl err
              | Some Directory => inl "Is a directory"
              | None => inl "No such file or directory"
              end,
     set_trace (trace w ++ [EvHash p]) w).
Proof. reflexivity. Qed.

Lemma verify_loop_spec pcb ac total :
  forall entries i mismatches vd w,
    exists new ab w' ev,
      verify_loop pcb ac total entries i mismatches vd w
      = (Returned (is_empty (mismatches ++ flat_map mismatch_of new),
                   mismatches ++ flat_map mismatch_of new,
                   vd ++ new, ab), w')
      /\ evolves w w' ev
      /\ stamps_written ev = []
      /\ (exists k, (ab = false -> k = List.length entries)
                    /\ Forall2 (fun e v =>
                                  entry_outcome (tree (drive w))
                                    (fst e) (snd e) v)
                         (firstn k entries) new).
Proof.
  induction entries as [|[rel expected] later IH];
    intros i mismatches vd w.
  - exists [], false, w, []. cbn [verify_loop flat_map].
    rewrite !app_nil_r. split; [reflexivity|].
    split; [apply evolves_refl|]. split; [reflexivity|].
    exists 0%nat. split; [reflexivity | constructor].
  - cbn [verify_loop].
    destruct (poll_abort_spec ac w) as (stop & w1 & Hpoll & Hev1).
    rewrite (bind_returned _ _ _ _ _ Hpoll).
    destruct stop.
    + exists [], true, w1, []. cbn [flat_map]. rewrite !app_nil_r.
      split; [reflexivity|]. split; [exact Hev1|]. split; [reflexivity|].
      exists 0%nat. split; [discriminate | constructor].
    + (* the rest of the loop, once this entry left the record [v] *)
      assert (Hgo : forall v w3 evs,
                 evolves w w3 evs -> stamps_written evs = [] ->
                 entry_outcome (tree (drive w)) rel expected v ->
                 exists new ab w' ev,
                   verify_loop pcb ac total later (i + 1)
                     (mismatches ++ mismatch_of v) (vd ++ [v]) w3
                   = (Returned
                        (is_empty (mismatches ++ flat_map mismatch_of new),
                         mismatches ++ flat_map mismatch_of new,
                         vd ++ new, ab), w')
                   /\ evolves w w' ev
                   /\ stamps_written ev = []
                   /\ (exists k,
                         (ab = false
                          -> k = List.length ((rel, expected) :: later))
                         /\ Forall2 (fun e v0 =>
                                       entry_outcome (tree (drive w))
                                         (fst e) (snd e) v0)
                              (firstn k ((rel, expected) :: later)) new)).
      { intros v w3 evs Hev3 Hst3 Hout.
        destruct (IH (i + 1) (mismatches ++ mismatch_of v) (vd ++ [v]) w3)
          as (new & ab & w' & ev & Hloop & Hev & Hst & k & Hk & Hf).
        exists (v :: new), ab, w', (evs ++ ev). split.
        { rewrite Hloop. cbn [flat_map]. rewrite <- !app_assoc.
          reflexivity. }
        split; [eapply evolves_trans; eassumption|].
        split; [rewrite stamps_written_app, Hst3, Hst; reflexivity|].
        exists (S k). split.
        { intros Hab. cbn [List.length]. rewrite (Hk Hab). reflexivity. }
        cbn [firstn]. constructor; [exact Hout|].
        destruct Hev3 as (Hd & _). rewrite Hd in Hf. exact Hf. }
      erewrite bind_returned by apply report_progress_spec.
      set (w2 := set_trace (trace w1 ++ progress_events pcb i total) w1).
      assert (Hev2 : evolves w w2 (progress_events pcb i total)).
      { change (progress_events pcb i total)
          with ([] ++ progress_events pcb i total).
        eapply evolves_trans; [exact Hev1 | apply evolves_emit]. }
      assert (Htree : tree (drive w2) = tree (drive w)).
      { destruct Hev2 as (Hd & _). rewrite Hd. reflexivity. }
      unfold path_exists at 1. erewrite bind_returned by reflexivity.
      fold (native_of rel). rewrite Htree.
      destruct (dict_get (native_of rel) (tree (drive w))) as [node|] eqn:L;
        cbn [negb].
      * rewrite (bind_returned _ _ _ _ _ (open_drive_file_spec _ _)).
        rewrite Htree, L.
        set (w3 := set_trace (trace w2 ++ [EvHash (native_of rel)]) w2).
        assert (Hev3 : evolves w w3 (progress_events pcb i total
                                     ++ [EvHash (native_of rel)])).
        { eapply evolves_trans; [exact Hev2 | apply evolves_emit]. }
        assert (Hst3 : stamps_written (progress_events pcb i total
                                       ++ [EvHash (native_of rel)]) = []).
        { rewrite stamps_written_app, stamps_written_progress.
          reflexivity. }
        destruct node as [content|err|].
        -- rewrite hash_file_chunked_bytes.
           destruct (String.eqb (sha256 content) expected) eqn:E.
           ++ apply String.eqb_eq in E. rewrite E.
              pose proof (Hgo (mkManifestRecord rel expected (Some expected)
                                 true None) _ _ Hev3 Hst3
                            (outcome_match _ _ _ content L E)) as Hrest.
              cbn [mismatch_of mr_match] in Hrest.
              rewrite app_nil_r in Hrest. exact Hrest.
           ++ apply String.eqb_neq in E.
              apply (Hgo (mkManifestRecord rel expected
                            (Some (sha256 content)) false None)
                       _ _ Hev3 Hst3).
              eapply outcome_mismatch; eassumption.
        -- apply (Hgo (mkManifestRecord rel expected None false
                         (Some "read error")) _ _ Hev3 Hst3).
           eapply outcome_read_error; [exact L | discriminate].
        -- apply (Hgo (mkManifestRecord rel expected None false
                         (Some "read error")) _ _ Hev3 Hst3).
           eapply outcome_read_error; [exact L | discriminate].
      * apply (Hgo (mkManifestRecord rel expected None false
                      (Some "missing")) _ _ Hev2
                 (stamps_written_progress _ _ _)).
        apply outcome_missing. exact L.
Qed.

End ManifestProperties.

(** Normalising a Windows path to the manifest key and back gives the
    path again. *)
Lemma native_of_key (p : string) :
  str_mem slash p = false ->
  native_of (str_replace backslash "/" p) = p.
Proof.
  unfold native_of, os_sep. induction p as [|a p IH]; [reflexivity|].
  intros H. cbn [str_mem] in H. apply orb_false_iff in H.
  destruct H as [Ha Hp]. specialize (IH Hp).
  cbn [str_replace]. destruct (Ascii.eqb a backslash) eqn:E.
  - apply Ascii.eqb_eq in E. subst a.
    change ("/" +++ str_replace backslash "/" p)
      with (String slash (str_replace backslash "/" p)).
    cbn [str_replace]. rewrite Ascii.eqb_refl.
    change (String backslash EmptyString +++ ?x) with (String backslash x).
    cbn [append]. rewrite IH. reflexivity.
  - cbn [str_replace]. rewrite Ha, IH. reflexivity.
Qed.

Lemma in_dict_set {V : Type} (k : string) (v : V) (d : list (string * V)) :
  forall k' v', In (k', v') (dict_set k v d) ->
                (k' = k /\ v' = v) \/ In (k', v') d.
Proof.
  induction d as [|[k0 v0] d IH]; cbn; intros k' v' H.
  - destruct H as [H|[]]. injection H as <- <-. left. auto.
  - destruct (String.eqb k0 k) eqn:E.
    + destruct H as [H|H].
      * injection H as <- <-. apply String.eqb_eq in E. left. auto.
      * right. right. exact H.
    + destruct H as [H|H].
      * right. left. exact H.
      * destruct (IH _ _ H) as [H'|H']; [left; exact H' | right; right; exact H'].
Qed.

Lemma dict_get_set_same {V : Type} (k : string) (v : V) d :
  dict_get k (dict_set k v d) = Some v.
Proof.
  induction d as [|[k0 v0] d IH]; cbn.
  - rewrite String.eqb_refl. reflexivity.
  - destruct (String.eqb k0 k) eqn:E; cbn; rewrite E; [reflexivity | exact IH].
Qed.

Section BuildProperties.
Context {rt : Runtime}.

Lemma entry_outcome_functional t rel expected v1 v2 :
  entry_outcome t rel expected v1 -> entry_outcome t rel expected v2 ->
  v1 = v2.
Proof.
  intros H1 H2.
  destruct H1 as [c1 L1 E1|c1 L1 E1|L1|n1 L1 N1];
    destruct H2 as [c2 L2 E2|c2 L2 E2|L2|n2 L2 N2];
    try reflexivity; try congruence;
    rewrite L1 in L2; try discriminate;
    try (injection L2 as <-); try congruence;
    try (exfalso; eapply N1; reflexivity);
    try (exfalso; eapply N2; reflexivity).
Qed.

Lemma build_loop_spec pcb ac total t :
  forall files i manifest paths w,
    tree (drive w) = t ->
    exists m' paths' ab w' ev,
      build_loop pcb ac total files i manifest paths w
      = (Returned (m', paths', ab), w')
      /\ evolves w w' ev
      /\ stamps_written ev = []
      /\ ((forall p, In p files -> str_mem slash p = false) ->
          faithful t manifest -> faithful t m').
Proof.
  induction files as [|p later IH]; intros i manifest paths w Ht.
  - exists manifest, paths, false, w, []. split; [reflexivity|].
    split; [apply evolves_refl|]. split; [reflexivity | auto].
  - cbn [build_loop].
    destruct (poll_abort_spec ac w) as (stop & w1 & Hpoll & Hev1).
    rewrite (bind_returned _ _ _ _ _ Hpoll).
    destruct stop.
    + exists manifest, paths, true, w1, []. split; [reflexivity|].
      split; [exact Hev1|]. split; [reflexivity | auto].
    + erewrite bind_returned by apply report_progress_spec.
      rewrite (bind_returned _ _ _ _ _ (open_drive_file_spec _ _)).
      set (evs := progress_events pcb i (Z.max total 1) ++ [EvHash p]).
      set (w3 := set_trace
                   (trace (set_trace
                             (trace w1
                              ++ progress_events pcb i (Z.max total 1)) w1)
                    ++ [EvHash p])
                   (set_trace
                      (trace w1 ++ progress_events pcb i (Z.max total 1))
                      w1)).
      assert (Hev3 : evolves w w3 evs).
      { change evs with ([] ++ evs).
        eapply evolves_trans; [exact Hev1|].
        eapply evolves_trans; apply evolves_emit. }
      assert (Hst3 : stamps_written evs = []).
      { subst evs. rewrite stamps_written_app, stamps_written_progress.
        reflexivity. }
      assert (Ht3 : tree (drive w3) = t).
      { destruct Hev3 as (Hd & _). rewrite Hd. exact Ht. }
      assert (Ht1 : tree (drive w1) = t).
      { destruct Hev1 as (Hd & _). rewrite Hd. exact Ht. }
      cbn [drive set_trace]. rewrite Ht1.
      assert (Hgo : forall manifest' paths',
                 ((forall q, In q (p :: later) -> str_mem slash q = false) ->
                  faithful t manifest -> faithful t manifest') ->
                 exists m' paths'' ab w' ev,
                   build_loop pcb ac total later (i + 1) manifest' paths' w3
                   = (Returned (m', paths'', ab), w')
                   /\ evolves w w' ev
                   /\ stamps_written ev = []
                   /\ ((forall q, In q (p :: later) ->
                                  str_mem slash q = false) ->
                       faithful t manifest -> faithful t m')).
      { intros manifest' paths' Hkeep.
        destruct (IH (i + 1) manifest' paths' w3 Ht3)
          as (m' & paths'' & ab & w' & ev & Hloop & Hev & Hst & Hfm).
        exists m', paths'', ab, w', (evs ++ ev). split; [exact Hloop|].
        split; [eapply evolves_trans; eassumption|].
        split; [rewrite stamps_written_app, Hst3, Hst; reflexivity|].
        intros Hw Hf. apply Hfm; [|apply Hkeep; assumption].
        intros q Hq. apply Hw. right. exact Hq. }
      destruct (dict_get p t) as [[content|err|]|] eqn:L;
        try rewrite hash_file_chunked_bytes; cbn [_hash_file_chunked];
        try (apply Hgo; intros _ Hf; exact Hf).
      apply Hgo. intros Hw Hf rel h Hin. apply in_dict_set in Hin.
      destruct Hin as [[-> ->]|Hin]; [|exact (Hf _ _ Hin)].
      exists content. rewrite native_of_key by (apply Hw; left; reflexivity).
      split; [exact L | reflexivity].
Qed.

(** [build_manifest] always returns; on Windows paths its manifest is
    faithful to the tree. *)
Lemma build_manifest_spec root pcb ac w :
  exists m paths ab w' ev,
    build_manifest root pcb ac w = (Returned (m, paths, ab), w')
    /\ evolves w w' ev
    /\ stamps_written ev = []
    /\ (windows_paths (tree (drive w)) -> faithful (tree (drive w)) m).
Proof.
  unfold build_manifest.
  destruct (build_loop_spec pcb ac
              (Z.of_nat (List.length (all_files (tree (drive w)))))
              (tree (drive w)) (all_files (tree (drive w))) 0 [] [] w
              eq_refl)
    as (m & paths & ab & w' & ev & Hloop & Hev & Hst & Hf).
  exists m, paths, ab, w', ev. split; [exact Hloop|].
  split; [exact Hev|]. split; [exact Hst|].
  intros Hwin. apply Hf.
  - intros p Hp. unfold all_files in Hp. apply filter_In in Hp.
    destruct Hp as [Hp _]. unfold windows_paths in Hwin.
    rewrite Forall_forall in Hwin. apply Hwin. exact Hp.
  - intros rel h [].
Qed.

Lemma faithful_outcomes t manifest :
  faithful t manifest ->
  forall k new,
    Forall2 (fun e v => entry_outcome t (fst e) (snd e) v)
      (firstn k manifest) new ->
    flat_map mismatch_of new = []
    /\ Forall (fun v => mr_match v = true /\ mr_note v = None
                        /\ mr_read_hash v = Some (mr_expected_hash v)) new.
Proof.
  intros Hf k new H.
  assert (Hin : forall e, In e (firstn k manifest) -> In e manifest).
  { intros e He. rewrite <- (firstn_skipn k manifest).
    apply in_or_app. left. exact He. }
  induction H as [|[rel h] v l l' Hout _ IH]; [split; constructor|].
  destruct (Hf rel h (Hin _ (or_introl eq_refl))) as (content & L & E).
  assert (Hv : v = mkManifestRecord rel h (Some h) true None).
  { eapply entry_outcome_functional; [exact Hout|].
    eapply outcome_match; eassumption. }
  destruct IH as [IH1 IH2]; [intros e He; apply Hin; right; exact He|].
  subst v. split.
  - cbn [flat_map]. rewrite IH1. reflexivity.
  - constructor; [cbn; auto | exact IH2].
Qed.
End BuildProperties.

(** ** The sweep *)

Lemma evolves_keeps w w' ev : evolves w w' ev -> keeps w w' ev.
Proof.
  intros (Hd & Hh & Hc & Ht). unfold keeps. rewrite Hd, Hh. auto.
Qed.

Lemma keeps_refl w : keeps w w [].
Proof. apply evolves_keeps, evolves_refl. Qed.

Lemma keeps_trans w1 w2 w3 ev1 ev2 :
  keeps w1 w2 ev1 -> keeps w2 w3 ev2 -> keeps w1 w3 (ev1 ++ ev2).
Proof.
  intros (D1 & H1 & C1 & T1) (D2 & H2 & C2 & T2). unfold keeps.
  split; [congruence|]. split; [congruence|].
  split; [eapply clock_follows_trans; eassumption|].
  rewrite T2, T1, app_assoc. reflexivity.
Qed.

Lemma keeps_emit w ev : keeps w (set_trace (trace w ++ ev) w) ev.
Proof. apply evolves_keeps, evolves_emit. Qed.

Lemma report_phase_spec mcb phase w :
  exists ev, report_phase mcb phase w
             = (Returned tt, set_trace (trace w ++ ev) w)
             /\ stamps_written ev = [].
Proof.
  unfold report_phase. destruct mcb.
  - exists [EvPhase phase]. split; reflexivity.
  - exists []. split; [|reflexivity]. unfold ret. rewrite app_nil_r.
    destruct w; reflexivity.
Qed.

Section SweepProperties.
Context {rt : Runtime}.

Lemma save_manifest_spec root m w :
  exists w', save_manifest root m w = (Returned tt, w')
             /\ keeps w w' [EvSaveManifest (_manifest_path root)]
             /\ drive w' = drive w
             /\ dict_get (_manifest_path root) (manifests (host w'))
                = Some (JsonObject m).
Proof.
  eexists. split; [reflexivity|]. split; [|split; [reflexivity|]].
  - unfold keeps. cbn. repeat split; try reflexivity.
    exists []. cbn. split; [reflexivity | lia].
  - cbn. apply dict_get_set_same.
Qed.

Lemma write_last_sweep_timestamp_spec root w :
  exists w',
    write_last_sweep_timestamp root w = (Returned tt, w')
    /\ marker_written root w w' [EvWriteMarker (isoformat (now w'))].
Proof.
  unfold write_last_sweep_timestamp.
  destruct (datetime_now_spec w) as (t & w1 & Hnow & Hev & Ht).
  rewrite (bind_returned _ _ _ _ _ Hnow).
  destruct Hev as (Hd & Hh & Hc & Htr). rewrite app_nil_r in Htr.
  eexists. split; [reflexivity|]. unfold marker_written.
  cbn [now set_trace set_drive trace host drive tree set_tree].
  rewrite <- Ht. split; [reflexivity|].
  split; [apply dict_get_set_same|]. split; [rewrite Hh; reflexivity|].
  split; [|rewrite Htr; reflexivity].
  destruct Hc as (used & Hs & Hn). exists used. cbn. split; assumption.
Qed.

Lemma keeps_then_marker root w0 w w' ev0 ev :
  keeps w0 w ev0 -> stamps_written ev0 = [] ->
  marker_written root w w' ev -> marker_written root w0 w' (ev0 ++ ev).
Proof.
  intros (_ & H1 & C1 & T1) Hst (M1 & M2 & M3 & M4 & M5).
  unfold marker_written. rewrite stamps_written_app, Hst.
  split; [exact M1|]. split; [exact M2|]. split; [congruence|].
  split; [eapply clock_follows_trans; eassumption|].
  rewrite M5, T1, app_assoc. reflexivity.
Qed.

Lemma sweep_post_after root w0 w w' ev0 ev o :
  keeps w0 w ev0 -> stamps_written ev0 = [] ->
  sweep_post root w w' ev o -> sweep_post root w0 w' (ev0 ++ ev) o.
Proof.
  intros Hk Hst Hpost. destruct o as [r|e]; cbn in *.
  - destruct Hpost as [(Hp & Hb & Hm)|(Hb & Ha & Hk' & Hst')].
    + left. split; [exact Hp|]. split; [exact Hb|].
      eapply keeps_then_marker; eassumption.
    + right. split; [exact Hb|]. split; [exact Ha|].
      split; [eapply keeps_trans; eassumption|].
      rewrite stamps_written_app, Hst, Hst'. reflexivity.
  - destruct Hpost as [Hk' Hst']. split.
    + eapply keeps_trans; eassumption.
    + rewrite stamps_written_app, Hst, Hst'. reflexivity.
Qed.

Lemma free_space_phase_spec root pcb mcb ac parts mp mvd w :
  mp = true ->
  exists o w' ev,
    free_space_phase root pcb mcb ac parts mp mvd w = (o, w')
    /\ sweep_post root w w' ev o.
Proof.
  intros ->. unfold free_space_phase.
  destruct (report_phase_spec mcb "free_space" w) as (ev1 & Hph & Hst1).
  rewrite (bind_returned _ _ _ _ _ Hph).
  set (w1 := set_trace (trace w ++ ev1) w).
  destruct (free_space_sweep_run root pcb ac w1)
    as (o & w2 & ev2 & Hfs & Hev2 & Hst2 & _).
  assert (Hk2 : keeps w w2 (ev1 ++ ev2)).
  { eapply keeps_trans; [apply keeps_emit | apply evolves_keeps; exact Hev2]. }
  assert (Hs2 : stamps_written (ev1 ++ ev2) = []).
  { rewrite stamps_written_app, Hst1, Hst2. reflexivity. }
  destruct o as [fs|e].
  2:{ rewrite (bind_raised _ _ _ _ _ Hfs).
      exists (Raised e), w2, (ev1 ++ ev2). split; [reflexivity|].
      split; assumption. }
  rewrite (bind_returned _ _ _ _ _ Hfs).
  destruct (aborted fs) eqn:Hab.
  - eexists (Returned _), w2, (ev1 ++ ev2). split; [reflexivity|].
    right. unfold both_phases_passed. cbn.
    split; [apply andb_false_r|]. split; [left; reflexivity|].
    split; assumption.
  - destruct (passed fs) eqn:Hp; cbn [negb].
    + destruct (write_last_sweep_timestamp_spec root w2)
        as (w3 & Hwr & Hm).
      rewrite (bind_returned _ _ _ _ _ Hwr).
      eexists (Returned _), w3, ((ev1 ++ ev2) ++ _).
      split; [reflexivity|]. left. split; [reflexivity|].
      split; [reflexivity|].
      eapply keeps_then_marker; eassumption.
    + eexists (Returned _), w2, (ev1 ++ ev2). split; [reflexivity|].
      right. unfold both_phases_passed. cbn.
      split; [reflexivity|]. split; [right; reflexivity|].
      split; assumption.
Qed.

Lemma full_sweep_spec root pcb mcb ac w :
  exists o w' ev,
    full_sweep root pcb mcb ac w = (o, w') /\ sweep_post root w w' ev o.
Proof.
  unfold full_sweep.
  assert (Hload : exists o, load_manifest root w = (o, w)).
  { unfold load_manifest.
    destruct (dict_get _ _) as [[| | | | |]|]; eauto. }
  destruct Hload as (lo & Hload).
  destruct lo as [[[manifest|]|]|e].
  - (* a manifest was loaded: verify *)
    rewrite (bind_returned _ _ _ _ _ Hload).
    destruct (report_phase_spec mcb "verify_manifest" w)
      as (ev1 & Hph & Hst1).
    rewrite (bind_returned _ _ _ _ _ Hph).
    set (w1 := set_trace (trace w ++ ev1) w).
    unfold verify_manifest.
    destruct (verify_loop_spec pcb ac
                (Z.max (Z.of_nat (List.length manifest)) 1) manifest 0
                [] [] w1)
      as (new & ab & w2 & ev2 & Hloop & Hev2 & Hst2 & _).
    rewrite (bind_returned _ _ _ _ _ Hloop). cbn [app].
    assert (Hk2 : keeps w w2 (ev1 ++ ev2)).
    { eapply keeps_trans; [apply keeps_emit|].
      apply evolves_keeps. exact Hev2. }
    assert (Hs2 : stamps_written (ev1 ++ ev2) = []).
    { rewrite stamps_written_app, Hst1, Hst2. reflexivity. }
    destruct ab.
    + eexists (Returned _), w2, (ev1 ++ ev2). split; [reflexivity|].
      right. unfold both_phases_passed. cbn.
      split; [apply andb_false_r|]. split; [left; reflexivity|].
      split; assumption.
    + destruct (is_empty (flat_map mismatch_of new)) eqn:Hpass;
        cbn [negb].
      * destruct (free_space_phase_spec root pcb mcb ac
                    ["File verification passed."] true new w2 eq_refl)
          as (o & w3 & ev3 & Hfs & Hpost).
        exists o, w3, ((ev1 ++ ev2) ++ ev3). split; [exact Hfs|].
        eapply sweep_post_after; eassumption.
      * eexists (Returned _), w2, (ev1 ++ ev2). split; [reflexivity|].
        right. unfold both_phases_passed. cbn.
        split; [reflexivity|]. split; [right; reflexivity|].
        split; assumption.
  - (* the file holds something that is not an object *)
    rewrite (bind_returned _ _ _ _ _ Hload).
    destruct (report_phase_spec mcb "verify_manifest" w)
      as (ev1 & Hph & Hst1).
    rewrite (bind_returned _ _ _ _ _ Hph).
    exists (Raised AttributeError), (set_trace (trace w ++ ev1) w), ev1.
    split; [reflexivity|]. split; [apply keeps_emit | exact Hst1].
  - (* no manifest: build *)
    rewrite (bind_returned _ _ _ _ _ Hload).
    destruct (report_phase_spec mcb "build_manifest" w)
      as (ev1 & Hph & Hst1).
    rewrite (bind_returned _ _ _ _ _ Hph).
    set (w1 := set_trace (trace w ++ ev1) w).
    destruct (build_manifest_spec root pcb ac w1)
      as (m & paths & ab & w2 & ev2 & Hbuild & Hev2 & Hst2 & _).
    rewrite (bind_returned _ _ _ _ _ Hbuild).
    assert (Hk2 : keeps w w2 (ev1 ++ ev2)).
    { eapply keeps_trans; [apply keeps_emit|].
      apply evolves_keeps. exact Hev2. }
    assert (Hs2 : stamps_written (ev1 ++ ev2) = []).
    { rewrite stamps_written_app, Hst1, Hst2. reflexivity. }
    destruct ab.
    + eexists (Returned _), w2, (ev1 ++ ev2). split; [reflexivity|].
      right. unfold both_phases_passed. cbn.
      split; [reflexivity|]. split; [left; reflexivity|].
      split; assumption.
    + destruct (save_manifest_spec root m w2) as (w3 & Hsave & Hk3 & _).
      rewrite (bind_returned _ _ _ _ _ Hsave).
      destruct (free_space_phase_spec root pcb mcb ac
                  ["Manifest built (new card)."] true [] w3 eq_refl)
        as (o & w4 & ev4 & Hfs & Hpost).
      exists o, w4, (((ev1 ++ ev2) ++ [EvSaveManifest (_manifest_path root)])
                     ++ ev4).
      split; [exact Hfs|].
      eapply sweep_post_after; [| |exact Hpost].
      * eapply keeps_trans; eassumption.
      * rewrite stamps_written_app, Hs2. reflexivity.
  - (* the file is not valid UTF-8 *)
    rewrite (bind_raised _ _ _ _ _ Hload).
    exists (Raised e), w, []. split; [reflexivity|].
    split; [apply keeps_refl | reflexivity].
Qed.
End SweepProperties.

(** ** The batch planner *)

Lemma plan_loop_closed_form (M : Z) (HM : 0 < M) :
  forall fuel remaining,
    0 <= remaining ->
    (Z.to_nat (remaining / M) < fuel)%nat ->
    plan_loop fuel M remaining =
    repeat M (Z.to_nat (remaining / M))
    ++ (if remaining mod M =? 0 then [] else [remaining mod M]).
Proof.
  induction fuel as [|fuel IH]; intros remaining Hrem Hfuel; [lia|].
  cbn [plan_loop].
  destruct (0 <? remaining) eqn:Hpos.
  - apply Z.ltb_lt in Hpos.
    destruct (Z_lt_le_dec remaining M) as [Hsmall|Hbig].
    + rewrite Z.min_l by lia.
      rewrite Z.sub_diag.
      rewrite Z.div_small, Z.mod_small by lia.
      destruct fuel; cbn; destruct (remaining =? 0) eqn:E;
        try (apply Z.eqb_eq in E; lia); reflexivity.
    + rewrite Z.min_r by lia.
      assert (Hq : remaining / M = (remaining - M) / M + 1).
      { replace remaining with ((remaining - M) + 1 * M) at 1 by lia.
        rewrite Z.div_add by lia. reflexivity. }
      assert (Hr : remaining mod M = (remaining - M) mod M).
      { replace remaining with ((remaining - M) + 1 * M) at 1 by lia.
        rewrite Z.mod_add by lia. reflexivity. }
      assert (0 <= (remaining - M) / M) by (apply Z.div_pos; lia).
      rewrite IH by lia.
      rewrite Hq, Hr.
      rewrite Z2Nat.inj_add by lia.
      rewrite Nat.add_comm. reflexivity.
  - apply Z.ltb_ge in Hpos.
    assert (remaining = 0) by lia; subst.
    reflexivity.
Qed.

Lemma plan_batches_closed_form (M N : Z) :
  0 < M -> 0 <= N ->
  plan_batches M N =
  repeat M (Z.to_nat (N / M)) ++ (if N mod M =? 0 then [] else [N mod M]).
Proof.
  intros HM HN. unfold plan_batches.
  apply plan_loop_closed_form; lia.
Qed.

(** The budget of [plan_batches] is never what ends the loop: a larger one
    gives the same list. *)
Lemma plan_loop_enough (M N : Z) (extra : nat) :
  0 < M -> 0 <= N ->
  plan_loop (S (Z.to_nat (N / M)) + extra) M N = plan_batches M N.
Proof.
  intros HM HN. rewrite plan_batches_closed_form by assumption.
  apply plan_loop_closed_form; lia.
Qed.

(** The two facts about a plan that the checks rely on. *)
Lemma plan_batches_facts (N M : Z) :
  0 <= N -> 0 < M ->
  sum_Z (plan_batches M N) = N
  /\ Forall (fun b => 0 < b <= M) (plan_batches M N).
Proof.
  intros HN HM.
  pose proof (Z.div_pos N M HN HM) as Hq.
  pose proof (Z.mod_pos_bound N M HM) as Hr.
  pose proof (Z.div_mod N M ltac:(lia)) as Hdm.
  rewrite (plan_batches_closed_form M N HM HN). split.
  - rewrite sum_Z_app, sum_Z_repeat, Z2Nat.id by lia.
    destruct (N mod M =? 0) eqn:E; cbn.
    + apply Z.eqb_eq in E. lia.
    + lia.
  - apply Forall_app. split.
    + apply Forall_forall. intros b Hb. apply repeat_spec in Hb. lia.
    + destruct (N mod M =? 0) eqn:E; constructor; [|constructor].
      apply Z.eqb_neq in E. lia.
Qed.

(** C2: for a total [N >= 0] and a cap [M > 0] the planned batch sizes sum
    to [N], each lies in [1..M], the plan is empty exactly when [N = 0],
    every batch but the last is a full [M], and the loop ends by itself
    (a larger iteration budget gives the same plan). *)
Theorem C2_batch_plan (N M : Z) :
  0 <= N -> 0 < M ->
  sum_Z (plan_batches M N) = N
  /\ Forall (fun b => 0 < b <= M) (plan_batches M N)
  /\ (plan_batches M N = [] <-> N = 0)
  /\ (forall i, (S i < List.length (plan_batches M N))%nat ->
                nth i (plan_batches M N) 0 = M)
  /\ (forall extra, plan_loop (S (Z.to_nat (N / M)) + extra) M N
                    = plan_batches M N).
Proof.
  intros HN HM.
  pose proof (Z.div_pos N M HN HM) as Hq.
  pose proof (Z.mod_pos_bound N M HM) as Hr.
  pose proof (Z.div_mod N M ltac:(lia)) as Hdm.
  rewrite (plan_batches_closed_form M N HM HN).
  repeat split.
  - rewrite sum_Z_app, sum_Z_repeat, Z2Nat.id by lia.
    destruct (N mod M =? 0) eqn:E; cbn.
    + apply Z.eqb_eq in E. lia.
    + lia.
  - apply Forall_app. split.
    + apply Forall_forall. intros b Hb. apply repeat_spec in Hb. lia.
    + destruct (N mod M =? 0) eqn:E; constructor; [|constructor].
      apply Z.eqb_neq in E. lia.
  - intros Hnil. apply app_eq_nil in Hnil. destruct Hnil as [Hrep Htail].
    destruct (N mod M =? 0) eqn:E; [|discriminate].
    apply Z.eqb_eq in E.
    destruct (Z.to_nat (N / M)) eqn:Hn; [|discriminate].
    assert (N / M = 0) by lia. lia.
  - intros ->. rewrite Z.div_0_l, Z.mod_0_l by lia. reflexivity.
  - intros i Hi. rewrite length_app, repeat_length in Hi.
    assert (Hlt : (i < Z.to_nat (N / M))%nat).
    { destruct (N mod M =? 0); cbn in Hi; lia. }
    rewrite app_nth1 by (rewrite repeat_length; exact Hlt).
    apply nth_repeat_lt. exact Hlt.
  - intros extra. rewrite <- (plan_batches_closed_form M N HM HN).
    apply plan_loop_enough; assumption.
Qed.

Lemma C2_batch_plan_witness :
  0 <= 5 /\ 0 < 2
  /\ sum_Z (plan_batches 2 5) = 5
  /\ Forall (fun b => 0 < b <= 2) (plan_batches 2 5)
  /\ (plan_batches 2 5 = [] <-> 5 = 0)
  /\ (forall i, (S i < List.length (plan_batches 2 5))%nat ->
                nth i (plan_batches 2 5) 0 = 2)
  /\ (forall extra, plan_loop (S (Z.to_nat (5 / 2)) + extra) 2 5
                    = plan_batches 2 5).
Proof.
  split; [lia|]. split; [lia|].
  apply (C2_batch_plan 5 2); lia.
Defined.

(** ** The model on the scenarios of the design *)

(** 10 GiB in all, 5 GiB free, a tenth to test: the target of 1 GiB is
    what binds, and it is planned as one batch. *)
Example planned_size_of_a_tenth :
  planned_size tenth w_abort_first = Returned GiB
  /\ plan_batches MAX_FILE_BYTES GiB = [GiB].
Proof. split; vm_compute; reflexivity. Qed.

(** 50 MiB free: nothing usable once the margin is taken. *)
Example usable_of_low_space : usable_of w_low_space = 0.
Proof. reflexivity. Qed.

Example plan_of_five_gib :
  plan_batches MAX_FILE_BYTES (5 * GiB + 17) = [2 * GiB; 2 * GiB; GiB + 17].
Proof. vm_compute. reflexivity. Qed.

Example confidence_rounds_half_to_even :
  confidence_pct 1 8 = Returned 12 /\ confidence_pct 3 8 = Returned 38
  /\ confidence_pct 1 200 = Returned 0 /\ confidence_pct 3 200 = Returned 2.
Proof. repeat split. Qed.

Example commas : fmt_commas 1073741824 = "1,073,741,824".
Proof. reflexivity. Qed.

(** The note of the card now reads differently, one file is gone and one
    cannot be read. *)
Example verify_old_manifest :
  fst (verify_manifest (rt := sim_runtime) "G:\" old_manifest false false
         w_card)
  = Returned
      (false,
       ["notes.txt"; "gone.txt (missing)"; "locked.bin (read error)"],
       [mkManifestRecord "DCIM/photo.jpg" "197561" (Some "197561") true None;
        mkManifestRecord "notes.txt" "195900" (Some "877286") false None;
        mkManifestRecord "gone.txt" "643275" None false (Some "missing");
        mkManifestRecord "locked.bin" "12043" None false (Some "read error")],
       false).
Proof. vm_compute. reflexivity. Qed.

(** ** Aborted results *)





(** ** Too little free space *)

(** C7: when the usable free space (free bytes minus the 100 MiB margin,
    not below 0) is under 1024 bytes, [free_space_sweep] returns its
    insufficient-space failure and leaves the world as it was: no
    directory is made, no file written, nothing traced.  [quick_check]
    does the same when its planned size is under 1024 bytes, which is the
    case whenever the usable free space is. *)
Theorem C7_insufficient_space (rt : Runtime) (drive_root : string)
  (size_fraction : spec_float) (progress_callback abort_check : bool)
  (w : World) :
  (usable_of w < 1024 ->
   free_space_sweep drive_root progress_callback abort_check w
   = (Returned (failure "Free-space sweep failed"
                  "Not enough free space (need at least 100 MB free)." []),
      w))
  /\ (forall size_bytes,
        planned_size size_fraction w = Returned size_bytes ->
        size_bytes < 1024 ->
        quick_check drive_root size_fraction progress_callback abort_check w
        = (Returned (failure "Integrity check failed"
                       "Not enough free space for check (need at least 100 MB free)."
                       []),
           w))
  /\ (forall size_bytes,
        planned_size size_fraction w = Returned size_bytes ->
        usable_of w < 1024 -> size_bytes < 1024).
Proof.
  split; [|split].
  - intros Hsmall. unfold free_space_sweep, get_drive_usage.
    erewrite bind_returned by reflexivity. cbv beta iota.
    fold (usable_of w). apply Z.ltb_lt in Hsmall. rewrite Hsmall.
    reflexivity.
  - intros size_bytes Hplan Hsmall. unfold planned_size in Hplan.
    unfold quick_check, get_drive_usage.
    erewrite bind_returned by reflexivity. cbv beta iota. unfold lift at 1.
    destruct (target_bytes_of size_fraction (disk_total (drive w)))
      as [target|e]; [|discriminate].
    injection Hplan as <-.
    erewrite bind_returned by reflexivity. fold (usable_of w).
    apply Z.ltb_lt in Hsmall. rewrite Hsmall. reflexivity.
  - intros size_bytes Hplan Hsmall. unfold planned_size in Hplan.
    destruct (target_bytes_of size_fraction (disk_total (drive w)))
      as [target|e]; [|discriminate].
    injection Hplan as <-. lia.
Qed.

Lemma C7_insufficient_space_witness :
  usable_of w_low_space < 1024
  /\ planned_size tenth w_low_space = Returned 0
  /\ free_space_sweep (rt := sim_runtime) "G:\" true true w_low_space
     = (Returned (failure "Free-space sweep failed"
                    "Not enough free space (need at least 100 MB free)." []),
        w_low_space)
  /\ quick_check (rt := sim_runtime) "G:\" tenth true true w_low_space
     = (Returned (failure "Integrity check failed"
                    "Not enough free space for check (need at least 100 MB free)."
                    []),
        w_low_space).
Proof.
  assert (Hu : usable_of w_low_space < 1024) by (vm_compute; reflexivity).
  assert (Hp : planned_size tenth w_low_space = Returned 0)
    by (vm_compute; reflexivity).
  split; [exact Hu|]. split; [exact Hp|]. split.
  - apply (proj1 (C7_insufficient_space sim_runtime "G:\" tenth true true
                    w_low_space)). exact Hu.
  - apply (proj1 (proj2 (C7_insufficient_space sim_runtime "G:\" tenth true
                           true w_low_space)) 0 Hp). lia.
Defined.

(** ** The confidence of an aborted run *)

Lemma sum_first_firstn (l : list Z) :
  forall k, (k <= List.length l)%nat -> sum_first k l = sum_Z (firstn k l).
Proof.
  unfold sum_first. induction l as [|a l IH]; intros k Hk.
  - assert (k = 0)%nat by (cbn in Hk; lia). subst. reflexivity.
  - destruct k as [|k]; [reflexivity|].
    cbn [seq map firstn nth]. rewrite <- seq_shift, map_map.
    change (a + sum_Z (map (fun i => nth i l 0) (seq 0 k))
            = a + sum_Z (firstn k l)).
    rewrite IH by (cbn in Hk; lia). reflexivity.
Qed.

Lemma sum_first_bounds (l : list Z) k :
  Forall (fun b => 0 < b) l -> (k < List.length l)%nat ->
  0 <= sum_first k l < sum_Z l.
Proof.
  intros Hpos Hk. rewrite sum_first_firstn by lia.
  rewrite <- (firstn_skipn k l) at 3. rewrite sum_Z_app.
  assert (Hnn : forall m, Forall (fun b => 0 < b) m -> 0 <= sum_Z m).
  { induction 1 as [|b m Hb _ IH]; [cbn; lia|].
    change (0 <= b + sum_Z m). lia. }
  rewrite <- (firstn_skipn k l) in Hpos. apply Forall_app in Hpos.
  destruct Hpos as [Hfirst Hrest].
  pose proof (Hnn _ Hfirst) as H1.
  assert (H2 : 0 < sum_Z (skipn k l)).
  { destruct (skipn k l) as [|b m] eqn:E.
    - apply (f_equal (@List.length _)) in E. rewrite length_skipn in E.
      cbn in E. lia.
    - inversion Hrest; subst. change (0 < b + sum_Z m).
      pose proof (Hnn m ltac:(assumption)). lia. }
  lia.
Qed.

(** C3 (amended): the confidence an aborted run reports is
    [round(100 * bytes_tested / bytes_total)] of the two byte counts it
    reports, and in an aborted result [bytes_tested] is always below
    [bytes_total]. *)
Theorem C3_aborted_confidence (rt : Runtime) (drive_root : string)
  (size_fraction : spec_float) (progress_callback abort_check : bool)
  (w w' : World) (r : CheckResult) (a : AbortInfo) :
  quick_check drive_root size_fraction progress_callback abort_check w
  = (Returned r, w')
  \/ free_space_sweep drive_root progress_callback abort_check w
     = (Returned r, w') ->
  abort_info r = Some a ->
  (exists q, py_truediv (100 * bytes_tested a) (bytes_total a) = Returned q
             /\ py_round q = Returned (extrapolated_confidence_pct a))
  /\ 0 <= bytes_tested a < bytes_total a.
Proof.
  intros Hrun Ha.
  destruct (check_run_post rt _ _ _ _ _ _ _ Hrun) as (msg & size & Hpost).
  destruct Hpost as [? ? Hn|_ (_ & _ & Hn & _)|pct Hsize Hc Hi Hlen Hp Hpct Hinfo
                    |? ? ? ? ? Hn]; try congruence.
  rewrite Hinfo in Ha. injection Ha as <-.
  cbn [bytes_tested bytes_total extrapolated_confidence_pct].
  destruct (plan_batches_facts size MAX_FILE_BYTES ltac:(lia) ltac:(reflexivity))
    as (Hsum & Hall).
  split.
  - unfold confidence_pct in Hpct.
    destruct (size =? 0) eqn:E; [apply Z.eqb_eq in E; lia|].
    destruct (py_truediv _ _) as [q|e]; [|discriminate].
    exists q. split; [reflexivity | exact Hpct].
  - pose proof (sum_first_bounds (plan_batches MAX_FILE_BYTES size) _
                  ltac:(eapply Forall_impl; [|exact Hall]; cbn; intros; lia)
                  Hlen) as Hb.
    rewrite Hsum in Hb. exact Hb.
Qed.

Lemma C3_aborted_confidence_witness :
  (quick_check (rt := sim_runtime) "G:\" tenth false true w_abort_first
   = (Returned abort_first_result, abort_first_world)
   \/ free_space_sweep (rt := sim_runtime) "G:\" false true w_abort_first
      = (Returned abort_first_result, abort_first_world))
  /\ abort_info abort_first_result = Some (mkAbortInfo 0 1 0 GiB 0)
  /\ (exists q, py_truediv (100 * 0) GiB = Returned q
                /\ py_round q = Returned 0)
  /\ 0 <= 0 < GiB.
Proof.
  assert (Hrun :
    quick_check (rt := sim_runtime) "G:\" tenth false true w_abort_first
    = (Returned abort_first_result, abort_first_world)
    \/ free_space_sweep (rt := sim_runtime) "G:\" false true w_abort_first
       = (Returned abort_first_result, abort_first_world)).
  { left. vm_compute. reflexivity. }
  assert (Ha : abort_info abort_first_result = Some (mkAbortInfo 0 1 0 GiB 0))
    by reflexivity.
  split; [exact Hrun|]. split; [exact Ha|].
  exact (C3_aborted_confidence sim_runtime _ _ _ _ _ _ _ _ Hrun Ha).
Defined.

(** A batch on a device without faults passes. *)
Lemma healthy_batch (rt : Runtime) msg pcb ts i fsize vd w :
  fate (drive w) i = mkFate None Intact Intact ->
  exists ev,
    write_verify_batch msg pcb ts i fsize vd w
    = (Returned
         (inr (vd ++ [mkBatchRecord (i + 1) (batch_expected_hash i fsize)
                        (batch_expected_hash i fsize)
                        (Some (batch_expected_hash i fsize)) true])),
       set_trace (trace w ++ ev) w).
Proof.
  intros Hfate.
  destruct (write_verify_batch_spec msg pcb ts i fsize vd w)
    as (x & ev & Hstep & Hspec).
  exists ev. rewrite Hstep. rewrite Hfate in Hspec.
  pose proof (intact_read_hash i fsize) as Hintact.
  inversion Hspec; subst; cbn [write_error first_read second_read] in *;
    try discriminate; try congruence.
Qed.

(** On a device without faults, a sweep planned in at least two batches
    and aborted at the second poll reports the first batch as tested. *)
Lemma free_space_abort_after_first (rt : Runtime) root pcb w b0 b1 more rest
  pct :
  plan_batches MAX_FILE_BYTES (usable_of w) = b0 :: b1 :: more ->
  1024 <= usable_of w ->
  mkdir_error (drive w) = None ->
  fate (drive w) 0 = mkFate None Intact Intact ->
  abort_script w = false :: true :: rest ->
  confidence_pct b0 (usable_of w) = Returned pct ->
  exists r w',
    free_space_sweep root pcb true w = (Returned r, w')
    /\ abort_info r
       = Some (mkAbortInfo 1 (Z.of_nat (List.length (b0 :: b1 :: more))) b0
                 (usable_of w) pct).
Proof.
  intros Hplan Hsize Hmk Hfate Habort Hpct.
  unfold free_space_sweep, get_drive_usage.
  erewrite bind_returned by reflexivity. cbv beta iota. fold (usable_of w).
  apply Z.ltb_ge in Hsize. rewrite Hsize. rewrite Hplan.
  assert (Hnow : exists t w1, datetime_now w = (Returned t, w1)
                              /\ drive w1 = drive w
                              /\ abort_script w1 = abort_script w).
  { unfold datetime_now. destruct (clock_script w); eauto. }
  destruct Hnow as (t & w1 & Hnow & Hd1 & Ha1).
  rewrite (bind_returned _ _ _ _ _ Hnow).
  unfold mkdir_temp at 1. erewrite bind_returned by reflexivity.
  rewrite Hd1, Hmk. unfold finally.
  set (w2 := set_trace (trace w1 ++ [EvMkdir "SentinelSweep"]) w1).
  cbn [free_space_loop].
  assert (Hpoll1 : poll_abort true w2
                   = (Returned false, set_abort_script (true :: rest) w2)).
  { unfold poll_abort. subst w2. cbn [abort_script set_trace].
    rewrite Ha1, Habort. reflexivity. }
  rewrite (bind_returned _ _ _ _ _ Hpoll1).
  set (w3 := set_abort_script (true :: rest) w2).
  destruct (healthy_batch rt "Free-space sweep failed" pcb
              (Z.of_nat (List.length (b0 :: b1 :: more)) * 3) 0 b0 [] w3)
    as (ev & Hstep).
  { subst w3 w2. cbn [drive set_abort_script set_trace]. rewrite Hd1.
    exact Hfate. }
  rewrite (bind_returned _ _ _ _ _ Hstep).
  set (w4 := set_trace (trace w3 ++ ev) w3).
  assert (Hpoll2 : poll_abort true w4
                   = (Returned true, set_abort_script rest w4)).
  { reflexivity. }
  rewrite (bind_returned _ _ _ _ _ Hpoll2).
  unfold aborted_result.
  assert (Hsum : sum_first 1 (b0 :: b1 :: more) = b0).
  { unfold sum_first. cbn. lia. }
  cbn [List.length app]. rewrite Hsum. unfold lift at 1.
  erewrite bind_returned by (rewrite Hpct; reflexivity).
  eexists _, _. split; [reflexivity|]. reflexivity.
Qed.

(** C3, as stated, fails: a sweep over 2 GiB + 1 MiB aborted after its
    first batch has tested 2 GiB of 2 GiB + 1 MiB and reports 100 percent. *)
Lemma C3_counterexample :
  exists r w' a,
    free_space_sweep (rt := sim_runtime) "G:\" false true w_abort_second
    = (Returned r, w')
    /\ abort_info r = Some a
    /\ extrapolated_confidence_pct a = 100
    /\ bytes_tested a <> bytes_total a.
Proof.
  assert (Hplan : plan_batches MAX_FILE_BYTES (usable_of w_abort_second)
                  = [2 * GiB; MiB]) by (vm_compute; reflexivity).
  assert (Hsize : 1024 <= usable_of w_abort_second)
    by (vm_compute; discriminate).
  assert (Hpct : confidence_pct (2 * GiB) (usable_of w_abort_second)
                 = Returned 100) by (vm_compute; reflexivity).
  destruct (free_space_abort_after_first sim_runtime "G:\" false
              w_abort_second (2 * GiB) MiB [] [] 100 Hplan Hsize eq_refl
              eq_refl eq_refl Hpct)
    as (r & w' & Hrun & Hinfo).
  exists r, w', (mkAbortInfo 1 2 (2 * GiB) (usable_of w_abort_second) 100).
  split; [exact Hrun|]. split; [exact Hinfo|]. split; [reflexivity|].
  vm_compute. discriminate.
Qed.

(** ** A mismatch on the first read *)



(** ** What the expected hash depends on *)

Section ContentLength.
Context {rt : Runtime}.

Lemma write_loop_done fuel g hasher file written fsize :
  fsize <= written ->
  write_loop fuel g hasher file written fsize = (hasher, file).
Proof.
  intros H. destruct fuel; cbn [write_loop]; [reflexivity|].
  apply Z.ltb_ge in H. rewrite H. reflexivity.
Qed.

Lemma write_loop_length :
  forall fuel g hasher file written fsize,
    0 <= written <= fsize ->
    Z.of_nat (List.length file) = written ->
    (Z.to_nat ((fsize - written) / WRITE_CHUNK_BYTES) < fuel)%nat ->
    Z.of_nat (List.length
                (snd (write_loop fuel g hasher file written fsize)))
    = fsize.
Proof.
  assert (HC : 0 < WRITE_CHUNK_BYTES) by reflexivity.
  induction fuel as [|fuel IH]; intros g hasher file written fsize Hw Hlen Hf;
    [lia|].
  cbn [write_loop]. destruct (written <? fsize) eqn:E.
  - apply Z.ltb_lt in E.
    set (chunk_size := Z.min WRITE_CHUNK_BYTES (fsize - written)).
    pose proof (randbytes_length g chunk_size ltac:(subst chunk_size; lia))
      as Hchunk.
    destruct (randbytes g chunk_size) as [chunk g']. cbn [fst] in Hchunk.
    assert (Hlen' : Z.of_nat (List.length (file ++ chunk))
                    = written + chunk_size).
    { rewrite length_app, Nat2Z.inj_add. lia. }
    destruct (Z_lt_le_dec (fsize - written) WRITE_CHUNK_BYTES) as [Hs|Hb].
    + assert (chunk_size = fsize - written) by (subst chunk_size; lia).
      rewrite write_loop_done by lia. cbn [snd]. lia.
    + assert (Hcs : chunk_size = WRITE_CHUNK_BYTES)
        by (subst chunk_size; lia).
      apply IH; [lia | exact Hlen' |].
      rewrite Hcs.
      replace (fsize - (written + WRITE_CHUNK_BYTES))
        with ((fsize - written) - 1 * WRITE_CHUNK_BYTES) by lia.
      assert (Hq : (fsize - written) / WRITE_CHUNK_BYTES
                   = (fsize - written - 1 * WRITE_CHUNK_BYTES)
                     / WRITE_CHUNK_BYTES + 1).
      { replace (fsize - written)
          with ((fsize - written - 1 * WRITE_CHUNK_BYTES)
                + 1 * WRITE_CHUNK_BYTES) at 1 by lia.
        rewrite Z.div_add by lia. reflexivity. }
      assert (0 <= (fsize - written - 1 * WRITE_CHUNK_BYTES)
                   / WRITE_CHUNK_BYTES) by (apply Z.div_pos; lia).
      lia.
  - apply Z.ltb_ge in E. cbn [snd]. lia.
Qed.

(** The content of a batch has exactly the size of the batch. *)
Lemma batch_content_length batch_i fsize :
  0 <= fsize ->
  Z.of_nat (List.length (batch_content batch_i fsize)) = fsize.
Proof.
  intros H. unfold batch_content, generate_batch.
  apply write_loop_length; [lia | reflexivity |].
  rewrite Z.sub_0_r. lia.
Qed.
End ContentLength.

Lemma run_post_indexed (rt : Runtime) msg size r ev :
  run_post msg size r ev ->
  indexed (plan_batches MAX_FILE_BYTES size) (verification_details r).
Proof.
  intros [? ? ? Hvd|_ (_ & _ & _ & Hi & _)|pct _ _ Hi|_ _ Hi]; try exact Hi.
  rewrite Hvd. intros k v Hk. destruct k; discriminate.
Qed.

(** C5 (amended): the expected hash of a record is a function of the index
    and of the size of its batch, the same for [quick_check] and
    [free_space_sweep] and whatever the device does: the record at
    position [k] is numbered [k + 1] and carries the digest of the content
    generated for index [k] and the [k]-th planned size, a content of
    exactly that many bytes. *)
Theorem C5_expected_hash_by_index_and_size (rt : Runtime)
  (drive_root : string) (size_fraction : spec_float)
  (progress_callback abort_check : bool) (w w' : World) (r : CheckResult)
  (size_bytes : Z) :
  (quick_check drive_root size_fraction progress_callback abort_check w
   = (Returned r, w')
   /\ planned_size size_fraction w = Returned size_bytes)
  \/ (free_space_sweep drive_root progress_callback abort_check w
      = (Returned r, w')
      /\ size_bytes = usable_of w) ->
  forall k v,
    nth_error (verification_details r) k = Some v ->
    br_batch v = Z.of_nat k + 1
    /\ exists fsize,
         nth_error (plan_batches MAX_FILE_BYTES size_bytes) k = Some fsize
         /\ br_expected_hash v = sha256 (batch_content (Z.of_nat k) fsize)
         /\ Z.of_nat (List.length (batch_content (Z.of_nat k) fsize)) = fsize.
Proof.
  intros Hrun k v Hk.
  assert (Hpost : exists msg ev, run_post msg size_bytes r ev).
  { destruct Hrun as [[Hrun Hsize]|[Hrun ->]].
    - destruct (quick_check_run_post rt _ _ _ _ _ _ _ Hrun)
        as (size & Hsize' & Hpost).
      assert (size = size_bytes) by congruence. subst. eauto.
    - pose proof (free_space_sweep_run_post rt _ _ _ _ _ _ Hrun). eauto. }
  destruct Hpost as (msg & ev & Hpost).
  assert (Hsize : verification_details r = [] \/ 0 <= size_bytes).
  { destruct Hpost; [left; assumption | right; lia ..]. }
  destruct Hsize as [Hnil|Hsize]; [rewrite Hnil in Hk; destruct k; discriminate|].
  destruct (run_post_indexed rt _ _ _ _ Hpost k v Hk) as (Hb & fsize & Hn & He).
  split; [exact Hb|]. exists fsize. split; [exact Hn|].
  split; [rewrite He; apply expected_hash_of_content|].
  apply batch_content_length.
  destruct (plan_batches_facts size_bytes MAX_FILE_BYTES Hsize
              ltac:(reflexivity)) as (_ & Hall).
  rewrite Forall_forall in Hall.
  apply nth_error_In in Hn. specialize (Hall _ Hn). lia.
Qed.

Lemma C5_expected_hash_by_index_and_size_witness :
  ((quick_check (rt := sim_runtime) "G:\" tenth false false w_bad_first_read
    = (Returned bad_first_read_result, bad_first_read_world)
    /\ planned_size tenth w_bad_first_read = Returned 1024)
   \/ (free_space_sweep (rt := sim_runtime) "G:\" false false
         w_bad_first_read
       = (Returned bad_first_read_result, bad_first_read_world)
       /\ 1024 = usable_of w_bad_first_read))
  /\ nth_error (verification_details bad_first_read_result) 0
     = Some bad_first_read_record
  /\ br_batch bad_first_read_record = Z.of_nat 0 + 1
  /\ exists fsize,
       nth_error (plan_batches MAX_FILE_BYTES 1024) 0 = Some fsize
       /\ br_expected_hash bad_first_read_record
          = @sha256 sim_runtime
              (batch_content (rt := sim_runtime) (Z.of_nat 0) fsize)
       /\ Z.of_nat (List.length
                      (batch_content (rt := sim_runtime) (Z.of_nat 0) fsize))
          = fsize.
Proof.
  assert (Hrun :
    (quick_check (rt := sim_runtime) "G:\" tenth false false w_bad_first_read
     = (Returned bad_first_read_result, bad_first_read_world)
     /\ planned_size tenth w_bad_first_read = Returned 1024)
    \/ (free_space_sweep (rt := sim_runtime) "G:\" false false
          w_bad_first_read
        = (Returned bad_first_read_result, bad_first_read_world)
        /\ 1024 = usable_of w_bad_first_read)).
  { right. split; vm_compute; reflexivity. }
  assert (Hk : nth_error (verification_details bad_first_read_result) 0
               = Some bad_first_read_record) by reflexivity.
  split; [exact Hrun|]. split; [exact Hk|].
  exact (C5_expected_hash_by_index_and_size sim_runtime _ _ _ _ _ _ _ _
           Hrun 0%nat _ Hk).
Defined.

(** C5, as stated, fails: two batches with the same index and different
    sizes have different contents and different expected hashes. *)
Lemma C5_counterexample :
  batch_content (rt := sim_runtime) 0 1024
  <> batch_content (rt := sim_runtime) 0 2048
  /\ batch_expected_hash (rt := sim_runtime) 0 1024
     <> batch_expected_hash (rt := sim_runtime) 0 2048.
Proof.
  split.
  - intros H. apply (f_equal (@List.length byte)) in H.
    vm_compute in H. discriminate.
  - vm_compute. discriminate.
Qed.

(** ** Verifying a manifest *)

Lemma is_empty_nil {A : Type} (l : list A) : is_empty l = true <-> l = [].
Proof. destruct l; cbn; split; intros H; congruence. Qed.

Lemma no_mismatch_iff vd :
  flat_map mismatch_of vd = [] <-> Forall (fun v => mr_match v = true) vd.
Proof.
  induction vd as [|v vd IH]; cbn [flat_map].
  - split; intros; [constructor | reflexivity].
  - split.
    + intros H. apply app_eq_nil in H. destruct H as [Hv Hrest].
      constructor; [|apply IH; exact Hrest].
      unfold mismatch_of in Hv. destruct (mr_match v); [reflexivity|].
      destruct (mr_note v); discriminate.
    + intros H. inversion H as [|? ? Hv Hrest]; subst.
      unfold mismatch_of at 1. rewrite Hv. apply IH. exact Hrest.
Qed.




(** ** Building, then verifying *)

(** C9: on a drive with Windows paths, [build_manifest] returns a
    manifest, and [verify_manifest] run on that manifest in any world whose
    files are those of the build returns no mismatch: it passes, and every
    record it leaves is a match of a path that exists. *)
Theorem C9_manifest_round_trip (rt : Runtime) (drive_root : string)
  (progress_callback abort_check progress_callback' abort_check' : bool)
  (w : World) :
  windows_paths (tree (drive w)) ->
  exists m paths build_aborted w1,
    build_manifest drive_root progress_callback abort_check w
    = (Returned (m, paths, build_aborted), w1)
    /\ tree (drive w1) = tree (drive w)
    /\ forall w2,
         tree (drive w2) = tree (drive w) ->
         exists vd verify_aborted w3,
           verify_manifest drive_root m progress_callback' abort_check' w2
           = (Returned (true, [], vd, verify_aborted), w3)
           /\ Forall (fun v => mr_match v = true /\ mr_note v = None
                               /\ mr_read_hash v = Some (mr_expected_hash v))
                vd
           /\ (verify_aborted = false -> List.length vd = List.length m).
Proof.
  intros Hwin.
  destruct (build_manifest_spec drive_root progress_callback abort_check w)
    as (m & paths & ab & w1 & ev & Hbuild & Hev & _ & Hf).
  specialize (Hf Hwin).
  exists m, paths, ab, w1. split; [exact Hbuild|].
  split; [destruct Hev as (Hd & _); rewrite Hd; reflexivity|].
  intros w2 Hsame. unfold verify_manifest.
  destruct (verify_loop_spec progress_callback' abort_check'
              (Z.max (Z.of_nat (List.length m)) 1) m 0 [] [] w2)
    as (new & ab' & w3 & ev' & Hloop & _ & _ & k & Hk & Hout).
  cbn [app] in Hloop. rewrite Hsame in Hout.
  destruct (faithful_outcomes _ _ Hf k new Hout) as [Hnone Hall].
  rewrite Hnone in Hloop. cbn [is_empty] in Hloop.
  exists new, ab', w3. split; [exact Hloop|]. split; [exact Hall|].
  intros Hab. specialize (Hk Hab). subst k.
  apply Forall2_length in Hout. rewrite firstn_all in Hout.
  symmetry. exact Hout.
Qed.

Lemma C9_manifest_round_trip_witness :
  windows_paths (tree (drive w_card))
  /\ exists m paths build_aborted w1,
       build_manifest (rt := sim_runtime) "G:\" true true w_card
       = (Returned (m, paths, build_aborted), w1)
       /\ tree (drive w1) = tree (drive w_card)
       /\ forall w2,
            tree (drive w2) = tree (drive w_card) ->
            exists vd verify_aborted w3,
              verify_manifest (rt := sim_runtime) "G:\" m true true w2
              = (Returned (true, [], vd, verify_aborted), w3)
              /\ Forall (fun v => mr_match v = true /\ mr_note v = None
                                  /\ mr_read_hash v
                                     = Some (mr_expected_hash v)) vd
              /\ (verify_aborted = false -> List.length vd = List.length m).
Proof.
  assert (Hwin : windows_paths (tree (drive w_card))).
  { unfold windows_paths. cbn. repeat constructor. }
  split; [exact Hwin|].
  exact (C9_manifest_round_trip sim_runtime "G:\" true true true true w_card
           Hwin).
Defined.

(** ** The time stamp of the last sweep *)




(** The one place that stores the host-side time stores it whatever the
    result of the sweep says. *)
Lemma on_full_sweep_done_saves_time (rt : Runtime) (result : SweepResult) w :
  exists w',
    _on_full_sweep_done result w = (Returned tt, w')
    /\ config_last_sweep_time (host w') = Some (isoformat (now w')).
Proof.
  unfold _on_full_sweep_done.
  destruct (datetime_now_spec w) as (t & w1 & Hnow & _ & Ht).
  rewrite (bind_returned _ _ _ _ _ Hnow). subst t.
  eexists. split; reflexivity.
Qed.

(** ** Loading the manifest *)

(** The manifest of a drive is kept on the host under the name derived
    from the drive root. *)
Lemma manifest_path_examples :
  _manifest_path "G:\" = "G.json" /\ _manifest_path "e:\" = "E.json"
  /\ _manifest_path EmptyString = "UNKNOWN.json".
Proof. repeat split. Qed.

(** A manifest file that is missing, cannot be opened, is not JSON, or
    holds [null] loads as no manifest. *)
Lemma load_manifest_none root w :
  (dict_get (_manifest_path root) (manifests (host w)) = None
   \/ (exists err, dict_get (_manifest_path root) (manifests (host w))
                   = Some (Unopenable err))
   \/ dict_get (_manifest_path root) (manifests (host w)) = Some NotJson
   \/ dict_get (_manifest_path root) (manifests (host w)) = Some JsonNull) ->
  load_manifest root w = (Returned None, w).
Proof.
  unfold load_manifest.
  intros [H|[[err H]|[H|H]]]; rewrite H; reflexivity.
Qed.

Lemma write_last_sweep_timestamp_host (rt : Runtime) root w o w' :
  write_last_sweep_timestamp root w = (o, w') -> host w' = host w.
Proof.
  unfold write_last_sweep_timestamp.
  destruct (datetime_now_spec w) as (t & w1 & Hnow & (_ & Hh & _) & _).
  rewrite (bind_returned _ _ _ _ _ Hnow). intros H.
  injection H as _ <-. exact Hh.
Qed.

Lemma free_space_phase_host (rt : Runtime) root pcb mcb ac parts mp mvd w o
  w' :
  free_space_phase root pcb mcb ac parts mp mvd w = (o, w') ->
  host w' = host w.
Proof.
  unfold free_space_phase.
  destruct (report_phase_spec mcb "free_space" w) as (ev1 & Hph & _).
  rewrite (bind_returned _ _ _ _ _ Hph).
  destruct (free_space_sweep_run root pcb ac (set_trace (trace w ++ ev1) w))
    as (ofs & w2 & ev2 & Hfs & (_ & Hh & _) & _).
  cbn [host set_trace] in Hh.
  destruct ofs as [fs|e].
  2:{ rewrite (bind_raised _ _ _ _ _ Hfs). intros H. injection H as _ <-.
      exact Hh. }
  rewrite (bind_returned _ _ _ _ _ Hfs).
  destruct (aborted fs); [intros H; injection H as _ <-; exact Hh|].
  destruct (passed fs); cbn [negb];
    [|intros H; injection H as _ <-; exact Hh].
  unfold bind at 1.
  destruct (write_last_sweep_timestamp root w2) as [[[]|e] w3] eqn:Hwr;
    intros H; injection H as _ <-;
    rewrite (write_last_sweep_timestamp_host rt _ _ _ _ Hwr); exact Hh.
Qed.

(** When loading gives no manifest, the sweep announces the build phase
    first, and unless the build is aborted it stores the manifest that
    [build_manifest] returned. *)
Lemma no_manifest_builds (rt : Runtime) root pcb ac w :
  load_manifest root w = (Returned None, w) ->
  exists o w' later m paths build_aborted w1,
    full_sweep root pcb true ac w = (o, w')
    /\ trace w' = trace w ++ EvPhase "build_manifest" :: later
    /\ build_manifest root pcb ac
         (set_trace (trace w ++ [EvPhase "build_manifest"]) w)
       = (Returned (m, paths, build_aborted), w1)
    /\ (build_aborted = false ->
        dict_get (_manifest_path root) (manifests (host w'))
        = Some (JsonObject m)).
Proof.
  intros Hload. unfold full_sweep.
  rewrite (bind_returned _ _ _ _ _ Hload).
  unfold report_phase, emit. erewrite bind_returned by reflexivity.
  set (w0 := set_trace (trace w ++ [EvPhase "build_manifest"]) w).
  destruct (build_manifest_spec root pcb ac w0)
    as (m & paths & ab & w1 & ev1 & Hbuild & (_ & _ & _ & Ht1) & _).
  rewrite (bind_returned _ _ _ _ _ Hbuild).
  assert (Ht1' : trace w1 = trace w ++ EvPhase "build_manifest" :: ev1).
  { rewrite Ht1. subst w0. cbn [trace set_trace].
    rewrite <- app_assoc. reflexivity. }
  destruct ab.
  - eexists (Returned _), w1, ev1, m, paths, true, w1.
    split; [reflexivity|]. split; [exact Ht1'|]. split; [exact Hbuild|].
    discriminate.
  - destruct (save_manifest_spec root m w1)
      as (w2 & Hsave & (_ & _ & _ & Ht2) & _ & Hstored).
    rewrite (bind_returned _ _ _ _ _ Hsave).
    destruct (free_space_phase_spec root pcb true ac
                ["Manifest built (new card)."] true [] w2 eq_refl)
      as (o & w3 & ev3 & Hfs & Hpost).
    pose proof (free_space_phase_host rt _ _ _ _ _ _ _ _ _ _ Hfs) as Hh.
    assert (Ht3 : trace w3 = trace w2 ++ ev3).
    { destruct o as [r|e]; cbn [sweep_post] in Hpost.
      - destruct Hpost as [(_ & _ & (_ & _ & _ & _ & T))
                          |(_ & _ & (_ & _ & _ & T) & _)]; exact T.
      - destruct Hpost as ((_ & _ & _ & T) & _). exact T. }
    exists o, w3, (ev1 ++ [EvSaveManifest (_manifest_path root)] ++ ev3),
      m, paths, false, w1.
    split; [exact Hfs|]. split.
    { rewrite Ht3, Ht2, Ht1'. rewrite <- !app_assoc. reflexivity. }
    split; [exact Hbuild|]. intros _. rewrite Hh. exact Hstored.
Qed.

(** C8 (the code departs from it): a manifest file whose bytes are not
    valid UTF-8 does not load as "no manifest".  [load_manifest] lets the
    [UnicodeDecodeError] through, its handler catching only
    [json.JSONDecodeError] and [OSError], and [full_sweep] ends with that
    exception before any phase: nothing is built, nothing is stored. *)
Theorem C8_undecodable_manifest_raises :
  _manifest_path "G:\" = "G.json"
  /\ load_manifest "G:\" w_garbled_manifest
     = (Raised UnicodeDecodeError, w_garbled_manifest)
  /\ full_sweep (rt := sim_runtime) "G:\" true true true w_garbled_manifest
     = (Raised UnicodeDecodeError, w_garbled_manifest).
Proof. repeat split. Qed.

(** * Further properties *)

(** ** The order of the effects of a check *)

Lemma in_order_weaken ts lo hi lo' hi' ev :
  lo' <= lo -> hi <= hi' ->
  in_order ts lo hi ev = true -> in_order ts lo' hi' ev = true.
Proof.
  intros Hlo Hhi. destruct ev as [|e rest]; [reflexivity|].
  cbn [in_order]. destruct (stage ts e) as [s|]; [|discriminate].
  intros H. apply andb_prop in H. destruct H as [H Hrest].
  apply andb_prop in H. destruct H as [H1 H2].
  apply Z.leb_le in H1. apply Z.ltb_lt in H2.
  apply andb_true_intro. split; [apply andb_true_intro; split|].
  - apply Z.leb_le. lia.
  - apply Z.ltb_lt. lia.
  - revert Hrest. clear -Hhi. generalize (s + 1).
    induction rest as [|e rest IH]; intros lo; [reflexivity|].
    cbn [in_order]. destruct (stage ts e) as [s'|]; [|discriminate].
    intros H. apply andb_prop in H. destruct H as [H Hrest].
    apply andb_prop in H. destruct H as [H1 H2].
    apply Z.ltb_lt in H2.
    rewrite H1, (IH _ Hrest). cbn.
    rewrite andb_true_r. apply Z.ltb_lt. lia.
Qed.

Lemma in_order_app ts lo mid hi a b :
  lo <= mid -> mid <= hi ->
  in_order ts lo mid a = true -> in_order ts mid hi b = true ->
  in_order ts lo hi (a ++ b) = true.
Proof.
  revert lo. induction a as [|e a IH]; intros lo Hlo Hhi Ha Hb.
  - cbn [app]. eapply in_order_weaken; [exact Hlo | apply Z.le_refl | exact Hb].
  - cbn [app in_order] in *. destruct (stage ts e) as [s|]; [|discriminate].
    apply andb_prop in Ha. destruct Ha as [H Hrest].
    apply andb_prop in H. destruct H as [H1 H2].
    pose proof H2 as H2'. apply Z.ltb_lt in H2'.
    rewrite H1. cbn [andb].
    apply andb_true_intro. split; [apply Z.ltb_lt; lia|].
    apply IH; try assumption. lia.
Qed.

Lemma in_order_facts ts lo hi ev :
  in_order ts lo hi ev = true ->
  StronglySorted Z.lt (progress_values ev)
  /\ Forall (fun c => lo <= 2 * c < hi) (progress_values ev)
  /\ (forall c t, In (EvProgress c t) ev -> t = ts)
  /\ Forall (fun e => match e with
                      | EvProgress _ _ | EvWrite _ _ | EvRead _ _ => True
                      | _ => False
                      end) ev.
Proof.
  revert lo. induction ev as [|e ev IH]; intros lo H.
  - cbn. repeat split; try constructor. intros c t [].
  - cbn [in_order] in H. destruct (stage ts e) as [s|] eqn:Hs; [|discriminate].
    apply andb_prop in H. destruct H as [H Hrest].
    apply andb_prop in H. destruct H as [H1 H2].
    apply Z.leb_le in H1. apply Z.ltb_lt in H2.
    destruct (IH _ Hrest) as (Hsorted & Hbound & Htot & Hkind).
    assert (Hbound' : Forall (fun c => lo <= 2 * c < hi) (progress_values ev)).
    { eapply Forall_impl; [|exact Hbound]. cbv beta. intros c Hc. lia. }
    destruct e as [ph|c t|p|i n|i [|]| |p|nm|st]; cbn [stage] in Hs;
      try discriminate.
    + destruct (t =? ts) eqn:Et; [|discriminate]. apply Z.eqb_eq in Et.
      assert (Es : s = 2 * c) by congruence. clear Hs. subst s.
      change (progress_values (EvProgress c t :: ev))
        with (c :: progress_values ev).
      split; [|split; [|split]].
      * constructor; [exact Hsorted|].
        eapply Forall_impl; [|exact Hbound]. cbv beta. intros c' Hc'. lia.
      * constructor; [lia | exact Hbound'].
      * intros c' t' [Heq|Hin]; [congruence | eauto].
      * constructor; [exact I | exact Hkind].
    + split; [exact Hsorted|]. split; [exact Hbound'|]. split.
      * intros c' t' [Heq|Hin]; [discriminate | eauto].
      * constructor; [exact I | exact Hkind].
    + split; [exact Hsorted|]. split; [exact Hbound'|]. split.
      * intros c' t' [Heq|Hin]; [discriminate | eauto].
      * constructor; [exact I | exact Hkind].
    + split; [exact Hsorted|]. split; [exact Hbound'|]. split.
      * intros c' t' [Heq|Hin]; [discriminate | eauto].
      * constructor; [exact I | exact Hkind].
Qed.

Ltac order_side :=
  repeat (apply andb_true_intro; split);
  first [reflexivity | apply Z.leb_le; lia | apply Z.ltb_lt; lia].

Section CheckEvents.
Context {rt : Runtime}.

Lemma step_spec_in_order msg pcb ts i fsize vd f x ev :
  step_spec msg pcb ts i fsize vd f x ev ->
  in_order ts (6 * i) (6 * i + 6) ev = true.
Proof.
  intros H. destruct H; destruct pcb;
    cbn [progress_events app in_order stage];
    rewrite ?Z.eqb_refl; order_side.
Qed.

Lemma cycle_loop_in_order msg pcb ac ts :
  forall batches i vd w,
    exists exit w' ev,
      cycle_loop msg pcb ac ts batches i vd w = (Returned exit, w')
      /\ trace w' = trace w ++ ev
      /\ in_order ts (6 * i) (6 * (i + Z.of_nat (List.length batches))) ev
         = true.
Proof.
  induction batches as [|fsize later IH]; intros i vd w.
  - exists (ExitDone vd), w, []. split; [reflexivity|].
    split; [rewrite app_nil_r; reflexivity | reflexivity].
  - cbn [cycle_loop].
    destruct (poll_abort_spec ac w) as (stop & w1 & Hpoll & Hev1).
    rewrite (bind_returned _ _ _ _ _ Hpoll).
    destruct Hev1 as (_ & _ & _ & Ht1). rewrite app_nil_r in Ht1.
    destruct stop.
    + exists (ExitBreak vd), w1, []. split; [reflexivity|].
      split; [rewrite app_nil_r; exact Ht1 | reflexivity].
    + destruct (write_verify_batch_spec msg pcb ts i fsize vd w1)
        as (x & ev & Hstep & Hspec).
      rewrite (bind_returned _ _ _ _ _ Hstep).
      apply step_spec_in_order in Hspec.
      assert (Hlen : 6 * i + 6
                     <= 6 * (i + Z.of_nat (List.length (fsize :: later)))).
      { cbn [List.length]. lia. }
      destruct x as [r|vd'].
      * exists (ExitReturn r), (set_trace (trace w1 ++ ev) w1), ev.
        split; [reflexivity|]. split; [cbn; rewrite Ht1; reflexivity|].
        eapply in_order_weaken; [apply Z.le_refl | exact Hlen | exact Hspec].
      * destruct (IH (i + 1) vd' (set_trace (trace w1 ++ ev) w1))
          as (exit & w' & ev' & Hloop & Ht & Hord).
        exists exit, w', (ev ++ ev'). split; [exact Hloop|]. split.
        { rewrite Ht. cbn. rewrite Ht1, app_assoc. reflexivity. }
        apply in_order_app with (mid := 6 * i + 6); try lia; [exact Hspec|].
        replace (6 * i + 6) with (6 * (i + 1)) by lia.
        replace (i + Z.of_nat (List.length (fsize :: later)))
          with (i + 1 + Z.of_nat (List.length later))
          by (cbn [List.length]; lia).
        exact Hord.
Qed.

Lemma finish_in_order amsg word pmsg pcb bs size ts exit w :
  exists o w' ev,
    finish amsg word pmsg pcb bs size ts exit w = (o, w')
    /\ trace w' = trace w ++ ev
    /\ in_order ts (2 * ts) (2 * ts + 1) ev = true.
Proof.
  destruct exit as [r|vd|vd]; cbn [finish].
  - exists (Returned r), w, []. split; [reflexivity|].
    split; [rewrite app_nil_r; reflexivity | reflexivity].
  - unfold aborted_result, bind, lift.
    destruct (confidence_pct _ _) as [pct|e].
    + eexists (Returned _), w, []. split; [reflexivity|].
      split; [rewrite app_nil_r; reflexivity | reflexivity].
    + exists (Raised e), w, []. split; [reflexivity|].
      split; [rewrite app_nil_r; reflexivity | reflexivity].
  - erewrite bind_returned by apply report_progress_spec.
    eexists (Returned _), _, _. split; [reflexivity|].
    split; [reflexivity|].
    destruct pcb; cbn [progress_events in_order stage];
      rewrite ?Z.eqb_refl; order_side.
Qed.

Lemma check_body_events fmsg amsg word pmsg prefix pcb ac size w :
  1024 <= size ->
  exists o w' ev,
    check_body fmsg amsg word pmsg prefix pcb ac size w = (o, w')
    /\ trace w' = trace w ++ ev
    /\ run_events prefix size (mkdir_error (drive w)) ev.
Proof.
  intros Hsize. unfold check_body, run_events.
  apply Z.ltb_ge in Hsize. rewrite Hsize.
  destruct (datetime_now_spec w) as (t & w1 & Hnow & Hev1 & _).
  rewrite (bind_returned _ _ _ _ _ Hnow).
  destruct Hev1 as (Hd1 & _ & _ & Ht1). rewrite app_nil_r in Ht1.
  unfold mkdir_temp at 1. erewrite bind_returned by reflexivity.
  rewrite Hd1.
  destruct (mkdir_error (drive w)) as [e|].
  - eexists (Returned _), _, _. split; [reflexivity|].
    split; [cbn; rewrite Ht1; reflexivity | reflexivity].
  - set (bs := plan_batches MAX_FILE_BYTES size).
    set (n := Z.of_nat (List.length bs)).
    set (w2 := set_trace (trace w1 ++ [EvMkdir prefix]) w1).
    destruct (cycle_loop_in_order fmsg pcb ac (n * 3) bs 0 [] w2)
      as (exit & w3 & ev3 & Hloop & Ht3 & Hord3).
    unfold finally. rewrite (bind_returned _ _ _ _ _ Hloop).
    destruct (finish_in_order amsg word pmsg pcb bs size (n * 3) exit w3)
      as (o & w4 & ev4 & Hfin & Ht4 & Hord4).
    rewrite Hfin.
    exists o, (cleanup_temp w4), (EvMkdir prefix :: (ev3 ++ ev4) ++ [EvCleanup]).
    split; [reflexivity|]. split.
    + cbn. rewrite Ht4, Ht3. subst w2. cbn. rewrite Ht1.
      rewrite <- !app_assoc. reflexivity.
    + exists (ev3 ++ ev4). split; [reflexivity|].
      apply in_order_app with (mid := 6 * n); try lia.
      * replace (6 * n) with (6 * (0 + n)) by lia. exact Hord3.
      * replace (6 * n) with (2 * (n * 3)) by lia.
        replace (6 * n + 1) with (2 * (n * 3) + 1) in Hord4 |- * by lia.
        exact Hord4.
Qed.

(** The two checks are [check_body] behind their guards. *)
Lemma quick_check_body root frac pcb ac w :
  quick_check root frac pcb ac w
  = match planned_size frac w with
    | Raised e => (Raised e, w)
    | Returned size =>
        if size <? 1024
        then (Returned
                (failure "Integrity check failed"
                   "Not enough free space for check (need at least 100 MB free)."
                   []), w)
        else check_body "Integrity check failed" "Check aborted by user"
               " bytes tested (~" "Integrity check passed" "SentinelCheck"
               pcb ac size w
    end.
Proof.
  unfold quick_check, get_drive_usage, planned_size, check_body.
  erewrite bind_returned by reflexivity. cbv beta iota.
  unfold lift at 1.
  destruct (target_bytes_of frac (disk_total (drive w))) as [target|e];
    [|reflexivity].
  erewrite bind_returned by reflexivity. fold (usable_of w).
  destruct (Z.min target (usable_of w) <? 1024); [reflexivity|].
  unfold bind.
  destruct (datetime_now w) as [[t|e] w1]; [|reflexivity].
  destruct (mkdir_temp "SentinelCheck" w1) as [[[e|]|e] w2];
    try reflexivity.
  unfold finally. rewrite quick_check_loop_cycle. reflexivity.
Qed.

Lemma free_space_sweep_body root pcb ac w :
  free_space_sweep root pcb ac w
  = if usable_of w <? 1024
    then (Returned
            (failure "Free-space sweep failed"
               "Not enough free space (need at least 100 MB free)." []), w)
    else check_body "Free-space sweep failed"
           "Free-space sweep aborted by user" " bytes (~"
           "Free-space sweep passed" "SentinelSweep" pcb ac (usable_of w) w.
Proof.
  unfold free_space_sweep, get_drive_usage, check_body.
  erewrite bind_returned by reflexivity. cbv beta iota. fold (usable_of w).
  destruct (usable_of w <? 1024); [reflexivity|].
  unfold bind.
  destruct (datetime_now w) as [[t|e] w1]; [|reflexivity].
  destruct (mkdir_temp "SentinelSweep" w1) as [[[e|]|e] w2];
    try reflexivity.
  unfold finally. rewrite free_space_loop_cycle. reflexivity.
Qed.

Lemma new_events_app w w' ev :
  trace w' = trace w ++ ev -> new_events w w' = ev.
Proof.
  intros Ht. unfold new_events. rewrite Ht.
  rewrite skipn_app, Nat.sub_diag, skipn_all. reflexivity.
Qed.

Lemma free_space_sweep_events root pcb ac w o w' :
  free_space_sweep root pcb ac w = (o, w') ->
  run_events "SentinelSweep" (usable_of w) (mkdir_error (drive w))
    (new_events w w').
Proof.
  rewrite free_space_sweep_body. destruct (usable_of w <? 1024) eqn:E.
  - intros H. injection H as <- <-. unfold run_events. rewrite E.
    apply new_events_app. rewrite app_nil_r. reflexivity.
  - apply Z.ltb_ge in E.
    destruct (check_body_events "Free-space sweep failed"
                "Free-space sweep aborted by user" " bytes (~"
                "Free-space sweep passed" "SentinelSweep" pcb ac
                (usable_of w) w E)
      as (o1 & w1 & ev & Hrun & Ht & Hev).
    rewrite Hrun. intros H. injection H as <- <-.
    rewrite (new_events_app _ _ _ Ht). exact Hev.
Qed.

Lemma quick_check_events root frac pcb ac w o w' size :
  planned_size frac w = Returned size ->
  quick_check root frac pcb ac w = (o, w') ->
  run_events "SentinelCheck" size (mkdir_error (drive w)) (new_events w w').
Proof.
  intros Hsize. rewrite quick_check_body, Hsize.
  destruct (size <? 1024) eqn:E.
  - intros H. injection H as <- <-. unfold run_events. rewrite E.
    apply new_events_app. rewrite app_nil_r. reflexivity.
  - apply Z.ltb_ge in E.
    destruct (check_body_events "Integrity check failed"
                "Check aborted by user" " bytes tested (~"
                "Integrity check passed" "SentinelCheck" pcb ac size w E)
      as (o1 & w1 & ev & Hrun & Ht & Hev).
    rewrite Hrun. intros H. injection H as <- <-.
    rewrite (new_events_app _ _ _ Ht). exact Hev.
Qed.

End CheckEvents.

(** ** The checks, seen by their user *)

(** X1: the digest that [_hash_file_chunked] returns does not depend on
    the chunk size: for every positive chunk size it is the SHA-256 of the
    whole file, the same as with the 64 MiB chunks the program uses. *)
Theorem X1_digest_independent_of_chunk_size (rt : Runtime)
  (file : list byte) (chunk_size : Z) :
  0 < chunk_size ->
  _hash_file_chunked (inr file) chunk_size = inr (sha256 file)
  /\ _hash_file_chunked (inr file) chunk_size
     = _hash_file_chunked (inr file) WRITE_CHUNK_BYTES.
Proof.
  intros Hc.
  assert (H : forall c, 0 < c ->
                _hash_file_chunked (inr file) c = inr (sha256 file)).
  { intros c Hpos. unfold _hash_file_chunked, hexdigest.
    rewrite hash_loop_all; [reflexivity | exact Hpos | lia]. }
  split; [apply H; exact Hc|].
  rewrite (H _ Hc), (H WRITE_CHUNK_BYTES); [reflexivity | reflexivity].
Qed.

Lemma X1_digest_independent_of_chunk_size_witness :
  0 < 3
  /\ _hash_file_chunked (rt := sim_runtime)
       (inr (list_byte_of_string "integrity")) 3
     = inr (@sha256 sim_runtime (list_byte_of_string "integrity"))
  /\ _hash_file_chunked (rt := sim_runtime)
       (inr (list_byte_of_string "integrity")) 3
     = _hash_file_chunked (rt := sim_runtime)
         (inr (list_byte_of_string "integrity")) WRITE_CHUNK_BYTES.
Proof.
  split; [lia|].
  apply (X1_digest_independent_of_chunk_size sim_runtime
           (list_byte_of_string "integrity") 3).
  lia.
Defined.

Lemma new_events_same w : new_events w w = [].
Proof. apply new_events_app. rewrite app_nil_r. reflexivity. Qed.

(** The events of either check follow [run_events] for some planned
    size. *)
Lemma check_events (rt : Runtime) root frac pcb ac w o w' :
  quick_check root frac pcb ac w = (o, w')
  \/ free_space_sweep root pcb ac w = (o, w') ->
  new_events w w' = []
  \/ exists prefix size,
       run_events prefix size (mkdir_error (drive w)) (new_events w w').
Proof.
  intros [Hrun|Hrun].
  - destruct (planned_size frac w) as [size|e] eqn:Hsize.
    + right. exists "SentinelCheck", size.
      eapply quick_check_events; eassumption.
    + rewrite quick_check_body, Hsize in Hrun. injection Hrun as <- <-.
      left. apply new_events_same.
  - right. exists "SentinelSweep", (usable_of w).
    eapply free_space_sweep_events; eassumption.
Qed.

(** X2: whatever way a check ends (a pass, a failure, an abort or an
    exception), once the directory of test files was created the last
    thing the check does is to remove the test files, exactly once; in
    between it only reports progress, writes and reads.  When the
    directory cannot be created, or the check refuses to run, no test
    file is written. *)
Theorem X2_test_files_always_removed (rt : Runtime) (drive_root : string)
  (size_fraction : spec_float) (progress_callback abort_check : bool)
  (w w' : World) (o : Outcome CheckResult) :
  quick_check drive_root size_fraction progress_callback abort_check w
  = (o, w')
  \/ free_space_sweep drive_root progress_callback abort_check w = (o, w') ->
  new_events w w' = []
  \/ (exists prefix,
        new_events w w' = [EvMkdir prefix]
        /\ mkdir_error (drive w) <> None)
  \/ (exists prefix batches,
        new_events w w' = EvMkdir prefix :: batches ++ [EvCleanup]
        /\ mkdir_error (drive w) = None
        /\ Forall (fun e => match e with
                            | EvProgress _ _ | EvWrite _ _ | EvRead _ _ =>
                                True
                            | _ => False
                            end) batches).
Proof.
  intros Hrun. destruct (check_events rt _ _ _ _ _ _ _ Hrun)
    as [Hnone|(prefix & size & Hev)]; [left; exact Hnone|].
  unfold run_events in Hev. destruct (size <? 1024); [left; exact Hev|].
  right. destruct (mkdir_error (drive w)) as [e|].
  - left. exists prefix. split; [exact Hev | discriminate].
  - right. destruct Hev as (batches & Hev & Hord).
    exists prefix, batches. split; [exact Hev|]. split; [reflexivity|].
    apply in_order_facts in Hord. apply Hord.
Qed.

Lemma X2_test_files_always_removed_witness :
  (quick_check (rt := sim_runtime) "G:\" tenth false false w_bad_first_read
   = (Returned bad_first_read_result, bad_first_read_world)
   \/ free_space_sweep (rt := sim_runtime) "G:\" false false
        w_bad_first_read
      = (Returned bad_first_read_result, bad_first_read_world))
  /\ (new_events w_bad_first_read bad_first_read_world = []
      \/ (exists prefix,
            new_events w_bad_first_read bad_first_read_world
            = [EvMkdir prefix]
            /\ mkdir_error (drive w_bad_first_read) <> None)
      \/ (exists prefix batches,
            new_events w_bad_first_read bad_first_read_world
            = EvMkdir prefix :: batches ++ [EvCleanup]
            /\ mkdir_error (drive w_bad_first_read) = None
            /\ Forall (fun e => match e with
                                | EvProgress _ _ | EvWrite _ _
                                | EvRead _ _ => True
                                | _ => False
                                end) batches)).
Proof.
  assert (Hrun : quick_check (rt := sim_runtime) "G:\" tenth false false
                   w_bad_first_read
                 = (Returned bad_first_read_result, bad_first_read_world)
                 \/ free_space_sweep (rt := sim_runtime) "G:\" false false
                      w_bad_first_read
                    = (Returned bad_first_read_result,
                       bad_first_read_world)).
  { right. vm_compute. reflexivity. }
  split; [exact Hrun|].
  exact (X2_test_files_always_removed sim_runtime _ _ _ _ _ _ _ Hrun).
Defined.

Lemma progress_values_app ev1 ev2 :
  progress_values (ev1 ++ ev2) = progress_values ev1 ++ progress_values ev2.
Proof. unfold progress_values. apply flat_map_app. Qed.

(** X3: the values of [current] that a check passes to
    [progress_callback] increase strictly from call to call, lie between
    0 and the total, and the total is the same in every call: three
    steps for each planned batch. *)
Theorem X3_progress_increases_strictly (rt : Runtime) (drive_root : string)
  (size_fraction : spec_float) (progress_callback abort_check : bool)
  (w w' : World) (o : Outcome CheckResult) (size_bytes : Z) :
  (quick_check drive_root size_fraction progress_callback abort_check w
   = (o, w')
   /\ planned_size size_fraction w = Returned size_bytes)
  \/ (free_space_sweep drive_root progress_callback abort_check w = (o, w')
      /\ size_bytes = usable_of w) ->
  StronglySorted Z.lt (progress_values (new_events w w'))
  /\ Forall (fun c =>
               0 <= c
               <= Z.of_nat (List.length
                              (plan_batches MAX_FILE_BYTES size_bytes)) * 3)
       (progress_values (new_events w w'))
  /\ (forall c t,
        In (EvProgress c t) (new_events w w') ->
        t = Z.of_nat (List.length
                        (plan_batches MAX_FILE_BYTES size_bytes)) * 3).
Proof.
  intros Hrun.
  assert (Hev : exists prefix,
             run_events prefix size_bytes (mkdir_error (drive w))
               (new_events w w')).
  { destruct Hrun as [[Hrun Hsize]|[Hrun ->]].
    - exists "SentinelCheck". eapply quick_check_events; eassumption.
    - exists "SentinelSweep". eapply free_space_sweep_events; eassumption. }
  destruct Hev as (prefix & Hev). unfold run_events in Hev.
  destruct (size_bytes <? 1024).
  { rewrite Hev. split; [constructor|]. split; [constructor|].
    intros c t []. }
  destruct (mkdir_error (drive w)) as [e|].
  { rewrite Hev. split; [constructor|]. split; [constructor|].
    intros c t [H|[]]. discriminate. }
  destruct Hev as (batches & -> & Hord).
  apply in_order_facts in Hord.
  destruct Hord as (Hsorted & Hbound & Htot & _).
  change (EvMkdir prefix :: batches ++ [EvCleanup])
    with ([EvMkdir prefix] ++ batches ++ [EvCleanup]).
  rewrite !progress_values_app. cbn [progress_values flat_map app].
  rewrite app_nil_r.
  split; [exact Hsorted|]. split.
  - eapply Forall_impl; [|exact Hbound]. cbv beta. intros c Hc. lia.
  - intros c t [Hin|Hin]; [discriminate|].
    apply in_app_or in Hin. destruct Hin as [Hin|[Hin|[]]];
      [|discriminate].
    eapply Htot. exact Hin.
Qed.

Lemma X3_progress_increases_strictly_witness :
  ((quick_check (rt := sim_runtime) "G:\" tenth true false w_card
    = (Returned card_progress_result, card_progress_world)
    /\ planned_size tenth w_card = Returned 1024)
   \/ (free_space_sweep (rt := sim_runtime) "G:\" true false w_card
       = (Returned card_progress_result, card_progress_world)
       /\ 1024 = usable_of w_card))
  /\ StronglySorted Z.lt
       (progress_values (new_events w_card card_progress_world))
  /\ Forall (fun c =>
               0 <= c
               <= Z.of_nat (List.length (plan_batches MAX_FILE_BYTES 1024))
                  * 3)
       (progress_values (new_events w_card card_progress_world))
  /\ (forall c t,
        In (EvProgress c t) (new_events w_card card_progress_world) ->
        t = Z.of_nat (List.length (plan_batches MAX_FILE_BYTES 1024)) * 3).
Proof.
  assert (Hrun : (quick_check (rt := sim_runtime) "G:\" tenth true false
                    w_card
                  = (Returned card_progress_result, card_progress_world)
                  /\ planned_size tenth w_card = Returned 1024)
                 \/ (free_space_sweep (rt := sim_runtime) "G:\" true false
                       w_card
                     = (Returned card_progress_result, card_progress_world)
                     /\ 1024 = usable_of w_card)).
  { right. split; vm_compute; reflexivity. }
  split; [exact Hrun|].
  exact (X3_progress_increases_strictly sim_runtime _ _ _ _ _ _ _ _ Hrun).
Defined.

(** ** A device without faults, and what a pass means *)

Section Healthy.
Context {rt : Runtime}.

Lemma poll_abort_never ac w :
  never_aborts w ->
  exists w1, poll_abort ac w = (Returned false, w1)
             /\ drive w1 = drive w /\ never_aborts w1
             /\ trace w1 = trace w.
Proof.
  intros Hn. unfold poll_abort. destruct ac.
  - unfold never_aborts in Hn.
    destruct (abort_script w) as [|b rest] eqn:E.
    + exists w. unfold never_aborts. rewrite E. auto.
    + inversion Hn as [|b' rest' Hb Hrest]; subst.
      exists (set_abort_script rest w). repeat split. exact Hrest.
  - exists w. auto.
Qed.

Lemma cycle_loop_healthy msg pcb ac ts :
  forall batches i vd w,
    (forall j, fate (drive w) j = mkFate None Intact Intact) ->
    never_aborts w ->
    exists vd' w',
      cycle_loop msg pcb ac ts batches i vd w = (Returned (ExitDone vd'), w').
Proof.
  induction batches as [|fsize later IH]; intros i vd w Hfate Hn.
  - exists vd, w. reflexivity.
  - cbn [cycle_loop].
    destruct (poll_abort_never ac w Hn) as (w1 & Hpoll & Hd1 & Hn1 & _).
    rewrite (bind_returned _ _ _ _ _ Hpoll).
    destruct (healthy_batch rt msg pcb ts i fsize vd w1) as (ev & Hstep).
    { rewrite Hd1. apply Hfate. }
    rewrite (bind_returned _ _ _ _ _ Hstep).
    apply IH.
    + intros j. cbn [drive set_trace]. rewrite Hd1. apply Hfate.
    + exact Hn1.
Qed.

Lemma check_body_healthy fmsg amsg word pmsg prefix pcb ac size w :
  fault_free w -> never_aborts w -> 1024 <= size ->
  exists vd w',
    check_body fmsg amsg word pmsg prefix pcb ac size w
    = (Returned
         (mkCheckResult true pmsg
            ("Verified "
             +++ str_of_Z (Z.of_nat (List.length
                                       (plan_batches MAX_FILE_BYTES size)))
             +++ " batches, " +++ fmt_commas size +++ " bytes total.")
            vd None), w')
    /\ Forall clean vd
    /\ indexed (plan_batches MAX_FILE_BYTES size) vd
    /\ List.length vd = List.length (plan_batches MAX_FILE_BYTES size).
Proof.
  intros [Hmk Hfate] Hn Hsize. unfold check_body.
  assert (Hnow : exists t w1, datetime_now w = (Returned t, w1)
                              /\ drive w1 = drive w
                              /\ abort_script w1 = abort_script w).
  { unfold datetime_now. destruct (clock_script w); eauto. }
  destruct Hnow as (t & w1 & Hnow & Hd1 & Ha1).
  rewrite (bind_returned _ _ _ _ _ Hnow).
  unfold mkdir_temp at 1. erewrite bind_returned by reflexivity.
  rewrite Hd1, Hmk. unfold finally.
  set (bs := plan_batches MAX_FILE_BYTES size).
  set (ts := Z.of_nat (List.length bs) * 3).
  set (w2 := set_trace (trace w1 ++ [EvMkdir prefix]) w1).
  destruct (cycle_loop_healthy fmsg pcb ac ts bs 0 [] w2) as (vd & w3 & Hloop).
  { intros j. subst w2. cbn [drive set_trace]. rewrite Hd1. apply Hfate. }
  { unfold never_aborts. subst w2. cbn [abort_script set_trace].
    rewrite Ha1. exact Hn. }
  destruct (cycle_loop_spec fmsg pcb ac ts bs bs [] [] w2 eq_refl eq_refl
              (Forall_nil _))
    as (exit & w3' & ev3 & Hloop' & _ & _ & _ & _ & Hpost).
  { intros k v Hk. destruct k; discriminate. }
  cbn [List.length Z.of_nat] in Hloop'. rewrite Hloop in Hloop'.
  injection Hloop' as <- <-. cbn [exit_post] in Hpost.
  destruct Hpost as (Hclean & Hidx & Hlen).
  rewrite (bind_returned _ _ _ _ _ Hloop). cbn [finish].
  erewrite bind_returned by apply report_progress_spec.
  exists vd. eexists. split; [reflexivity|]. auto.
Qed.

End Healthy.

(** X4: on a device without faults (the directory can be created, every
    test file is written and read back intact) and with no abort, a
    check whose planned size reaches the floor of 1024 bytes passes: the
    result is the pass result, not aborted, with one record for each
    planned batch, and in each record both reads gave the expected
    hash. *)
Theorem X4_fault_free_device_passes (rt : Runtime) (drive_root : string)
  (size_fraction : spec_float) (progress_callback abort_check : bool)
  (w : World) :
  fault_free w -> never_aborts w ->
  (forall size_bytes,
     planned_size size_fraction w = Returned size_bytes ->
     1024 <= size_bytes ->
     exists r w',
       quick_check drive_root size_fraction progress_callback abort_check w
       = (Returned r, w')
       /\ passed r = true /\ aborted r = false
       /\ message r = "Integrity check passed"
       /\ Forall clean (verification_details r)
       /\ List.length (verification_details r)
          = List.length (plan_batches MAX_FILE_BYTES size_bytes))
  /\ (1024 <= usable_of w ->
      exists r w',
        free_space_sweep drive_root progress_callback abort_check w
        = (Returned r, w')
        /\ passed r = true /\ aborted r = false
        /\ message r = "Free-space sweep passed"
        /\ Forall clean (verification_details r)
        /\ List.length (verification_details r)
           = List.length (plan_batches MAX_FILE_BYTES (usable_of w))).
Proof.
  intros Hff Hn. split.
  - intros size Hsize Hfloor.
    rewrite quick_check_body, Hsize.
    pose proof Hfloor as Hlt. apply Z.ltb_ge in Hlt. rewrite Hlt.
    destruct (check_body_healthy "Integrity check failed"
                "Check aborted by user" " bytes tested (~"
                "Integrity check passed" "SentinelCheck"
                progress_callback abort_check size w Hff Hn Hfloor)
      as (vd & w' & Hrun & Hclean & _ & Hlen).
    eexists _, w'. split; [exact Hrun|]. cbn. auto.
  - intros Hfloor. rewrite free_space_sweep_body.
    pose proof Hfloor as Hlt. apply Z.ltb_ge in Hlt. rewrite Hlt.
    destruct (check_body_healthy "Free-space sweep failed"
                "Free-space sweep aborted by user" " bytes (~"
                "Free-space sweep passed" "SentinelSweep"
                progress_callback abort_check (usable_of w) w Hff Hn Hfloor)
      as (vd & w' & Hrun & Hclean & _ & Hlen).
    eexists _, w'. split; [exact Hrun|]. cbn. auto.
Qed.

Lemma X4_fault_free_device_passes_witness :
  fault_free w_card /\ never_aborts w_card
  /\ planned_size tenth w_card = Returned 1024
  /\ 1024 <= usable_of w_card
  /\ (exists r w',
        quick_check (rt := sim_runtime) "G:\" tenth true true w_card
        = (Returned r, w')
        /\ passed r = true /\ aborted r = false
        /\ message r = "Integrity check passed"
        /\ Forall (clean) (verification_details r)
        /\ List.length (verification_details r)
           = List.length (plan_batches MAX_FILE_BYTES 1024))
  /\ (exists r w',
        free_space_sweep (rt := sim_runtime) "G:\" true true w_card
        = (Returned r, w')
        /\ passed r = true /\ aborted r = false
        /\ message r = "Free-space sweep passed"
        /\ Forall (clean) (verification_details r)
        /\ List.length (verification_details r)
           = List.length (plan_batches MAX_FILE_BYTES (usable_of w_card))).
Proof.
  assert (Hff : fault_free w_card).
  { split; [reflexivity | intros i; reflexivity]. }
  assert (Hn : never_aborts w_card) by constructor.
  assert (Hsize : planned_size tenth w_card = Returned 1024)
    by (vm_compute; reflexivity).
  assert (Hfloor : 1024 <= usable_of w_card) by (vm_compute; discriminate).
  split; [exact Hff|]. split; [exact Hn|]. split; [exact Hsize|].
  split; [exact Hfloor|].
  destruct (X4_fault_free_device_passes sim_runtime "G:\" tenth true true
              w_card Hff Hn) as [Hq Hs].
  split; [apply (Hq 1024 Hsize); lia | apply Hs; exact Hfloor].
Defined.

(** X5: a result that says passed and is not aborted stands for a
    complete run: the planned size reached the floor, the planned
    batches add up to it, and there is exactly one record for each
    planned batch, each with both reads equal to the expected hash, the
    digest of the content generated for that batch. *)
Theorem X5_pass_covers_every_planned_batch (rt : Runtime)
  (drive_root : string) (size_fraction : spec_float)
  (progress_callback abort_check : bool) (w w' : World) (r : CheckResult)
  (size_bytes : Z) :
  (quick_check drive_root size_fraction progress_callback abort_check w
   = (Returned r, w')
   /\ planned_size size_fraction w = Returned size_bytes)
  \/ (free_space_sweep drive_root progress_callback abort_check w
      = (Returned r, w')
      /\ size_bytes = usable_of w) ->
  passed r = true -> aborted r = false ->
  1024 <= size_bytes
  /\ sum_Z (plan_batches MAX_FILE_BYTES size_bytes) = size_bytes
  /\ List.length (verification_details r)
     = List.length (plan_batches MAX_FILE_BYTES size_bytes)
  /\ forall k fsize,
       nth_error (plan_batches MAX_FILE_BYTES size_bytes) k = Some fsize ->
       exists v,
         nth_error (verification_details r) k = Some v
         /\ br_batch v = Z.of_nat k + 1
         /\ br_match v = true
         /\ br_expected_hash v = sha256 (batch_content (Z.of_nat k) fsize)
         /\ br_read1_hash v = br_expected_hash v
         /\ br_read2_hash v = Some (br_expected_hash v).
Proof.
  intros Hrun Hpass Hab.
  assert (Hpost : exists msg, run_post msg size_bytes r (new_events w w')).
  { destruct Hrun as [[Hrun Hsize]|[Hrun ->]].
    - destruct (quick_check_run_post rt _ _ _ _ _ _ _ Hrun)
        as (size & Hsize' & Hp).
      rewrite Hsize in Hsize'. injection Hsize' as <-. eauto.
    - pose proof (free_space_sweep_run_post rt _ _ _ _ _ _ Hrun). eauto. }
  destruct Hpost as (msg & Hpost).
  destruct Hpost as [Hp _ _ _ _|Hfloor Hfail|pct Hfloor _ _ _ _ _ Ha
                    |Hfloor Hclean Hidx Hlen _ _].
  - congruence.
  - destruct Hfail as (Hp & _). congruence.
  - unfold aborted in Hab. rewrite Ha in Hab. discriminate.
  - split; [exact Hfloor|].
    split; [apply plan_batches_facts; [lia | reflexivity]|].
    split; [exact Hlen|].
    intros k fsize Hk.
    destruct (nth_error (verification_details r) k) as [v|] eqn:Hv.
    + exists v. split; [reflexivity|].
      destruct (Hidx k v Hv) as (Hb & fsize' & Hk' & He).
      rewrite Hk in Hk'. injection Hk' as <-.
      rewrite Forall_forall in Hclean.
      destruct (Hclean v (nth_error_In _ _ Hv)) as (Hm & H1 & H2).
      split; [exact Hb|]. split; [exact Hm|].
      split; [rewrite He; apply expected_hash_of_content|]. auto.
    + apply nth_error_None in Hv.
      assert (k < List.length (plan_batches MAX_FILE_BYTES size_bytes))%nat.
      { apply nth_error_Some. rewrite Hk. discriminate. }
      lia.
Qed.

Lemma X5_pass_covers_every_planned_batch_witness :
  ((quick_check (rt := sim_runtime) "G:\" tenth true false w_card
    = (Returned card_progress_result, card_progress_world)
    /\ planned_size tenth w_card = Returned 1024)
   \/ (free_space_sweep (rt := sim_runtime) "G:\" true false w_card
       = (Returned card_progress_result, card_progress_world)
       /\ 1024 = usable_of w_card))
  /\ passed card_progress_result = true
  /\ aborted card_progress_result = false
  /\ 1024 <= 1024
  /\ sum_Z (plan_batches MAX_FILE_BYTES 1024) = 1024
  /\ List.length (verification_details card_progress_result)
     = List.length (plan_batches MAX_FILE_BYTES 1024)
  /\ forall k fsize,
       nth_error (plan_batches MAX_FILE_BYTES 1024) k = Some fsize ->
       exists v,
         nth_error (verification_details card_progress_result) k = Some v
         /\ br_batch v = Z.of_nat k + 1
         /\ br_match v = true
         /\ br_expected_hash v
            = @sha256 sim_runtime
                (batch_content (rt := sim_runtime) (Z.of_nat k) fsize)
         /\ br_read1_hash v = br_expected_hash v
         /\ br_read2_hash v = Some (br_expected_hash v).
Proof.
  assert (Hrun : (quick_check (rt := sim_runtime) "G:\" tenth true false
                    w_card
                  = (Returned card_progress_result, card_progress_world)
                  /\ planned_size tenth w_card = Returned 1024)
                 \/ (free_space_sweep (rt := sim_runtime) "G:\" true false
                       w_card
                     = (Returned card_progress_result, card_progress_world)
                     /\ 1024 = usable_of w_card)).
  { right. split; vm_compute; reflexivity. }
  split; [exact Hrun|]. split; [reflexivity|]. split; [reflexivity|].
  exact (X5_pass_covers_every_planned_batch sim_runtime _ _ _ _ _ _ _ _
           Hrun eq_refl eq_refl).
Defined.

(** ** The manifest, seen by its user *)

Lemma dict_get_set_other {V : Type} (k k' : string) (v : V) d :
  k' <> k -> dict_get k' (dict_set k v d) = dict_get k' d.
Proof.
  intros Hne. induction d as [|[k0 v0] d IH]; cbn.
  - destruct (String.eqb k k') eqn:E; [|reflexivity].
    apply String.eqb_eq in E. congruence.
  - destruct (String.eqb k0 k) eqn:E; cbn.
    + apply String.eqb_eq in E. subst k0.
      destruct (String.eqb k k') eqn:E'; [|reflexivity].
      apply String.eqb_eq in E'. congruence.
    + rewrite IH. reflexivity.
Qed.

Lemma dict_get_In {V : Type} (k : string) (v : V) d :
  dict_get k d = Some v -> In (k, v) d.
Proof.
  induction d as [|[k0 v0] d IH]; cbn; [discriminate|].
  destruct (String.eqb k0 k) eqn:E.
  - apply String.eqb_eq in E. intros H. injection H as <-. left. congruence.
  - intros H. right. apply IH. exact H.
Qed.

Lemma dict_get_key {V : Type} (k : string) (v : V) d :
  dict_get k d = Some v -> In k (map fst d).
Proof.
  intros H. apply dict_get_In in H. apply (in_map fst) in H. exact H.
Qed.

Lemma key_of_inj p q :
  str_mem slash p = false -> str_mem slash q = false ->
  key_of p = key_of q -> p = q.
Proof.
  intros Hp Hq E. rewrite <- (native_of_key p Hp), <- (native_of_key q Hq).
  unfold key_of in E. rewrite E. reflexivity.
Qed.

Section BuildExact.
Context {rt : Runtime}.

Lemma build_loop_exact pcb ac total t :
  forall files i manifest paths w,
    tree (drive w) = t ->
    (forall p, In p files -> str_mem slash p = false) ->
    exists m' paths' ab w',
      build_loop pcb ac total files i manifest paths w
      = (Returned (m', paths', ab), w')
      /\ (forall rel h, In (rel, h) m' ->
            In (rel, h) manifest
            \/ exists p c, In p files /\ rel = key_of p
                           /\ dict_get p t = Some (RegularFile c)
                           /\ h = sha256 c)
      /\ (ab = false ->
          (forall p c, In p files -> dict_get p t = Some (RegularFile c) ->
                       dict_get (key_of p) m' = Some (sha256 c))
          /\ (forall rel h, dict_get rel manifest = Some h ->
                dict_get rel m' = Some h
                \/ exists p c, In p files /\ key_of p = rel
                               /\ dict_get p t = Some (RegularFile c))
          /\ paths' = paths ++ map key_of (filter (readable t) files)).
Proof.
  induction files as [|p later IH]; intros i manifest paths w Ht Hwin.
  - exists manifest, paths, false, w. split; [reflexivity|].
    split; [auto|]. intros _. split; [intros p c []|].
    split; [auto|]. cbn. rewrite app_nil_r. reflexivity.
  - cbn [build_loop].
    destruct (poll_abort_spec ac w) as (stop & w1 & Hpoll & Hev1).
    rewrite (bind_returned _ _ _ _ _ Hpoll).
    destruct stop.
    { exists manifest, paths, true, w1. split; [reflexivity|].
      split; [auto | discriminate]. }
    erewrite bind_returned by apply report_progress_spec.
    rewrite (bind_returned _ _ _ _ _ (open_drive_file_spec _ _)).
    assert (Ht1 : tree (drive w1) = t).
    { destruct Hev1 as (Hd & _). rewrite Hd. exact Ht. }
    cbn [drive set_trace]. rewrite Ht1.
    set (w3 := set_trace _ _).
    assert (Ht3 : tree (drive w3) = t) by exact Ht1.
    assert (Hlater : forall q, In q later -> str_mem slash q = false).
    { intros q Hq. apply Hwin. right. exact Hq. }
    assert (Hp : str_mem slash p = false) by (apply Hwin; left; reflexivity).
    assert (Hskip : readable t p = false ->
              exists m' paths' ab w',
                build_loop pcb ac total later (i + 1) manifest paths w3
                = (Returned (m', paths', ab), w')
                /\ (forall rel h, In (rel, h) m' ->
                      In (rel, h) manifest
                      \/ exists q c, In q (p :: later) /\ rel = key_of q
                                     /\ dict_get q t = Some (RegularFile c)
                                     /\ h = sha256 c)
                /\ (ab = false ->
                    (forall q c, In q (p :: later) ->
                                 dict_get q t = Some (RegularFile c) ->
                                 dict_get (key_of q) m' = Some (sha256 c))
                    /\ (forall rel h, dict_get rel manifest = Some h ->
                          dict_get rel m' = Some h
                          \/ exists q c, In q (p :: later) /\ key_of q = rel
                                         /\ dict_get q t
                                            = Some (RegularFile c))
                    /\ paths' = paths ++ map key_of
                                           (filter (readable t)
                                              (p :: later)))).
    { intros Hr.
      destruct (IH (i + 1) manifest paths w3 Ht3 Hlater)
        as (m' & paths' & ab & w' & Hloop & Hsound & Hrest).
      exists m', paths', ab, w'. split; [exact Hloop|]. split.
      - intros rel h Hin. destruct (Hsound rel h Hin)
          as [H|(q & c & Hq & H)]; [left; exact H|].
        right. exists q, c. split; [right; exact Hq | exact H].
      - intros Hab. destruct (Hrest Hab) as (Hcomp & Hpres & Hpaths).
        split; [|split].
        + intros q c [<-|Hq] Hc.
          * unfold readable in Hr. rewrite Hc in Hr. discriminate.
          * apply Hcomp; assumption.
        + intros rel h Hg. destruct (Hpres rel h Hg)
            as [H|(q & c & Hq & H)]; [left; exact H|].
          right. exists q, c. split; [right; exact Hq | exact H].
        + cbn [filter]. rewrite Hr. exact Hpaths. }
    destruct (dict_get p t) as [[content|err|]|] eqn:L;
      try rewrite hash_file_chunked_bytes; cbn [_hash_file_chunked];
      try (apply Hskip; unfold readable; rewrite L; reflexivity).
    fold (key_of p).
    destruct (IH (i + 1) (dict_set (key_of p) (sha256 content) manifest)
                (paths ++ [key_of p]) w3 Ht3 Hlater)
      as (m' & paths' & ab & w' & Hloop & Hsound & Hrest).
    exists m', paths', ab, w'. split; [exact Hloop|]. split.
    + intros rel h Hin. destruct (Hsound rel h Hin)
        as [H|(q & c & Hq & H)].
      * apply in_dict_set in H. destruct H as [[-> ->]|H]; [|left; exact H].
        right. exists p, content. split; [left; reflexivity|]. auto.
      * right. exists q, c. split; [right; exact Hq | exact H].
    + intros Hab. destruct (Hrest Hab) as (Hcomp & Hpres & Hpaths).
      assert (Hmine : dict_get (key_of p) m' = Some (sha256 content)).
      { destruct (Hpres (key_of p) (sha256 content)
                    (dict_get_set_same _ _ _))
          as [H|(q & c & Hq & Hk & Hc)]; [exact H|].
        assert (q = p) by (apply key_of_inj; auto). subst q.
        rewrite L in Hc. injection Hc as <-.
        apply Hcomp; assumption. }
      split; [|split].
      * intros q c [<-|Hq] Hc.
        -- rewrite L in Hc. injection Hc as <-. exact Hmine.
        -- apply Hcomp; assumption.
      * intros rel h Hg.
        destruct (String.eqb (key_of p) rel) eqn:E.
        -- apply String.eqb_eq in E. right. exists p, content.
           split; [left; reflexivity|]. auto.
        -- apply String.eqb_neq in E.
           destruct (Hpres rel h) as [H|(q & c & Hq & H)].
           ++ rewrite dict_get_set_other by congruence. exact Hg.
           ++ left. exact H.
           ++ right. exists q, c. split; [right; exact Hq | exact H].
      * cbn [filter]. unfold readable at 1. rewrite L.
        rewrite Hpaths. cbn [map]. rewrite <- app_assoc. reflexivity.
Qed.

(** Whatever [build_manifest] returns, aborted or not, holds only
    entries of readable files outside the Sentinel folder. *)
Lemma build_manifest_sound root pcb ac w m paths ab w' :
  windows_paths (tree (drive w)) ->
  build_manifest root pcb ac w = (Returned (m, paths, ab), w') ->
  forall rel h,
    In (rel, h) m ->
    exists p content,
      rel = key_of p
      /\ str_mem slash p = false
      /\ String.prefix SENTINEL_DIR p = false
      /\ dict_get p (tree (drive w)) = Some (RegularFile content)
      /\ h = sha256 content.
Proof.
  intros Hwin Hrun. unfold build_manifest in Hrun.
  set (t := tree (drive w)) in *.
  assert (Hfiles : forall p, In p (all_files t) -> str_mem slash p = false).
  { intros p Hp. unfold all_files in Hp. apply filter_In in Hp.
    destruct Hp as [Hp _]. unfold windows_paths in Hwin.
    rewrite Forall_forall in Hwin. apply Hwin. exact Hp. }
  destruct (build_loop_exact pcb ac (Z.of_nat (List.length (all_files t))) t
              (all_files t) 0 [] [] w eq_refl Hfiles)
    as (m' & paths' & ab' & w1 & Hloop & Hsound & _).
  rewrite Hloop in Hrun. injection Hrun as -> -> -> ->.
  intros rel h Hin. destruct (Hsound rel h Hin)
    as [[]|(p & c & Hp & -> & Hc & ->)].
  exists p, c. split; [reflexivity|]. split; [apply Hfiles; exact Hp|].
  split; [|auto].
  unfold all_files in Hp. apply filter_In in Hp. destruct Hp as [_ Hp].
  apply andb_prop in Hp. destruct Hp as [_ Hp].
  apply negb_true_iff in Hp. exact Hp.
Qed.

End BuildExact.

(** X6: a manifest that [build_manifest] completes on a drive with
    Windows paths lists exactly the files that can be read and whose path
    does not start with the text "Sentinel": each of them under the key
    of its path, with the digest of its content, and nothing else.
    Folders, files that cannot be read and every path that starts with
    "Sentinel" are left out.  [paths] holds the keys of the hashed files
    in the order of the walk. *)
Theorem X6_manifest_lists_the_readable_files (rt : Runtime)
  (drive_root : string) (progress_callback abort_check : bool)
  (w w' : World) (m : list (string * string)) (paths : list string) :
  windows_paths (tree (drive w)) ->
  build_manifest drive_root progress_callback abort_check w
  = (Returned (m, paths, false), w') ->
  (forall p content,
     dict_get p (tree (drive w)) = Some (RegularFile content) ->
     String.prefix SENTINEL_DIR p = false ->
     dict_get (key_of p) m = Some (sha256 content))
  /\ (forall rel h,
        In (rel, h) m ->
        exists p content,
          rel = key_of p
          /\ String.prefix SENTINEL_DIR p = false
          /\ dict_get p (tree (drive w)) = Some (RegularFile content)
          /\ h = sha256 content)
  /\ paths = map key_of (filter (readable (tree (drive w)))
                           (all_files (tree (drive w)))).
Proof.
  intros Hwin Hrun. unfold build_manifest in Hrun.
  set (t := tree (drive w)) in *.
  assert (Hfiles : forall p, In p (all_files t) -> str_mem slash p = false).
  { intros p Hp. unfold all_files in Hp. apply filter_In in Hp.
    destruct Hp as [Hp _]. unfold windows_paths in Hwin.
    rewrite Forall_forall in Hwin. apply Hwin. exact Hp. }
  destruct (build_loop_exact progress_callback abort_check
              (Z.of_nat (List.length (all_files t))) t (all_files t) 0 [] []
              w eq_refl Hfiles)
    as (m' & paths' & ab & w1 & Hloop & Hsound & Hrest).
  rewrite Hloop in Hrun. injection Hrun as -> -> -> ->.
  destruct (Hrest eq_refl) as (Hcomp & _ & Hpaths).
  split; [|split].
  - intros p content Hc Hpre. apply Hcomp; [|exact Hc].
    unfold all_files. apply filter_In. split.
    + eapply dict_get_key. exact Hc.
    + unfold is_file. fold t. rewrite Hc, Hpre. reflexivity.
  - intros rel h Hin. destruct (Hsound rel h Hin)
      as [[]|(p & c & Hp & -> & Hc & ->)].
    exists p, c. split; [reflexivity|]. split; [|auto].
    unfold all_files in Hp. apply filter_In in Hp. destruct Hp as [_ Hp].
    apply andb_prop in Hp. destruct Hp as [_ Hp].
    apply negb_true_iff in Hp. exact Hp.
  - exact Hpaths.
Qed.

Lemma X6_manifest_lists_the_readable_files_witness :
  windows_paths (tree (drive w_card))
  /\ build_manifest (rt := sim_runtime) "G:\" true true w_card
     = (Returned (card_manifest, card_paths, false), card_build_world)
  /\ (forall p content,
        dict_get p (tree (drive w_card)) = Some (RegularFile content) ->
        String.prefix SENTINEL_DIR p = false ->
        dict_get (key_of p) card_manifest
        = Some (@sha256 sim_runtime content))
  /\ (forall rel h,
        In (rel, h) card_manifest ->
        exists p content,
          rel = key_of p
          /\ String.prefix SENTINEL_DIR p = false
          /\ dict_get p (tree (drive w_card)) = Some (RegularFile content)
          /\ h = @sha256 sim_runtime content)
  /\ card_paths = map key_of (filter (readable (tree (drive w_card)))
                                (all_files (tree (drive w_card)))).
Proof.
  assert (Hwin : windows_paths (tree (drive w_card))).
  { unfold windows_paths. repeat constructor. }
  assert (Hrun : build_manifest (rt := sim_runtime) "G:\" true true w_card
                 = (Returned (card_manifest, card_paths, false),
                    card_build_world)).
  { vm_compute. reflexivity. }
  split; [exact Hwin|]. split; [exact Hrun|].
  exact (X6_manifest_lists_the_readable_files sim_runtime _ _ _ _ _ _ _
           Hwin Hrun).
Defined.

Lemma Forall2_In_l {A B : Type} (R : A -> B -> Prop) l l' a :
  Forall2 R l l' -> In a l -> exists b, In b l' /\ R a b.
Proof.
  induction 1 as [|x y l l' Hxy _ IH]; intros Hin; [destruct Hin|].
  destruct Hin as [<-|Hin].
  - exists y. split; [left; reflexivity | exact Hxy].
  - destruct (IH Hin) as (b & Hb & Hr). exists b. split; [right|]; assumption.
Qed.

(** X7: a verification that is not aborted passes exactly when the
    manifest is faithful to the drive: every entry names a file that is
    there, can be read, and whose content has the recorded digest.  One
    changed, missing or unreadable file makes it fail. *)
Theorem X7_verification_passes_iff_faithful (rt : Runtime)
  (drive_root : string) (manifest : list (string * string))
  (progress_callback abort_check : bool) (w w' : World) (passed_ : bool)
  (mismatches : list string) (vd : list ManifestRecord) :
  verify_manifest drive_root manifest progress_callback abort_check w
  = (Returned (passed_, mismatches, vd, false), w') ->
  (passed_ = true <-> faithful (tree (drive w)) manifest)
  /\ List.length vd = List.length manifest.
Proof.
  intros Hrun. unfold verify_manifest in Hrun.
  destruct (verify_loop_spec progress_callback abort_check
              (Z.max (Z.of_nat (List.length manifest)) 1) manifest 0 [] [] w)
    as (new & ab & w1 & ev & Hloop & _ & _ & k & Hk & Hout).
  rewrite Hloop in Hrun. cbn [app] in Hrun.
  injection Hrun as <- <- <- -> <-.
  rewrite (Hk eq_refl), firstn_all in Hout.
  split; [|symmetry; eapply Forall2_length; exact Hout].
  split.
  - intros Hpass rel h Hin.
    apply is_empty_nil in Hpass. apply no_mismatch_iff in Hpass.
    destruct (Forall2_In_l _ _ _ _ Hout Hin) as (v & Hv & Hr).
    rewrite Forall_forall in Hpass. specialize (Hpass v Hv).
    cbn [fst snd] in Hr.
    destruct Hr as [c L E|c L E|L|n L N]; cbn in Hpass; try discriminate.
    exists c. auto.
  - intros Hf. apply is_empty_nil.
    rewrite <- (firstn_all manifest) in Hout.
    destruct (faithful_outcomes _ _ Hf _ _ Hout) as [H _]. exact H.
Qed.

Lemma X7_verification_passes_iff_faithful_witness :
  verify_manifest (rt := sim_runtime) "G:\" old_manifest false false w_card
  = (Returned
       (false,
        ["notes.txt"; "gone.txt (missing)"; "locked.bin (read error)"],
        old_manifest_records, false),
     old_manifest_world)
  /\ (false = true
      <-> faithful (rt := sim_runtime) (tree (drive w_card)) old_manifest)
  /\ List.length old_manifest_records = List.length old_manifest.
Proof.
  assert (Hrun : verify_manifest (rt := sim_runtime) "G:\" old_manifest
                   false false w_card
                 = (Returned
                      (false,
                       ["notes.txt"; "gone.txt (missing)";
                        "locked.bin (read error)"],
                       old_manifest_records, false),
                    old_manifest_world)).
  { vm_compute. reflexivity. }
  split; [exact Hrun|].
  exact (X7_verification_passes_iff_faithful sim_runtime _ _ _ _ _ _ _ _ _
           Hrun).
Defined.

(** ** The sweep, branch by branch *)

Lemma mismatch_exists vd :
  flat_map mismatch_of vd <> [] ->
  exists v, In v vd /\ mr_match v = false.
Proof.
  induction vd as [|v vd IH]; cbn [flat_map]; [congruence|].
  intros H. destruct (mr_match v) eqn:E.
  - unfold mismatch_of in H. rewrite E in H. cbn [app] in H.
    destruct (IH H) as (v' & Hin & Hv'). exists v'. split; [right|]; assumption.
  - exists v. split; [left; reflexivity | exact E].
Qed.

Lemma run_post_passed (rt : Runtime) msg size r ev :
  run_post msg size r ev -> passed r = true -> aborted r = false ->
  1024 <= size
  /\ Forall clean (verification_details r)
  /\ indexed (plan_batches MAX_FILE_BYTES size) (verification_details r)
  /\ List.length (verification_details r)
     = List.length (plan_batches MAX_FILE_BYTES size).
Proof.
  intros Hpost Hpass Hab.
  destruct Hpost as [Hp _ _ _ _|Hfloor Hfail|pct Hfloor _ _ _ _ _ Ha
                    |Hfloor Hclean Hidx Hlen _ _].
  - congruence.
  - destruct Hfail as (Hp & _). congruence.
  - unfold aborted in Hab. rewrite Ha in Hab. discriminate.
  - auto.
Qed.

Section SweepAnatomy.
Context {rt : Runtime}.

(** Verifying a manifest only reports progress and hashes files. *)
Lemma verify_loop_quiet pcb ac total :
  forall entries i mismatches vd w,
    exists res w' ev,
      verify_loop pcb ac total entries i mismatches vd w = (Returned res, w')
      /\ trace w' = trace w ++ ev
      /\ Forall (fun e => touches_device e = false) ev.
Proof.
  induction entries as [|[rel expected] later IH];
    intros i mismatches vd w.
  - eexists _, w, []. split; [reflexivity|].
    split; [rewrite app_nil_r; reflexivity | constructor].
  - cbn [verify_loop].
    destruct (poll_abort_spec ac w) as (stop & w1 & Hpoll & Hev1).
    rewrite (bind_returned _ _ _ _ _ Hpoll).
    destruct Hev1 as (_ & _ & _ & Ht1). rewrite app_nil_r in Ht1.
    destruct stop.
    { eexists _, w1, []. split; [reflexivity|].
      split; [rewrite app_nil_r; exact Ht1 | constructor]. }
    assert (Hgo : forall mismatches' vd' w3 evs,
               trace w3 = trace w ++ evs ->
               Forall (fun e => touches_device e = false) evs ->
               exists res w' ev,
                 verify_loop pcb ac total later (i + 1) mismatches' vd' w3
                 = (Returned res, w')
                 /\ trace w' = trace w ++ ev
                 /\ Forall (fun e => touches_device e = false) ev).
    { intros mismatches' vd' w3 evs Ht3 Hq3.
      destruct (IH (i + 1) mismatches' vd' w3)
        as (res & w' & ev & Hloop & Ht & Hq).
      exists res, w', (evs ++ ev). split; [exact Hloop|]. split.
      - rewrite Ht, Ht3, app_assoc. reflexivity.
      - apply Forall_app. split; assumption. }
    erewrite bind_returned by apply report_progress_spec.
    unfold path_exists at 1. erewrite bind_returned by reflexivity.
    assert (Hprog : Forall (fun e => touches_device e = false)
                      (progress_events pcb i total)).
    { destruct pcb; repeat constructor. }
    destruct (dict_get _ _) as [node|]; cbn [negb].
    + rewrite (bind_returned _ _ _ _ _ (open_drive_file_spec _ _)).
      assert (Hq : Forall (fun e => touches_device e = false)
                     (progress_events pcb i total
                      ++ [EvHash (str_replace slash os_sep rel)])).
      { apply Forall_app. split; [exact Hprog | repeat constructor]. }
      destruct (_hash_file_chunked _ _) as [e|h];
        (eapply Hgo; [|exact Hq]); cbn; rewrite Ht1, <- app_assoc;
        reflexivity.
    + eapply Hgo; [|exact Hprog]. cbn. rewrite Ht1. reflexivity.
Qed.

Lemma report_phase_quiet mcb phase w :
  exists ev, report_phase mcb phase w
             = (Returned tt, set_trace (trace w ++ ev) w)
             /\ Forall (fun e => touches_device e = false) ev.
Proof.
  unfold report_phase. destruct mcb.
  - exists [EvPhase phase]. split; [reflexivity | repeat constructor].
  - exists []. split; [|constructor]. unfold ret. rewrite app_nil_r.
    destruct w; reflexivity.
Qed.

(** Writing the marker changes no path outside the Sentinel folder. *)
Lemma write_marker_outside root w o w' :
  write_last_sweep_timestamp root w = (o, w') ->
  forall p, String.prefix SENTINEL_DIR p = false ->
            dict_get p (tree (drive w')) = dict_get p (tree (drive w)).
Proof.
  unfold write_last_sweep_timestamp.
  destruct (datetime_now_spec w) as (t & w1 & Hnow & Hev & _).
  rewrite (bind_returned _ _ _ _ _ Hnow).
  destruct Hev as (Hd & _). intros H. injection H as _ <-.
  intros p Hp. cbn [drive set_trace set_drive tree set_tree]. rewrite Hd.
  assert (Hm : p <> marker_path root).
  { intros ->. discriminate Hp. }
  assert (Hs : p <> _sentinel_path root).
  { intros ->. discriminate Hp. }
  rewrite dict_get_set_other by exact Hm.
  destruct (dict_get (_sentinel_path root) (tree (drive w)));
    [reflexivity|].
  rewrite dict_get_set_other by exact Hs. reflexivity.
Qed.

Lemma free_space_phase_outside root pcb mcb ac parts mp mvd w o w' :
  free_space_phase root pcb mcb ac parts mp mvd w = (o, w') ->
  forall p, String.prefix SENTINEL_DIR p = false ->
            dict_get p (tree (drive w')) = dict_get p (tree (drive w)).
Proof.
  unfold free_space_phase.
  destruct (report_phase_spec mcb "free_space" w) as (ev1 & Hph & _).
  rewrite (bind_returned _ _ _ _ _ Hph).
  set (w1 := set_trace (trace w ++ ev1) w).
  destruct (free_space_sweep_run root pcb ac w1)
    as (o1 & w2 & ev2 & Hfs & Hev2 & _ & _).
  destruct Hev2 as (Hd2 & _). change (drive w1) with (drive w) in Hd2.
  destruct o1 as [fs|e].
  2:{ rewrite (bind_raised _ _ _ _ _ Hfs). intros H. injection H as _ <-.
      intros p _. rewrite Hd2. reflexivity. }
  rewrite (bind_returned _ _ _ _ _ Hfs).
  destruct (aborted fs).
  - intros H. injection H as _ <-. intros p _. rewrite Hd2. reflexivity.
  - destruct (passed fs); cbn [negb].
    + destruct (write_last_sweep_timestamp root w2) as [[[]|e] w3] eqn:Hwr.
      * rewrite (bind_returned _ _ _ _ _ Hwr).
        intros H. injection H as _ <-. intros p Hp.
        rewrite (write_marker_outside _ _ _ _ Hwr p Hp), Hd2. reflexivity.
      * rewrite (bind_raised _ _ _ _ _ Hwr).
        intros H. injection H as _ <-. intros p Hp.
        rewrite (write_marker_outside _ _ _ _ Hwr p Hp), Hd2. reflexivity.
    + intros H. injection H as _ <-. intros p _. rewrite Hd2. reflexivity.
Qed.

(** The free-space phase: what it puts in the result of the sweep. *)
Lemma free_space_phase_anatomy root pcb mcb ac parts mp mvd w o w' :
  free_space_phase root pcb mcb ac parts mp mvd w = (o, w') ->
  forall r, o = Returned r ->
    sw_manifest_passed r = mp /\ sw_vd_manifest r = mvd
    /\ (sw_aborted r = true ->
        sw_passed r = true /\ sw_message r = "Full sweep aborted")
    /\ (sw_passed r = true -> sw_aborted r = false ->
        sw_free_space_passed r = true
        /\ Forall clean (sw_vd_free_space r)
        /\ List.length (sw_vd_free_space r)
           = List.length (plan_batches MAX_FILE_BYTES (usable_of w))).
Proof.
  unfold free_space_phase.
  destruct (report_phase_spec mcb "free_space" w) as (ev1 & Hph & _).
  rewrite (bind_returned _ _ _ _ _ Hph).
  set (w1 := set_trace (trace w ++ ev1) w).
  destruct (free_space_sweep_run root pcb ac w1)
    as (o1 & w2 & ev2 & Hfs & _ & _ & Hpost).
  change (usable_of w1) with (usable_of w) in Hpost.
  destruct o1 as [fs|e].
  2:{ rewrite (bind_raised _ _ _ _ _ Hfs). intros H r Hr. congruence. }
  rewrite (bind_returned _ _ _ _ _ Hfs).
  destruct (aborted fs) eqn:Hab.
  - intros H r Hr. injection H as <- _. injection Hr as <-. cbn.
    split; [reflexivity|]. split; [reflexivity|]. split; [auto|].
    intros _ Hf. discriminate.
  - destruct (passed fs) eqn:Hp; cbn [negb].
    + destruct (write_last_sweep_timestamp_spec root w2) as (w3 & Hwr & _).
      rewrite (bind_returned _ _ _ _ _ Hwr).
      intros H r Hr. injection H as <- _. injection Hr as <-. cbn.
      split; [reflexivity|]. split; [reflexivity|].
      split; [discriminate|]. intros _ _.
      destruct (run_post_passed rt _ _ _ _ Hpost Hp Hab)
        as (_ & Hclean & _ & Hlen).
      auto.
    + intros H r Hr. injection H as <- _. injection Hr as <-. cbn.
      split; [reflexivity|]. split; [reflexivity|].
      split; discriminate.
Qed.

(** What a sweep returns and leaves, whichever branch it takes. *)
Lemma full_sweep_anatomy root pcb mcb ac w o w' :
  full_sweep root pcb mcb ac w = (o, w') ->
  ((forall entries,
      dict_get (_manifest_path root) (manifests (host w))
      = Some (JsonObject entries) -> host w' = host w)
   /\ (host w' = host w
       \/ (load_manifest root w = (Returned None, w)
           /\ exists m paths w0 wb,
                tree (drive w0) = tree (drive w)
                /\ build_manifest root pcb ac w0
                   = (Returned (m, paths, false), wb)
                /\ host w'
                   = set_manifests
                       (dict_set (_manifest_path root) (JsonObject m)
                          (manifests (host w)))
                       (host w))))
  /\ (forall p, String.prefix SENTINEL_DIR p = false ->
                dict_get p (tree (drive w')) = dict_get p (tree (drive w)))
  /\ forall r, o = Returned r ->
       (forall manifest,
          dict_get (_manifest_path root) (manifests (host w))
          = Some (JsonObject manifest) ->
          faithful (tree (drive w)) manifest ->
          sw_manifest_passed r = true
          /\ Forall (fun v => mr_match v = true) (sw_vd_manifest r))
       /\
       (sw_aborted r = true ->
        sw_passed r = true /\ sw_message r = "Full sweep aborted")
       /\ (sw_manifest_passed r = false ->
           sw_vd_free_space r = []
           /\ Forall (fun e => touches_device e = false) (new_events w w')
           /\ drive w' = drive w /\ host w' = host w
           /\ (exists v, In v (sw_vd_manifest r) /\ mr_match v = false)
           /\ (sw_aborted r = false -> sw_passed r = false))
       /\ (sw_passed r = true -> sw_aborted r = false ->
           sw_manifest_passed r = true /\ sw_free_space_passed r = true
           /\ Forall (fun v => mr_match v = true) (sw_vd_manifest r)
           /\ (forall manifest,
                 dict_get (_manifest_path root) (manifests (host w))
                 = Some (JsonObject manifest) ->
                 faithful (tree (drive w)) manifest
                 /\ List.length (sw_vd_manifest r) = List.length manifest)
           /\ Forall clean (sw_vd_free_space r)
           /\ List.length (sw_vd_free_space r)
              = List.length (plan_batches MAX_FILE_BYTES (usable_of w))).
Proof.
  unfold full_sweep.
  assert (Hload : exists lo, load_manifest root w = (lo, w)
            /\ (forall entries,
                  dict_get (_manifest_path root) (manifests (host w))
                  = Some (JsonObject entries) ->
                  lo = Returned (Some (LoadedDict entries)))).
  { unfold load_manifest.
    destruct (dict_get _ _) as [[| | | | |]|]; eexists; split;
      try reflexivity; intros entries' H; congruence. }
  destruct Hload as (lo & Hload & Hobj).
  destruct lo as [[[manifest|]|]|e].
  - (* a manifest was loaded: verify *)
    rewrite (bind_returned _ _ _ _ _ Hload).
    destruct (report_phase_quiet mcb "verify_manifest" w)
      as (ev1 & Hph & Hq1).
    rewrite (bind_returned _ _ _ _ _ Hph).
    set (w1 := set_trace (trace w ++ ev1) w).
    unfold verify_manifest.
    destruct (verify_loop_spec pcb ac
                (Z.max (Z.of_nat (List.length manifest)) 1) manifest 0
                [] [] w1)
      as (new & ab & w2 & ev2 & Hloop & Hev2 & _ & k & Hk & Hout).
    destruct (verify_loop_quiet pcb ac
                (Z.max (Z.of_nat (List.length manifest)) 1) manifest 0
                [] [] w1)
      as (res & w2' & ev2' & Hloop' & Ht2 & Hq2).
    rewrite Hloop in Hloop'. injection Hloop' as <- <-.
    rewrite (bind_returned _ _ _ _ _ Hloop). cbn [app].
    destruct Hev2 as (Hd2 & Hh2 & _ & _).
    change (drive w1) with (drive w) in Hd2.
    change (host w1) with (host w) in Hh2.
    change (tree (drive w1)) with (tree (drive w)) in Hout.
    assert (Hev : new_events w w2 = ev1 ++ ev2').
    { apply new_events_app. rewrite Ht2. cbn. rewrite <- app_assoc.
      reflexivity. }
    assert (Hquiet : Forall (fun e => touches_device e = false)
                       (new_events w w2)).
    { rewrite Hev. apply Forall_app. split; assumption. }
    assert (Hbad : is_empty (flat_map mismatch_of new) = false ->
                   exists v, In v new /\ mr_match v = false).
    { intros H. apply mismatch_exists. intros Hnil.
      rewrite Hnil in H. discriminate. }
    assert (Hfaith : forall manifest',
               dict_get (_manifest_path root) (manifests (host w))
               = Some (JsonObject manifest') ->
               faithful (tree (drive w)) manifest' ->
               is_empty (flat_map mismatch_of new) = true
               /\ Forall (fun v => mr_match v = true) new).
    { intros manifest' Hm Hf. specialize (Hobj _ Hm). injection Hobj as <-.
      destruct (faithful_outcomes _ _ Hf _ _ Hout) as [Hnil _].
      split; [apply is_empty_nil; exact Hnil|].
      apply no_mismatch_iff. exact Hnil. }
    destruct ab.
    + intros H. injection H as <- <-. split; [split; [auto | left; auto]|].
      split; [intros p _; rewrite Hd2; reflexivity|].
      intros r Hr. injection Hr as <-. cbn.
      split; [exact Hfaith|].
      split; [auto|]. split; [|discriminate].
      intros Hmp. repeat split; auto.
    + destruct (is_empty (flat_map mismatch_of new)) eqn:Hpass;
        cbn [negb].
      * intros Hrun.
        pose proof (free_space_phase_host rt _ _ _ _ _ _ _ _ _ _ Hrun)
          as Hh3.
        split; [split; [intros; congruence | left; congruence]|].
        split.
        { intros p Hp.
          rewrite (free_space_phase_outside _ _ _ _ _ _ _ _ _ _ Hrun p Hp).
          rewrite Hd2. reflexivity. }
        intros r Hr.
        destruct (free_space_phase_anatomy _ _ _ _ _ _ _ _ _ _ Hrun r Hr)
          as (Hmp & Hvd & Habort & Hpassed).
        apply is_empty_nil in Hpass.
        pose proof (proj1 (no_mismatch_iff new) Hpass) as Hall.
        split; [intros manifest' _ _; rewrite Hvd; auto|].
        split; [exact Habort|]. split; [intros Hf; congruence|].
        intros Hp Ha. destruct (Hpassed Hp Ha) as (Hfs & Hclean & Hlen).
        split; [exact Hmp|]. split; [exact Hfs|].
        rewrite Hvd. split; [exact Hall|]. split.
        { intros manifest' Hm. specialize (Hobj _ Hm).
          injection Hobj as <-. rewrite (Hk eq_refl), firstn_all in Hout.
          split; [|symmetry; eapply Forall2_length; exact Hout].
          intros rel h Hin.
          destruct (Forall2_In_l _ _ _ _ Hout Hin) as (v & Hv & Hr').
          rewrite Forall_forall in Hall. specialize (Hall v Hv).
          cbn [fst snd] in Hr'.
          destruct Hr' as [c L E|c L E|L|n L N]; cbn in Hall;
            try discriminate.
          exists c. auto. }
        change (usable_of w2) with
          (Z.max 0 (disk_free (drive w2) - SAFETY_MARGIN_BYTES)) in Hlen.
        rewrite Hd2 in Hlen. auto.
      * intros H. injection H as <- <-.
        split; [split; [auto | left; auto]|].
        split; [intros p _; rewrite Hd2; reflexivity|].
        intros r Hr. injection Hr as <-. cbn.
        split.
        { intros manifest' Hm Hf. destruct (Hfaith _ Hm Hf) as [Hp _].
          discriminate. }
        split; [discriminate|]. split; [|discriminate].
        intros _. repeat split; auto.
  - (* the file holds something that is not an object *)
    rewrite (bind_returned _ _ _ _ _ Hload).
    destruct (report_phase_spec mcb "verify_manifest" w)
      as (ev1 & Hph & _).
    rewrite (bind_returned _ _ _ _ _ Hph).
    intros H. injection H as <- <-.
    split; [split; [auto | left; auto]|].
    split; [intros p _; reflexivity|]. intros r Hr. discriminate.
  - (* no manifest: build *)
    rewrite (bind_returned _ _ _ _ _ Hload).
    destruct (report_phase_spec mcb "build_manifest" w)
      as (ev1 & Hph & _).
    rewrite (bind_returned _ _ _ _ _ Hph).
    set (w1 := set_trace (trace w ++ ev1) w).
    destruct (build_manifest_spec root pcb ac w1)
      as (m & paths & ab & w2 & ev2 & Hbuild & Hev2 & _ & _).
    rewrite (bind_returned _ _ _ _ _ Hbuild).
    destruct Hev2 as (Hd2 & Hh2 & _ & _).
    change (drive w1) with (drive w) in Hd2.
    change (host w1) with (host w) in Hh2.
    assert (Hnone : forall entries,
               dict_get (_manifest_path root) (manifests (host w))
               <> Some (JsonObject entries)).
    { intros entries Hm. specialize (Hobj _ Hm). discriminate. }
    destruct ab.
    + intros H. injection H as <- <-.
      split; [split; [auto | left; auto]|].
      split; [intros p _; rewrite Hd2; reflexivity|].
      intros r Hr. injection Hr as <-. cbn.
      split; [intros manifest' Hm; destruct (Hnone _ Hm)|].
      split; [auto|]. split; discriminate.
    + destruct (save_manifest_spec root m w2)
        as (w3 & Hsave & _ & Hd3 & _).
      rewrite (bind_returned _ _ _ _ _ Hsave).
      assert (Hh3 : host w3
                    = set_manifests
                        (dict_set (_manifest_path root) (JsonObject m)
                           (manifests (host w)))
                        (host w)).
      { unfold save_manifest in Hsave. injection Hsave as <-.
        cbn. rewrite Hh2. reflexivity. }
      intros Hrun.
      pose proof (free_space_phase_host rt _ _ _ _ _ _ _ _ _ _ Hrun) as Hh4.
      split.
      { split; [intros entries Hm; destruct (Hnone _ Hm)|].
        right. split; [exact Hload|]. exists m, paths, w1, w2.
        split; [reflexivity|]. split; [exact Hbuild | congruence]. }
      split.
      { intros p Hp.
        rewrite (free_space_phase_outside _ _ _ _ _ _ _ _ _ _ Hrun p Hp).
        rewrite Hd3, Hd2. reflexivity. }
      intros r Hr.
      destruct (free_space_phase_anatomy _ _ _ _ _ _ _ _ _ _ Hrun r Hr)
        as (Hmp & Hvd & Habort & Hpassed).
      split; [intros manifest' Hm; destruct (Hnone _ Hm)|].
      split; [exact Habort|]. split; [intros Hf; congruence|].
      intros Hp Ha. destruct (Hpassed Hp Ha) as (Hfs & Hclean & Hlen).
      split; [exact Hmp|]. split; [exact Hfs|].
      rewrite Hvd. split; [constructor|]. split.
      { intros manifest' Hm. destruct (Hnone _ Hm). }
      change (usable_of w3) with
        (Z.max 0 (disk_free (drive w3) - SAFETY_MARGIN_BYTES)) in Hlen.
      rewrite Hd3, Hd2 in Hlen. auto.
  - (* the file is not valid UTF-8 *)
    rewrite (bind_raised _ _ _ _ _ Hload).
    intros H. injection H as <- <-.
    split; [split; [auto | left; auto]|].
    split; [intros p _; reflexivity|]. intros r Hr. discriminate.
Qed.

End SweepAnatomy.

(** ** The sweep, seen by its user *)

(** X8: a sweep leaves the host as it found it, except that for a drive
    without a loadable manifest it stores the manifest it built.  A
    manifest that is already stored is never rewritten: not after a
    mismatch, and not after a sweep that passed. *)
Theorem X8_stored_manifest_never_rewritten (rt : Runtime)
  (drive_root : string)
  (progress_callback manifest_callback abort_check : bool)
  (w w' : World) (o : Outcome SweepResult) :
  full_sweep drive_root progress_callback manifest_callback abort_check w
  = (o, w') ->
  (forall entries,
     dict_get (_manifest_path drive_root) (manifests (host w))
     = Some (JsonObject entries) -> host w' = host w)
  /\ (host w' = host w
      \/ (load_manifest drive_root w = (Returned None, w)
          /\ exists m,
               host w'
               = set_manifests
                   (dict_set (_manifest_path drive_root) (JsonObject m)
                      (manifests (host w)))
                   (host w))).
Proof.
  intros Hrun.
  destruct (full_sweep_anatomy _ _ _ _ _ _ _ Hrun) as ((Hkeep & Hnew) & _).
  split; [exact Hkeep|].
  destruct Hnew as [Hsame|(Hload & m & _ & _ & _ & _ & _ & Hh)];
    [left; exact Hsame|].
  right. split; [exact Hload|]. exists m. exact Hh.
Qed.

Lemma X8_stored_manifest_never_rewritten_witness :
  full_sweep (rt := sim_runtime) "G:\" true true true w_rotten_unattended
  = (Returned unattended_sweep_result, unattended_sweep_world)
  /\ dict_get (_manifest_path "G:\") (manifests (host w_rotten_unattended))
     = Some (JsonObject card_manifest)
  /\ host unattended_sweep_world = host w_rotten_unattended.
Proof.
  assert (Hrun : full_sweep (rt := sim_runtime) "G:\" true true true
                   w_rotten_unattended
                 = (Returned unattended_sweep_result,
                    unattended_sweep_world)).
  { vm_compute. reflexivity. }
  assert (Hm : dict_get (_manifest_path "G:\")
                 (manifests (host w_rotten_unattended))
               = Some (JsonObject card_manifest)).
  { vm_compute. reflexivity. }
  split; [exact Hrun|]. split; [exact Hm|].
  exact (proj1 (X8_stored_manifest_never_rewritten sim_runtime _ _ _ _ _ _ _
                  Hrun) _ Hm).
Defined.

(** X9: when the verification of the manifest did not pass, the sweep
    stops there: the free-space phase is not run, so nothing is written
    to the drive and no record of a batch exists; the drive and the host
    are left as they were; some record of a file does not match; and
    unless the sweep was aborted its result is a failure. *)
Theorem X9_failed_verification_stops_the_sweep (rt : Runtime)
  (drive_root : string)
  (progress_callback manifest_callback abort_check : bool)
  (w w' : World) (r : SweepResult) :
  full_sweep drive_root progress_callback manifest_callback abort_check w
  = (Returned r, w') ->
  sw_manifest_passed r = false ->
  sw_vd_free_space r = []
  /\ Forall (fun e => touches_device e = false) (new_events w w')
  /\ drive w' = drive w /\ host w' = host w
  /\ (exists v, In v (sw_vd_manifest r) /\ mr_match v = false)
  /\ (sw_aborted r = false -> sw_passed r = false).
Proof.
  intros Hrun Hmp.
  destruct (full_sweep_anatomy _ _ _ _ _ _ _ Hrun) as (_ & _ & Hr).
  destruct (Hr r eq_refl) as (_ & _ & Hfail & _). exact (Hfail Hmp).
Qed.

Lemma X9_failed_verification_stops_the_sweep_witness :
  full_sweep (rt := sim_runtime) "G:\" true true true w_rotten_unattended
  = (Returned unattended_sweep_result, unattended_sweep_world)
  /\ sw_manifest_passed unattended_sweep_result = false
  /\ sw_vd_free_space unattended_sweep_result = []
  /\ Forall (fun e => touches_device e = false)
       (new_events w_rotten_unattended unattended_sweep_world)
  /\ drive unattended_sweep_world = drive w_rotten_unattended
  /\ host unattended_sweep_world = host w_rotten_unattended
  /\ (exists v, In v (sw_vd_manifest unattended_sweep_result)
                /\ mr_match v = false)
  /\ (sw_aborted unattended_sweep_result = false ->
      sw_passed unattended_sweep_result = false).
Proof.
  assert (Hrun : full_sweep (rt := sim_runtime) "G:\" true true true
                   w_rotten_unattended
                 = (Returned unattended_sweep_result,
                    unattended_sweep_world)).
  { vm_compute. reflexivity. }
  split; [exact Hrun|]. split; [reflexivity|].
  exact (X9_failed_verification_stops_the_sweep sim_runtime _ _ _ _ _ _ _
           Hrun eq_refl).
Defined.



(** X11: a sweep that says passed and is not aborted verified both
    phases: every record of a file matches, a manifest that was stored
    for the drive is faithful to the drive as the sweep found it, with
    one record for each of its entries, and the free-space phase left
    one record for each batch planned over the usable free space, each
    with both reads equal to the expected hash. *)
Theorem X11_sweep_pass_means_both_phases_verified (rt : Runtime)
  (drive_root : string)
  (progress_callback manifest_callback abort_check : bool)
  (w w' : World) (r : SweepResult) :
  full_sweep drive_root progress_callback manifest_callback abort_check w
  = (Returned r, w') ->
  sw_passed r = true -> sw_aborted r = false ->
  sw_manifest_passed r = true /\ sw_free_space_passed r = true
  /\ Forall (fun v => mr_match v = true) (sw_vd_manifest r)
  /\ (forall manifest,
        dict_get (_manifest_path drive_root) (manifests (host w))
        = Some (JsonObject manifest) ->
        faithful (tree (drive w)) manifest
        /\ List.length (sw_vd_manifest r) = List.length manifest)
  /\ Forall clean (sw_vd_free_space r)
  /\ List.length (sw_vd_free_space r)
     = List.length (plan_batches MAX_FILE_BYTES (usable_of w)).
Proof.
  intros Hrun Hp Ha.
  destruct (full_sweep_anatomy _ _ _ _ _ _ _ Hrun) as (_ & _ & Hr).
  destruct (Hr r eq_refl) as (_ & _ & _ & Hpass). exact (Hpass Hp Ha).
Qed.

Lemma X11_sweep_pass_means_both_phases_verified_witness :
  full_sweep (rt := sim_runtime) "G:\" false true false w_card
  = (Returned card_sweep_result, card_sweep_world)
  /\ sw_passed card_sweep_result = true
  /\ sw_aborted card_sweep_result = false
  /\ sw_manifest_passed card_sweep_result = true
  /\ sw_free_space_passed card_sweep_result = true
  /\ Forall (fun v => mr_match v = true) (sw_vd_manifest card_sweep_result)
  /\ (forall manifest,
        dict_get (_manifest_path "G:\") (manifests (host w_card))
        = Some (JsonObject manifest) ->
        faithful (rt := sim_runtime) (tree (drive w_card)) manifest
        /\ List.length (sw_vd_manifest card_sweep_result)
           = List.length manifest)
  /\ Forall (clean) (sw_vd_free_space card_sweep_result)
  /\ List.length (sw_vd_free_space card_sweep_result)
     = List.length (plan_batches MAX_FILE_BYTES (usable_of w_card)).
Proof.
  assert (Hrun : full_sweep (rt := sim_runtime) "G:\" false true false w_card
                 = (Returned card_sweep_result, card_sweep_world)).
  { vm_compute. reflexivity. }
  split; [exact Hrun|]. split; [reflexivity|]. split; [reflexivity|].
  exact (X11_sweep_pass_means_both_phases_verified sim_runtime _ _ _ _ _ _ _
           Hrun eq_refl eq_refl).
Defined.

(** ** Names of manifests and drive roots *)

Lemma append_assoc_ (a b c : string) : (a +++ b) +++ c = a +++ (b +++ c).
Proof.
  induction a as [|x a IH]; cbn; [reflexivity|]. rewrite IH. reflexivity.
Qed.

Lemma str_replace_app c r a b :
  str_replace c r (a +++ b) = str_replace c r a +++ str_replace c r b.
Proof.
  induction a as [|x a IH]; cbn [append str_replace]; [reflexivity|].
  rewrite IH. destruct (Ascii.eqb x c).
  - rewrite append_assoc_. reflexivity.
  - reflexivity.
Qed.

Lemma str_replace_drop c b :
  str_replace c EmptyString (String c b) = str_replace c EmptyString b.
Proof. cbn [str_replace]. rewrite Ascii.eqb_refl. reflexivity. Qed.

Lemma upper_ascii_idempotent a : upper_ascii (upper_ascii a) = upper_ascii a.
Proof.
  destruct a as [[|] [|] [|] [|] [|] [|] [|] [|]]; vm_compute; reflexivity.
Qed.

Lemma upper_ascii_keeps_marks a :
  Ascii.eqb (upper_ascii a) backslash = Ascii.eqb a backslash
  /\ Ascii.eqb (upper_ascii a) colon = Ascii.eqb a colon.
Proof.
  destruct a as [[|] [|] [|] [|] [|] [|] [|] [|]]; vm_compute; split;
    reflexivity.
Qed.

Lemma str_upper_idempotent s : str_upper (str_upper s) = str_upper s.
Proof.
  induction s as [|a s IH]; cbn; [reflexivity|].
  rewrite upper_ascii_idempotent, IH. reflexivity.
Qed.

Lemma str_replace_upper c s :
  (forall a, Ascii.eqb (upper_ascii a) c = Ascii.eqb a c) ->
  str_replace c EmptyString (str_upper s)
  = str_upper (str_replace c EmptyString s).
Proof.
  intros Hc. induction s as [|a s IH]; cbn [str_upper str_replace];
    [reflexivity|].
  rewrite Hc. destruct (Ascii.eqb a c); cbn [append str_upper];
    rewrite IH; reflexivity.
Qed.

(** X12: the name of the manifest file of a drive ignores every
    backslash and every colon of the drive root, and the case of its
    letters: the spellings of one drive root (as "g:" and "G:\") share
    one manifest. *)
Theorem X12_manifest_name_ignores_case_and_marks (a b : string) :
  _manifest_path (a +++ String backslash b) = _manifest_path (a +++ b)
  /\ _manifest_path (a +++ String colon b) = _manifest_path (a +++ b)
  /\ _manifest_path (str_upper a) = _manifest_path a.
Proof.
  unfold _manifest_path. split; [|split].
  - rewrite !str_replace_app, str_replace_drop. reflexivity.
  - rewrite !str_replace_app.
    assert (H : str_replace backslash EmptyString (String colon b)
                = String colon (str_replace backslash EmptyString b))
      by reflexivity.
    rewrite H, str_replace_drop. reflexivity.
  - rewrite (str_replace_upper backslash)
      by (intros x; apply upper_ascii_keeps_marks).
    rewrite (str_replace_upper colon)
      by (intros x; apply upper_ascii_keeps_marks).
    rewrite str_upper_idempotent. reflexivity.
Qed.

Lemma drive_roots_named :
  Forall (fun letter =>
            _manifest_path (drive_root_of letter) = String letter ".json")
    drive_letters.
Proof.
  unfold drive_letters. cbn [list_ascii_of_string].
  repeat (constructor; [vm_compute; reflexivity|]). constructor.
Qed.

Lemma available_drive_is_root mounted d :
  In d (get_available_drives mounted) ->
  exists letter, In letter drive_letters /\ d = drive_root_of letter
                 /\ mounted d = true.
Proof.
  unfold get_available_drives. intros H. apply filter_In in H.
  destruct H as [H Hm]. apply in_map_iff in H.
  destruct H as (letter & <- & Hl). exists letter. auto.
Qed.

(** X13: [get_available_drives] returns roots of the form of a capital
    letter, a colon and a backslash, each of them mounted and none of
    them twice; the manifest of such a root is named by its letter, so
    two different drives never share a manifest file. *)
Theorem X13_each_drive_has_a_manifest_of_its_own (mounted : string -> bool)
  (d1 d2 : string) :
  In d1 (get_available_drives mounted) ->
  In d2 (get_available_drives mounted) ->
  (exists letter,
     In letter drive_letters /\ d1 = drive_root_of letter
     /\ mounted d1 = true
     /\ _manifest_path d1 = String letter ".json")
  /\ (_manifest_path d1 = _manifest_path d2 -> d1 = d2)
  /\ NoDup (get_available_drives mounted).
Proof.
  intros H1 H2.
  destruct (available_drive_is_root _ _ H1) as (l1 & Hl1 & -> & Hm1).
  destruct (available_drive_is_root _ _ H2) as (l2 & Hl2 & -> & Hm2).
  pose proof drive_roots_named as Hn. rewrite Forall_forall in Hn.
  split; [|split].
  - exists l1. auto.
  - rewrite (Hn _ Hl1), (Hn _ Hl2). intros E. injection E as ->.
    reflexivity.
  - unfold get_available_drives. apply NoDup_filter.
    apply Injective_map_NoDup.
    + intros x y E. injection E as E. exact E.
    + unfold drive_letters. cbn [list_ascii_of_string].
      repeat (constructor;
              [intros Hin; cbn in Hin;
               repeat (destruct Hin as [Hin|Hin]; [discriminate|]);
               exact Hin|]).
      constructor.
Qed.

Lemma X13_each_drive_has_a_manifest_of_its_own_witness :
  In "C:\" (get_available_drives
              (fun d => String.eqb d "C:\" || String.eqb d "G:\"))
  /\ In "G:\" (get_available_drives
                 (fun d => String.eqb d "C:\" || String.eqb d "G:\"))
  /\ (exists letter,
        In letter drive_letters /\ "C:\" = drive_root_of letter
        /\ (String.eqb "C:\" "C:\" || String.eqb "C:\" "G:\") = true
        /\ _manifest_path "C:\" = String letter ".json")
  /\ (_manifest_path "C:\" = _manifest_path "G:\" -> "C:\" = "G:\")
  /\ NoDup (get_available_drives
              (fun d => String.eqb d "C:\" || String.eqb d "G:\")).
Proof.
  assert (H1 : In "C:\" (get_available_drives
                           (fun d => String.eqb d "C:\"
                                     || String.eqb d "G:\"))).
  { vm_compute. left. reflexivity. }
  assert (H2 : In "G:\" (get_available_drives
                           (fun d => String.eqb d "C:\"
                                     || String.eqb d "G:\"))).
  { vm_compute. right. left. reflexivity. }
  split; [exact H1|]. split; [exact H2|].
  exact (X13_each_drive_has_a_manifest_of_its_own _ _ _ H1 H2).
Defined.

(** ** Recommendations *)

(** X14: the recommended interval between sweeps never shrinks when the
    capacity grows; it is 7, 14, 21 or 30 days; the hint names the same
    number of days; and a drive gets the small check fraction of 5
    percent exactly when it gets the interval of 7 days, the fraction of
    10 percent otherwise. *)
Theorem X14_recommended_interval_grows_with_capacity (drive_root : string)
  (w1 w2 : World) :
  disk_total (drive w1) <= disk_total (drive w2) ->
  exists n1 hint1 n2 hint2,
    recommend_schedule drive_root w1 = (Returned (n1, hint1), w1)
    /\ recommend_schedule drive_root w2 = (Returned (n2, hint2), w2)
    /\ n1 <= n2
    /\ In n1 [7; 14; 21; 30]
    /\ (exists kind,
          hint1 = kind +++ " (recommend checking every " +++ str_of_Z n1
                  +++ " days)")
    /\ recommend_check_size_fraction drive_root w1
       = (Returned (if n1 =? 7 then twentieth else tenth), w1).
Proof.
  intros Hle.
  unfold recommend_schedule, recommend_check_size_fraction, get_drive_usage.
  unfold bind, ret. cbn [fst].
  destruct (Z.ltb_spec (disk_total (drive w1)) SMALL_BYTES) as [A1|A1];
    [|destruct (Z.ltb_spec (disk_total (drive w1)) BALANCED_BYTES)
        as [B1|B1];
      [|destruct (Z.ltb_spec (disk_total (drive w1)) HIGH_END_BYTES)
          as [C1|C1]]];
    (destruct (Z.ltb_spec (disk_total (drive w2)) SMALL_BYTES) as [A2|A2];
     [|destruct (Z.ltb_spec (disk_total (drive w2)) BALANCED_BYTES)
         as [B2|B2];
       [|destruct (Z.ltb_spec (disk_total (drive w2)) HIGH_END_BYTES)
           as [C2|C2]]]);
    unfold SMALL_BYTES, BALANCED_BYTES, HIGH_END_BYTES in *; try lia;
    do 4 eexists;
    (split; [reflexivity|]); (split; [reflexivity|]);
    (split; [lia|]); (split; [cbn; tauto|]);
    (split;
     [first [exists "Low-end / small card"; vm_compute; reflexivity
            |exists "Balanced capacity"; vm_compute; reflexivity
            |exists "High-capacity card"; vm_compute; reflexivity]
     |reflexivity]).
Qed.

Lemma X14_recommended_interval_grows_with_capacity_witness :
  disk_total (drive w_card) <= disk_total (drive w_card)
  /\ exists n1 hint1 n2 hint2,
       recommend_schedule "G:\" w_card = (Returned (n1, hint1), w_card)
       /\ recommend_schedule "G:\" w_card = (Returned (n2, hint2), w_card)
       /\ n1 <= n2
       /\ In n1 [7; 14; 21; 30]
       /\ (exists kind,
             hint1 = kind +++ " (recommend checking every " +++ str_of_Z n1
                     +++ " days)")
       /\ recommend_check_size_fraction "G:\" w_card
          = (Returned (if n1 =? 7 then twentieth else tenth), w_card).
Proof.
  split; [lia|].
  apply (X14_recommended_interval_grows_with_capacity "G:\" w_card w_card).
  lia.
Defined.

Lemma nearly_full_is_not_very_small (pct : string) :
  "Card nearly full (" +++ pct +++ "% used)" <> "Card very small (< 4 GB)".
Proof. cbn. discriminate. Qed.

(** X15: [get_quality_warnings] does not divide by zero: a drive that
    reports no capacity gets no warning.  A drive with nothing on it gets
    the warning of a very small card when it is one, and nothing else.
    Whenever the function returns, it leaves the world alone and returns
    at most two warnings, the one of a very small card among them
    exactly for a capacity above 0 and below 4 GiB. *)
Theorem X15_quality_warnings_at_the_edges (drive_root : string) (w : World) :
  (disk_total (drive w) <= 0 ->
   get_quality_warnings drive_root w = (Returned [], w))
  /\ (0 < disk_total (drive w) ->
      disk_free (drive w) = disk_total (drive w) ->
      get_quality_warnings drive_root w
      = (Returned (if disk_total (drive w) <? VERY_SMALL_BYTES
                   then ["Card very small (< 4 GB)"] else []), w))
  /\ (forall ws w',
        get_quality_warnings drive_root w = (Returned ws, w') ->
        w' = w /\ (List.length ws <= 2)%nat
        /\ (In "Card very small (< 4 GB)" ws
            <-> 0 < disk_total (drive w) < VERY_SMALL_BYTES)).
Proof.
  unfold get_quality_warnings, get_drive_usage.
  split; [|split].
  - intros Hz. erewrite bind_returned by reflexivity. cbv beta iota.
    assert (E : (0 <? disk_total (drive w)) = false)
      by (apply Z.ltb_ge; lia).
    rewrite E. reflexivity.
  - intros Hpos Hfree. erewrite bind_returned by reflexivity.
    cbv beta iota.
    assert (E : (0 <? disk_total (drive w)) = true)
      by (apply Z.ltb_lt; lia).
    rewrite E, Hfree, Z.sub_diag.
    assert (Hdiv : py_truediv 0 (disk_total (drive w))
                   = Returned (S754_zero false)).
    { unfold py_truediv. destruct (disk_total (drive w)); try lia.
      reflexivity. }
    unfold lift at 1. erewrite bind_returned by (rewrite Hdiv; reflexivity).
    reflexivity.
  - intros ws w'. erewrite bind_returned by reflexivity. cbv beta iota.
    destruct (Z.ltb_spec 0 (disk_total (drive w))) as [Hpos|Hz].
    2:{ intros H. injection H as <- <-. split; [reflexivity|].
        split; [cbn; lia|]. split; [intros [] | lia]. }
    unfold bind, lift, ret.
    destruct (py_truediv _ _) as [used_pct|e]; [|discriminate].
    assert (Hsmall : forall extra,
               ~ In "Card very small (< 4 GB)" extra ->
               (List.length extra <= 1)%nat ->
               Nat.le
                 (List.length
                    ((if disk_total (drive w) <? VERY_SMALL_BYTES
                      then ["Card very small (< 4 GB)"] else []) ++ extra))
                 2
               /\ (In "Card very small (< 4 GB)"
                     ((if disk_total (drive w) <? VERY_SMALL_BYTES
                       then ["Card very small (< 4 GB)"] else []) ++ extra)
                   <-> 0 < disk_total (drive w) < VERY_SMALL_BYTES)).
    { intros extra Hno Hlen.
      destruct (Z.ltb_spec (disk_total (drive w)) VERY_SMALL_BYTES)
        as [Hs|Hs]; cbn [app List.length In]; unfold Nat.le.
      - split; [lia|]. split; [lia | auto].
      - split; [lia|]. split; [intros Hin; destruct (Hno Hin) | lia]. }
    destruct (float_ge used_pct FULL_THRESHOLD).
    + destruct (float_mul_int used_pct 100) as [scaled|e]; [|discriminate].
      destruct (int_of_float scaled) as [pct|e]; [|discriminate].
      intros H. injection H as <- <-. split; [reflexivity|].
      apply Hsmall; [|cbn; lia].
      intros [Hin|[]]. exact (nearly_full_is_not_very_small _ Hin).
    + intros H. injection H as <- <-. split; [reflexivity|].
      assert (Hnone : ~ In "Card very small (< 4 GB)" []) by (intros []).
      pose proof (Hsmall [] Hnone (Nat.le_0_l 1)) as Hs.
      rewrite app_nil_r in Hs. exact Hs.
Qed.

Lemma X15_quality_warnings_at_the_edges_witness :
  0 < disk_total (drive w_abort_first)
  /\ get_quality_warnings "G:\" w_abort_first
     = (Returned [], w_abort_first)
  /\ (List.length (@nil string) <= 2)%nat
  /\ (In "Card very small (< 4 GB)" []
      <-> 0 < disk_total (drive w_abort_first) < VERY_SMALL_BYTES).
Proof.
  assert (Hrun : get_quality_warnings "G:\" w_abort_first
                 = (Returned [], w_abort_first)).
  { vm_compute. reflexivity. }
  split; [vm_compute; reflexivity|]. split; [exact Hrun|].
  exact (proj2 (proj2 (proj2 (X15_quality_warnings_at_the_edges "G:\"
                                w_abort_first)) _ _ Hrun)).
Defined.

(** ** When the next sweep is due *)

Lemma days_elapsed (interval elapsed : Z) :
  (interval <=? elapsed / DAY) = (interval * DAY <=? elapsed).
Proof.
  assert (HD : 0 < DAY) by reflexivity.
  pose proof (Z.mul_div_le elapsed DAY HD) as Hlow.
  pose proof (Z.mul_succ_div_gt elapsed DAY HD) as Hup.
  destruct (Z.leb_spec interval (elapsed / DAY)) as [H|H];
    destruct (Z.leb_spec (interval * DAY) elapsed) as [H'|H'];
    try reflexivity; exfalso; nia.
Qed.

Section ScheduleProperties.
Context {rt : Runtime} {tx : TextRuntime}.

(** A marker that holds the text of [isoformat t] reads as [t]. *)
Lemma read_marker_of root t w :
  dict_get (marker_path root) (tree (drive w))
  = Some (RegularFile (list_byte_of_string (isoformat t))) ->
  read_last_sweep_timestamp root w = (Returned (Some (Naive t)), w).
Proof.
  intros H. unfold read_last_sweep_timestamp. rewrite H.
  rewrite decode_isoformat, strip_isoformat, fromisoformat_isoformat.
  reflexivity.
Qed.

Lemma read_marker_same root w w2 :
  dict_get (marker_path root) (tree (drive w2))
  = dict_get (marker_path root) (tree (drive w)) ->
  fst (read_last_sweep_timestamp root w2)
  = fst (read_last_sweep_timestamp root w).
Proof.
  intros H. unfold read_last_sweep_timestamp. cbn [fst]. rewrite H.
  reflexivity.
Qed.

Lemma sweep_due_of_marker root interval t0 w t w3 :
  read_last_sweep_timestamp root w = (Returned (Some (Naive t0)), w) ->
  datetime_now w = (Returned t, w3) ->
  sweep_due root interval w
  = (Returned (inr (interval * DAY <=? t - t0)), w3).
Proof.
  intros Hread Hnow. unfold sweep_due.
  rewrite (bind_returned _ _ _ _ _ Hread).
  rewrite (bind_returned _ _ _ _ _ Hnow).
  unfold ret. rewrite days_elapsed. reflexivity.
Qed.

End ScheduleProperties.



(** X17: after a sweep whose two phases passed, the card carries the
    time of that sweep, and as long as the marker file stays as it is
    [sweep_due] answers yes exactly when at least [interval_days] whole
    days lie between that time and the reading of the clock. *)
Theorem X17_sweep_due_counts_days_since_the_sweep (rt : Runtime)
  (tx : TextRuntime) (drive_root : string)
  (progress_callback manifest_callback abort_check : bool)
  (w w' : World) (r : SweepResult) :
  full_sweep drive_root progress_callback manifest_callback abort_check w
  = (Returned r, w') ->
  both_phases_passed r = true ->
  read_last_sweep_timestamp drive_root w'
  = (Returned (Some (Naive (now w'))), w')
  /\ forall interval w2 t w3,
       dict_get (marker_path drive_root) (tree (drive w2))
       = dict_get (marker_path drive_root) (tree (drive w')) ->
       datetime_now w2 = (Returned t, w3) ->
       sweep_due drive_root interval w2
       = (Returned (inr (interval * DAY <=? t - now w')), w3).
Proof.
  intros Hrun Hboth.
  destruct (full_sweep_spec drive_root progress_callback manifest_callback
              abort_check w) as (o & w1 & ev & Hrun' & Hpost).
  rewrite Hrun in Hrun'. injection Hrun' as <- <-.
  cbn [sweep_post] in Hpost.
  destruct Hpost as [(_ & _ & Hm)|(Hb & _)]; [|congruence].
  destruct Hm as (_ & Hfile & _).
  pose proof (read_marker_of _ _ _ Hfile) as Hread.
  split; [exact Hread|].
  intros interval w2 t w3 Hsame Hnow.
  apply sweep_due_of_marker; [|exact Hnow].
  apply read_marker_of. rewrite Hsame. exact Hfile.
Qed.

Lemma X17_sweep_due_counts_days_since_the_sweep_witness :
  full_sweep (rt := sim_runtime) "G:\" false true false w_card
  = (Returned card_sweep_result, card_sweep_world)
  /\ both_phases_passed card_sweep_result = true
  /\ read_last_sweep_timestamp (tx := sim_texts) "G:\" card_sweep_world
     = (Returned (Some (Naive (now card_sweep_world))), card_sweep_world)
  /\ sweep_due (tx := sim_texts) "G:\" 14 (w_later 3)
     = (Returned (inr false), w_later 3)
  /\ sweep_due (tx := sim_texts) "G:\" 14 (w_later 14)
     = (Returned (inr true), w_later 14).
Proof.
  assert (Hrun : full_sweep (rt := sim_runtime) "G:\" false true false w_card
                 = (Returned card_sweep_result, card_sweep_world)).
  { vm_compute. reflexivity. }
  destruct (X17_sweep_due_counts_days_since_the_sweep sim_runtime sim_texts
              _ _ _ _ _ _ _ Hrun eq_refl) as (Hread & Hdue).
  split; [exact Hrun|]. split; [reflexivity|]. split; [exact Hread|].
  split.
  - exact (Hdue 14 (w_later 3) _ _ eq_refl eq_refl).
  - exact (Hdue 14 (w_later 14) _ _ eq_refl eq_refl).
Defined.

(** X18: a sweep that did not pass both phases (it failed, was aborted
    or raised) leaves the schedule as it was: the card reads the same
    time of the last sweep as before, [sweep_due] answers as it would
    have answered before, and on a card without marker a sweep stays
    due whatever the interval. *)
Theorem X18_unfinished_sweep_keeps_the_schedule (rt : Runtime)
  (tx : TextRuntime) (drive_root : string)
  (progress_callback manifest_callback abort_check : bool)
  (w w' : World) (o : Outcome SweepResult) :
  full_sweep drive_root progress_callback manifest_callback abort_check w
  = (o, w') ->
  match o with
  | Returned r => both_phases_passed r = false
  | Raised _ => True
  end ->
  fst (read_last_sweep_timestamp drive_root w')
  = fst (read_last_sweep_timestamp drive_root w)
  /\ (forall interval t,
        fst (sweep_due drive_root interval (set_clock t [] w'))
        = fst (sweep_due drive_root interval (set_clock t [] w)))
  /\ (dict_get (marker_path drive_root) (tree (drive w)) = None ->
      forall interval,
        fst (sweep_due drive_root interval w') = Returned (inr true)).
Proof.
  intros Hrun Hnot.
  destruct (full_sweep_spec drive_root progress_callback manifest_callback
              abort_check w) as (o1 & w1 & ev & Hrun' & Hpost).
  rewrite Hrun in Hrun'. injection Hrun' as <- <-.
  assert (Htree : tree (drive w') = tree (drive w)).
  { destruct o as [r|e]; cbn [sweep_post] in Hpost.
    - destruct Hpost as [(_ & Hb & _)|(_ & _ & Hk & _)]; [congruence|].
      destruct Hk as (Ht & _). exact Ht.
    - destruct Hpost as [Hk _]. destruct Hk as (Ht & _). exact Ht. }
  split; [|split].
  - apply read_marker_same. rewrite Htree. reflexivity.
  - intros interval t. unfold sweep_due, bind, read_last_sweep_timestamp.
    cbn [set_clock drive tree]. rewrite Htree.
    destruct (dict_get (marker_path drive_root) (tree (drive w)))
      as [[content|err|]|]; try reflexivity.
    destruct (decode_utf8 content) as [text|]; [|reflexivity].
    destruct (fromisoformat (str_strip text)) as [[t0|]|]; reflexivity.
  - intros Hnone interval. unfold sweep_due, bind, read_last_sweep_timestamp.
    rewrite Htree, Hnone. reflexivity.
Qed.

Lemma X18_unfinished_sweep_keeps_the_schedule_witness :
  full_sweep (rt := sim_runtime) "G:\" true true true w_rotten
  = (Returned rotten_sweep_result, rotten_sweep_world)
  /\ both_phases_passed rotten_sweep_result = false
  /\ fst (read_last_sweep_timestamp (tx := sim_texts) "G:\"
            rotten_sweep_world)
     = fst (read_last_sweep_timestamp (tx := sim_texts) "G:\" w_rotten)
  /\ (forall interval t,
        fst (sweep_due (tx := sim_texts) "G:\" interval
               (set_clock t [] rotten_sweep_world))
        = fst (sweep_due (tx := sim_texts) "G:\" interval
                 (set_clock t [] w_rotten)))
  /\ (dict_get (marker_path "G:\") (tree (drive w_rotten)) = None ->
      forall interval,
        fst (sweep_due (tx := sim_texts) "G:\" interval rotten_sweep_world)
        = Returned (inr true)).
Proof.
  assert (Hrun : full_sweep (rt := sim_runtime) "G:\" true true true w_rotten
                 = (Returned rotten_sweep_result, rotten_sweep_world)).
  { vm_compute. reflexivity. }
  split; [exact Hrun|]. split; [reflexivity|].
  exact (X18_unfinished_sweep_keeps_the_schedule sim_runtime sim_texts
           _ _ _ _ _ _ _ Hrun eq_refl).
Defined.

(** X19: [get_last_sweep_time] asked about a drive whose last sweep
    passed both phases answers with the time written on the card,
    whatever the configuration file holds, also when that file cannot be
    loaded; asked without a drive it does not look at the card: with no
    configuration file it has no answer. *)
Theorem X19_last_sweep_time_prefers_the_card (rt : Runtime)
  (tx : TextRuntime) (drive_root : string)
  (progress_callback manifest_callback abort_check : bool)
  (w w' : World) (r : SweepResult) (file : ConfigFile) :
  drive_root <> EmptyString ->
  full_sweep drive_root progress_callback manifest_callback abort_check w
  = (Returned r, w') ->
  both_phases_passed r = true ->
  get_last_sweep_time file (Some drive_root) w'
  = (Returned (Some (Naive (now w'))), w')
  /\ get_last_sweep_time CfgMissing None w' = (Returned None, w').
Proof.
  intros Hroot Hrun Hboth.
  destruct (full_sweep_spec drive_root progress_callback manifest_callback
              abort_check w) as (o & w1 & ev & Hrun' & Hpost).
  rewrite Hrun in Hrun'. injection Hrun' as <- <-.
  cbn [sweep_post] in Hpost.
  destruct Hpost as [(_ & _ & Hm)|(Hb & _)]; [|congruence].
  destruct Hm as (_ & Hfile & _).
  pose proof (read_marker_of _ _ _ Hfile) as Hread.
  split; [|reflexivity].
  unfold get_last_sweep_time.
  apply String.eqb_neq in Hroot. rewrite Hroot.
  rewrite (bind_returned _ _ _ _ _ Hread). reflexivity.
Qed.

Lemma X19_last_sweep_time_prefers_the_card_witness :
  "G:\" <> EmptyString
  /\ full_sweep (rt := sim_runtime) "G:\" false true false w_card
     = (Returned card_sweep_result, card_sweep_world)
  /\ both_phases_passed card_sweep_result = true
  /\ get_last_sweep_time (tx := sim_texts) CfgNotUtf8 (Some "G:\")
       card_sweep_world
     = (Returned (Some (Naive (now card_sweep_world))), card_sweep_world)
  /\ get_last_sweep_time (tx := sim_texts) CfgMissing None card_sweep_world
     = (Returned None, card_sweep_world).
Proof.
  assert (Hroot : "G:\" <> EmptyString) by discriminate.
  assert (Hrun : full_sweep (rt := sim_runtime) "G:\" false true false w_card
                 = (Returned card_sweep_result, card_sweep_world)).
  { vm_compute. reflexivity. }
  split; [exact Hroot|]. split; [exact Hrun|]. split; [reflexivity|].
  exact (X19_last_sweep_time_prefers_the_card sim_runtime sim_texts _ _ _ _
           _ _ _ CfgNotUtf8 Hroot Hrun eq_refl).
Defined.

(** ** The configuration file *)

Lemma load_saved (c : Config) :
  load_config (CfgObject (config_entries c)) = Returned c.
Proof. destruct c. reflexivity. Qed.

(** X20: [save_config] changes exactly the keys it is passed: when the
    file can be loaded, loading the saved file gives the loaded values
    with the passed ones replaced, and saving again without arguments
    leaves that file as it is.  When loading raises (the file is not
    UTF-8, or holds a document that is not an object), [save_config]
    raises the same exception and leaves the file untouched. *)
Theorem X20_save_config_updates_only_what_is_passed
  (last_drive_ : option string) (check_size_fraction_ : option spec_float)
  (sweep_interval_days_ : option Z)
  (last_check_time_ last_sweep_time_ : option string) (file : ConfigFile) :
  match load_config file with
  | Returned current =>
      exists file',
        save_config last_drive_ check_size_fraction_ sweep_interval_days_
          last_check_time_ last_sweep_time_ file = (Returned tt, file')
        /\ load_config file'
           = Returned
               (mkConfig
                  (updated JStr last_drive_ (last_drive current))
                  (updated JFloat check_size_fraction_
                     (check_size_fraction current))
                  (updated JInt sweep_interval_days_
                     (sweep_interval_days current))
                  (updated JStr last_check_time_ (last_check_time current))
                  (updated JStr last_sweep_time_ (last_sweep_time current)))
        /\ save_config None None None None None file' = (Returned tt, file')
  | Raised e =>
      save_config last_drive_ check_size_fraction_ sweep_interval_days_
        last_check_time_ last_sweep_time_ file = (Raised e, file)
  end.
Proof.
  unfold save_config.
  destruct (load_config file) as [current|e]; [|reflexivity].
  eexists. split; [reflexivity|]. rewrite load_saved.
  split; reflexivity.
Qed.

(** X21: the times that the program saves in the configuration are read
    back as they were saved: after [save_config] with the texts of two
    times, [get_last_check_time] gives the first, and
    [get_last_sweep_time] gives the second when it is asked without a
    drive or about a drive whose card holds no readable time. *)
Theorem X21_saved_times_read_back (rt : Runtime) (tx : TextRuntime)
  (last_drive_ : option string) (file : ConfigFile) (current : Config)
  (t_check t_sweep : Z) (w : World) :
  load_config file = Returned current ->
  exists file',
    save_config last_drive_ None None (Some (isoformat t_check))
      (Some (isoformat t_sweep)) file = (Returned tt, file')
    /\ get_last_check_time file' = Returned (Some (Naive t_check))
    /\ get_last_sweep_time file' None w
       = (Returned (Some (Naive t_sweep)), w)
    /\ forall drive_root,
         read_last_sweep_timestamp drive_root w = (Returned None, w) ->
         get_last_sweep_time file' (Some drive_root) w
         = (Returned (Some (Naive t_sweep)), w).
Proof.
  intros Hload. unfold save_config. rewrite Hload.
  eexists. split; [reflexivity|].
  assert (Htime : forall t, time_of_json (JStr (isoformat t))
                            = Some (Naive t)).
  { intros t. unfold time_of_json.
    destruct (String.eqb (isoformat t) EmptyString) eqn:E.
    - apply String.eqb_eq in E. destruct (isoformat_not_empty t E).
    - apply fromisoformat_isoformat. }
  split; [|split].
  - unfold get_last_check_time. rewrite load_saved.
    cbn [last_check_time updated]. rewrite Htime. reflexivity.
  - unfold get_last_sweep_time, bind, lift, ret. rewrite load_saved.
    cbn [last_sweep_time updated]. rewrite Htime. reflexivity.
  - intros root Hread. unfold get_last_sweep_time.
    destruct (String.eqb root EmptyString).
    + unfold bind, lift, ret. rewrite load_saved.
      cbn [last_sweep_time updated]. rewrite Htime. reflexivity.
    + rewrite (bind_returned _ _ _ _ _ Hread).
      unfold bind, lift, ret. rewrite load_saved.
      cbn [last_sweep_time updated]. rewrite Htime. reflexivity.
Qed.

Lemma X21_saved_times_read_back_witness :
  load_config CfgNotJson = Returned default_config
  /\ exists file',
       save_config (Some "G:\") None None
         (Some (@isoformat sim_runtime 5)) (Some (@isoformat sim_runtime 7))
         CfgNotJson = (Returned tt, file')
       /\ get_last_check_time (tx := sim_texts) file'
          = Returned (Some (Naive 5))
       /\ get_last_sweep_time (tx := sim_texts) file' None w_card
          = (Returned (Some (Naive 7)), w_card)
       /\ forall drive_root,
            read_last_sweep_timestamp (tx := sim_texts) drive_root w_card
            = (Returned None, w_card) ->
            get_last_sweep_time (tx := sim_texts) file' (Some drive_root)
              w_card
            = (Returned (Some (Naive 7)), w_card).
Proof.
  split; [reflexivity|].
  exact (X21_saved_times_read_back sim_runtime sim_texts (Some "G:\")
           CfgNotJson default_config 5 7 w_card eq_refl).
Defined.

(** ** What a check writes to the drive *)

Lemma written_app ev1 ev2 : written (ev1 ++ ev2) = written ev1 ++ written ev2.
Proof. unfold written. apply flat_map_app. Qed.

Lemma written_progress pcb cur tot : written (progress_events pcb cur tot) = [].
Proof. destruct pcb; reflexivity. Qed.

Lemma sum_numbered i batches :
  sum_Z (map snd (numbered i batches)) = sum_Z batches.
Proof.
  revert i. induction batches as [|b rest IH]; intros i; [reflexivity|].
  cbn [numbered map snd]. change (b + sum_Z (map snd (numbered (i + 1) rest))
                                  = b + sum_Z rest).
  rewrite IH. reflexivity.
Qed.

Lemma sum_firstn_numbered m i batches :
  Forall (fun b => 0 < b) batches ->
  0 <= sum_Z (map snd (firstn m (numbered i batches))) <= sum_Z batches.
Proof.
  revert m i. induction batches as [|b rest IH]; intros m i Hpos.
  - destruct m; cbn; lia.
  - inversion Hpos as [|b' rest' Hb Hrest]; subst.
    destruct m as [|m].
    + cbn [firstn map]. change (sum_Z (b :: rest)) with (b + sum_Z rest).
      specialize (IH 0%nat (i + 1) Hrest). cbn [firstn map] in IH.
      change (sum_Z []) with 0 in *. lia.
    + cbn [numbered firstn map snd].
      change (0 <= b + sum_Z (map snd (firstn m (numbered (i + 1) rest)))
              <= b + sum_Z rest).
      specialize (IH m (i + 1) Hrest). lia.
Qed.

Section Written.
Context {rt : Runtime}.

Lemma step_spec_written msg pcb ts i fsize vd f x ev :
  step_spec msg pcb ts i fsize vd f x ev -> written ev = [(i, fsize)].
Proof.
  intros H. destruct H; repeat rewrite written_app;
    repeat rewrite written_progress; reflexivity.
Qed.

(** The loop writes the first [m] of its batches, and [m] is the number
    of records it adds, or one more when a batch ended in an I/O
    error. *)
Lemma cycle_loop_written msg pcb ac ts :
  forall batches i vd w,
    exists exit w' ev m,
      cycle_loop msg pcb ac ts batches i vd w = (Returned exit, w')
      /\ trace w' = trace w ++ ev
      /\ written ev = firstn m (numbered i batches)
      /\ (m <= List.length batches)%nat
      /\ ((List.length (exit_records exit) = List.length vd + m)%nat
          \/ (exists r, exit = ExitReturn r /\ passed r = false
                        /\ abort_info r = None
                        /\ (S (List.length (exit_records exit))
                            = List.length vd + m)%nat)).
Proof.
  induction batches as [|fsize later IH]; intros i vd w.
  - exists (ExitDone vd), w, [], 0%nat. split; [reflexivity|].
    split; [rewrite app_nil_r; reflexivity|]. split; [reflexivity|].
    split; [cbn; lia|]. left. cbn. lia.
  - cbn [cycle_loop].
    destruct (poll_abort_spec ac w) as (stop & w1 & Hpoll & Hev1).
    rewrite (bind_returned _ _ _ _ _ Hpoll).
    destruct Hev1 as (_ & _ & _ & Ht1). rewrite app_nil_r in Ht1.
    destruct stop.
    + exists (ExitBreak vd), w1, [], 0%nat. split; [reflexivity|].
      split; [rewrite app_nil_r; exact Ht1|]. split; [reflexivity|].
      split; [cbn; lia|]. left. cbn. lia.
    + destruct (write_verify_batch_spec msg pcb ts i fsize vd w1)
        as (x & ev & Hstep & Hspec).
      rewrite (bind_returned _ _ _ _ _ Hstep).
      pose proof (step_spec_written _ _ _ _ _ _ _ _ _ Hspec) as Hw.
      destruct x as [r|vd'].
      * exists (ExitReturn r), (set_trace (trace w1 ++ ev) w1), ev, 1%nat.
        split; [reflexivity|]. split; [cbn; rewrite Ht1; reflexivity|].
        split; [exact Hw|]. split; [cbn; lia|].
        apply step_spec_inl in Hspec.
        destruct Hspec as (Hp & _ & Ha & Hvd). cbn [exit_records].
        destruct Hvd as [->|(bad & -> & _)].
        -- right. exists r. repeat split; auto. lia.
        -- left. rewrite length_app. cbn. lia.
      * apply step_spec_inr in Hspec. destruct Hspec as (v & -> & _).
        destruct (IH (i + 1) (vd ++ [v]) (set_trace (trace w1 ++ ev) w1))
          as (exit & w' & ev' & m & Hloop & Ht & Hw' & Hm & Hrec).
        exists exit, w', (ev ++ ev'), (S m). split; [exact Hloop|]. split.
        { rewrite Ht. cbn. rewrite Ht1, app_assoc. reflexivity. }
        split; [rewrite written_app, Hw, Hw'; reflexivity|].
        split; [cbn; lia|].
        rewrite length_app in Hrec. cbn [List.length] in Hrec.
        destruct Hrec as [Hrec|(r & -> & Hp & Ha & Hrec)].
        -- left. lia.
        -- right. exists r. repeat split; auto. lia.
Qed.

Lemma finish_records amsg word pmsg pcb bs size ts exit w :
  exists o w' ev,
    finish amsg word pmsg pcb bs size ts exit w = (o, w')
    /\ trace w' = trace w ++ ev /\ written ev = []
    /\ forall r, o = Returned r ->
         verification_details r = exit_records exit
         /\ (forall r', exit = ExitReturn r' -> r = r').
Proof.
  destruct exit as [r|vd|vd]; cbn [finish exit_records].
  - exists (Returned r), w, []. split; [reflexivity|].
    split; [rewrite app_nil_r; reflexivity|]. split; [reflexivity|].
    intros r0 H. injection H as <-. split; [reflexivity|].
    intros r' H. injection H as <-. reflexivity.
  - unfold aborted_result, bind, lift.
    destruct (confidence_pct _ _) as [pct|e].
    + eexists (Returned _), w, []. split; [reflexivity|].
      split; [rewrite app_nil_r; reflexivity|]. split; [reflexivity|].
      intros r0 H. injection H as <-. split; [reflexivity | discriminate].
    + exists (Raised e), w, []. split; [reflexivity|].
      split; [rewrite app_nil_r; reflexivity|]. split; [reflexivity|].
      discriminate.
  - erewrite bind_returned by apply report_progress_spec.
    eexists (Returned _), _, _. split; [reflexivity|].
    split; [reflexivity|]. split; [apply written_progress|].
    intros r0 H. injection H as <-. split; [reflexivity | discriminate].
Qed.

Lemma check_body_written fmsg amsg word pmsg prefix pcb ac size w :
  exists o w' ev m,
    check_body fmsg amsg word pmsg prefix pcb ac size w = (o, w')
    /\ trace w' = trace w ++ ev
    /\ written ev = firstn m (numbered 0 (plan_batches MAX_FILE_BYTES size))
    /\ forall r, o = Returned r ->
         m = List.length (verification_details r)
         \/ (m = S (List.length (verification_details r))
             /\ passed r = false /\ aborted r = false).
Proof.
  unfold check_body.
  destruct (datetime_now_spec w) as (t & w1 & Hnow & Hev1 & _).
  rewrite (bind_returned _ _ _ _ _ Hnow).
  destruct Hev1 as (_ & _ & _ & Ht1). rewrite app_nil_r in Ht1.
  unfold mkdir_temp at 1. erewrite bind_returned by reflexivity.
  destruct (mkdir_error (drive w1)) as [e|].
  - eexists (Returned _), _, _, 0%nat. split; [reflexivity|].
    split; [cbn; rewrite Ht1; reflexivity|]. split; [reflexivity|].
    intros r H. injection H as <-. left. reflexivity.
  - set (bs := plan_batches MAX_FILE_BYTES size).
    set (ts := Z.of_nat (List.length bs) * 3).
    set (w2 := set_trace (trace w1 ++ [EvMkdir prefix]) w1).
    destruct (cycle_loop_written fmsg pcb ac ts bs 0 [] w2)
      as (exit & w3 & ev3 & m & Hloop & Ht3 & Hw3 & _ & Hrec).
    unfold finally. rewrite (bind_returned _ _ _ _ _ Hloop).
    destruct (finish_records amsg word pmsg pcb bs size ts exit w3)
      as (o & w4 & ev4 & Hfin & Ht4 & Hw4 & Hres).
    rewrite Hfin.
    exists o, (cleanup_temp w4), ([EvMkdir prefix] ++ ev3 ++ ev4 ++ [EvCleanup]),
      m.
    split; [reflexivity|]. split.
    { cbn. rewrite Ht4, Ht3. subst w2. cbn. rewrite Ht1.
      rewrite <- !app_assoc. reflexivity. }
    split.
    { rewrite !written_app, Hw3, Hw4. cbn. rewrite app_nil_r. reflexivity. }
    intros r Hr. destruct (Hres r Hr) as (Hvd & Hsame).
    rewrite Hvd. cbn [List.length] in Hrec.
    destruct Hrec as [Hrec|(r' & Hexit & Hp & Ha & Hrec)].
    + left. lia.
    + right. rewrite <- (Hsame r' Hexit) in Hp, Ha.
      split; [lia|]. split; [exact Hp|]. unfold aborted. rewrite Ha.
      reflexivity.
Qed.

End Written.

(** X22: a check writes test files for the first [m] batches of its
    plan, in order, each once and with its planned size, where [m] is
    the number of records of the result, or one more when an I/O error
    ended the run: nothing is written after the batch that failed.  In
    all, a check never writes more bytes than the free space less the
    safety margin of 100 MiB. *)
Theorem X22_writes_follow_the_plan (rt : Runtime) (drive_root : string)
  (size_fraction : spec_float) (progress_callback abort_check : bool)
  (w w' : World) (o : Outcome CheckResult) (size_bytes : Z) :
  (quick_check drive_root size_fraction progress_callback abort_check w
   = (o, w')
   /\ planned_size size_fraction w = Returned size_bytes)
  \/ (free_space_sweep drive_root progress_callback abort_check w = (o, w')
      /\ size_bytes = usable_of w) ->
  exists m,
    written (new_events w w')
    = firstn m (numbered 0 (plan_batches MAX_FILE_BYTES size_bytes))
    /\ sum_Z (map snd (written (new_events w w')))
       <= Z.max 0 (disk_free (drive w) - SAFETY_MARGIN_BYTES)
    /\ forall r, o = Returned r ->
         m = List.length (verification_details r)
         \/ (m = S (List.length (verification_details r))
             /\ passed r = false /\ aborted r = false).
Proof.
  intros Hrun.
  assert (Hle : size_bytes <= usable_of w).
  { destruct Hrun as [[_ Hsize]|[_ ->]]; [|lia].
    unfold planned_size in Hsize.
    destruct (target_bytes_of _ _) as [target|e]; [|discriminate].
    injection Hsize as <-. lia. }
  assert (Hbody : exists fmsg amsg word pmsg prefix,
             ((size_bytes <? 1024) = true /\ exists r, (o, w') = (Returned r, w)
                                           /\ verification_details r = [])
             \/ (1024 <= size_bytes
                 /\ check_body fmsg amsg word pmsg prefix progress_callback
                      abort_check size_bytes w = (o, w'))).
  { destruct Hrun as [[Hrun Hsize]|[Hrun ->]].
    - rewrite quick_check_body, Hsize in Hrun.
      do 5 eexists. destruct (size_bytes <? 1024) eqn:E.
      + left. split; [reflexivity|]. eexists. split; [symmetry; exact Hrun|].
        reflexivity.
      + right. split; [apply Z.ltb_ge; exact E | exact Hrun].
    - rewrite free_space_sweep_body in Hrun.
      do 5 eexists. destruct (usable_of w <? 1024) eqn:E.
      + left. split; [reflexivity|]. eexists. split; [symmetry; exact Hrun|].
        reflexivity.
      + right. split; [apply Z.ltb_ge; exact E | exact Hrun]. }
  destruct Hbody as (fmsg & amsg & word & pmsg & prefix & Hbody).
  destruct Hbody as [(_ & r & Heq & Hvd)|(Hfloor & Hbody)].
  - injection Heq as -> ->. exists 0%nat.
    rewrite new_events_same. split; [reflexivity|]. split; [cbn; lia|].
    intros r0 H. injection H as <-. left. rewrite Hvd. reflexivity.
  - destruct (check_body_written fmsg amsg word pmsg prefix
                progress_callback abort_check size_bytes w)
      as (o1 & w1 & ev & m & Hrun' & Ht & Hw & Hrec).
    rewrite Hbody in Hrun'. injection Hrun' as <- <-.
    exists m. rewrite (new_events_app _ _ _ Ht).
    split; [exact Hw|]. split; [|exact Hrec].
    rewrite Hw.
    destruct (plan_batches_facts size_bytes MAX_FILE_BYTES) as [Hsum Hall];
      [lia | reflexivity|].
    assert (Hpos : Forall (fun b => 0 < b)
                     (plan_batches MAX_FILE_BYTES size_bytes)).
    { eapply Forall_impl; [|exact Hall]. cbv beta. intros b Hb. lia. }
    pose proof (sum_firstn_numbered m 0 _ Hpos) as Hb.
    rewrite Hsum in Hb. unfold usable_of in Hle. lia.
Qed.

Lemma X22_writes_follow_the_plan_witness :
  ((quick_check (rt := sim_runtime) "G:\" tenth false false w_bad_first_read
    = (Returned bad_first_read_result, bad_first_read_world)
    /\ planned_size tenth w_bad_first_read = Returned 1024)
   \/ (free_space_sweep (rt := sim_runtime) "G:\" false false
         w_bad_first_read
       = (Returned bad_first_read_result, bad_first_read_world)
       /\ 1024 = usable_of w_bad_first_read))
  /\ exists m,
       written (new_events w_bad_first_read bad_first_read_world)
       = firstn m (numbered 0 (plan_batches MAX_FILE_BYTES 1024))
       /\ sum_Z (map snd
                   (written (new_events w_bad_first_read
                               bad_first_read_world)))
          <= Z.max 0 (disk_free (drive w_bad_first_read)
                      - SAFETY_MARGIN_BYTES)
       /\ forall r, Returned bad_first_read_result = Returned r ->
            m = List.length (verification_details r)
            \/ (m = S (List.length (verification_details r))
                /\ passed r = false /\ aborted r = false).
Proof.
  assert (Hrun : (quick_check (rt := sim_runtime) "G:\" tenth false false
                    w_bad_first_read
                  = (Returned bad_first_read_result, bad_first_read_world)
                  /\ planned_size tenth w_bad_first_read = Returned 1024)
                 \/ (free_space_sweep (rt := sim_runtime) "G:\" false false
                       w_bad_first_read
                     = (Returned bad_first_read_result,
                        bad_first_read_world)
                     /\ 1024 = usable_of w_bad_first_read)).
  { right. split; vm_compute; reflexivity. }
  split; [exact Hrun|].
  exact (X22_writes_follow_the_plan sim_runtime _ _ _ _ _ _ _ _ Hrun).
Defined.

(** ** Aborting a check *)

Section AbortAt.
Context {rt : Runtime}.

Lemma cycle_loop_abort_at msg pcb ts rest :
  forall k batches i vd w,
    (forall j, fate (drive w) j = mkFate None Intact Intact) ->
    abort_script w = repeat false k ++ true :: rest ->
    (k < List.length batches)%nat ->
    exists vd' w',
      cycle_loop msg pcb true ts batches i vd w
      = (Returned (ExitBreak vd'), w')
      /\ List.length vd' = (List.length vd + k)%nat.
Proof.
  induction k as [|k IH]; intros batches i vd w Hfate Hscript Hlen.
  - destruct batches as [|fsize later]; [cbn in Hlen; lia|].
    cbn [cycle_loop]. unfold bind, poll_abort. rewrite Hscript.
    cbn [repeat app]. exists vd. eexists. split; [reflexivity | lia].
  - destruct batches as [|fsize later]; [cbn in Hlen; lia|].
    cbn [cycle_loop].
    assert (Hpoll : poll_abort true w
                    = (Returned false,
                       set_abort_script (repeat false k ++ true :: rest) w)).
    { unfold poll_abort. rewrite Hscript. reflexivity. }
    rewrite (bind_returned _ _ _ _ _ Hpoll).
    set (w1 := set_abort_script (repeat false k ++ true :: rest) w).
    destruct (healthy_batch rt msg pcb ts i fsize vd w1) as (ev & Hstep).
    { apply Hfate. }
    rewrite (bind_returned _ _ _ _ _ Hstep).
    destruct (IH later (i + 1) (vd ++ [mkBatchRecord (i + 1)
                                         (batch_expected_hash i fsize)
                                         (batch_expected_hash i fsize)
                                         (Some (batch_expected_hash i fsize))
                                         true])
                (set_trace (trace w1 ++ ev) w1))
      as (vd' & w' & Hloop & Hl).
    + intros j. apply Hfate.
    + reflexivity.
    + cbn in Hlen. lia.
    + exists vd', w'. split; [exact Hloop|].
      rewrite Hl, length_app. cbn. lia.
Qed.

Lemma check_body_abort_at fmsg amsg word pmsg prefix pcb size w k rest :
  fault_free w ->
  abort_script w = repeat false k ++ true :: rest ->
  (k < List.length (plan_batches MAX_FILE_BYTES size))%nat ->
  exists o w',
    check_body fmsg amsg word pmsg prefix pcb true size w = (o, w')
    /\ aborted_after k size amsg o.
Proof.
  intros [Hmk Hfate] Hscript Hlen. unfold check_body.
  assert (Hnow : exists t w1, datetime_now w = (Returned t, w1)
                              /\ drive w1 = drive w
                              /\ abort_script w1 = abort_script w).
  { unfold datetime_now. destruct (clock_script w); eauto. }
  destruct Hnow as (t & w1 & Hnow & Hd1 & Ha1).
  rewrite (bind_returned _ _ _ _ _ Hnow).
  unfold mkdir_temp at 1. erewrite bind_returned by reflexivity.
  rewrite Hd1, Hmk. unfold finally, aborted_after.
  set (bs := plan_batches MAX_FILE_BYTES size) in *.
  set (ts := Z.of_nat (List.length bs) * 3).
  set (w2 := set_trace (trace w1 ++ [EvMkdir prefix]) w1).
  destruct (cycle_loop_abort_at fmsg pcb ts rest k bs 0 [] w2)
    as (vd & w3 & Hloop & Hl).
  { intros j. subst w2. cbn [drive set_trace]. rewrite Hd1. apply Hfate. }
  { subst w2. cbn [abort_script set_trace]. rewrite Ha1. exact Hscript. }
  { exact Hlen. }
  destruct (cycle_loop_spec fmsg pcb true ts bs bs [] [] w2 eq_refl eq_refl
              (Forall_nil _))
    as (exit & w3' & ev3 & Hloop' & _ & _ & _ & _ & Hpost).
  { intros j v Hj. destruct j; discriminate. }
  cbn [List.length Z.of_nat] in Hloop'. rewrite Hloop in Hloop'.
  injection Hloop' as <- <-. cbn [exit_post] in Hpost.
  destruct Hpost as (Hclean & _ & _).
  cbn [List.length Nat.add] in Hl.
  rewrite (bind_returned _ _ _ _ _ Hloop). cbn [finish].
  unfold aborted_result, bind, lift. rewrite Hl.
  destruct (confidence_pct (sum_first k bs) size) as [pct|e].
  - do 2 eexists. split; [reflexivity|]. eexists. split; [reflexivity|].
    cbn. split; [apply forallb_clean; exact Hclean|]. auto.
  - do 2 eexists. split; reflexivity.
Qed.

End AbortAt.

(** X23: an abort takes effect at the next batch boundary.  On a
    device without faults, when the abort probe answers no [k] times and
    then yes, with [k] below the number of planned batches, the check
    completes exactly [k] batches and returns the aborted result:
    [passed] true, [k] records that all match, [batches_completed] [k],
    [bytes_tested] the sum of the first [k] planned sizes, and the
    confidence computed from these (if that computation raises, so does
    the check). *)
Theorem X23_abort_stops_at_the_next_batch (rt : Runtime)
  (drive_root : string) (size_fraction : spec_float)
  (progress_callback : bool) (w : World) (k : nat) (rest : list bool)
  (size_bytes : Z) :
  fault_free w ->
  abort_script w = repeat false k ++ true :: rest ->
  (k < List.length (plan_batches MAX_FILE_BYTES size_bytes))%nat ->
  1024 <= size_bytes ->
  (planned_size size_fraction w = Returned size_bytes ->
   exists o w',
     quick_check drive_root size_fraction progress_callback true w = (o, w')
     /\ aborted_after k size_bytes "Check aborted by user" o)
  /\ (size_bytes = usable_of w ->
      exists o w',
        free_space_sweep drive_root progress_callback true w = (o, w')
        /\ aborted_after k size_bytes "Free-space sweep aborted by user" o).
Proof.
  intros Hff Hscript Hlen Hfloor.
  pose proof Hfloor as Hlt. apply Z.ltb_ge in Hlt.
  split.
  - intros Hsize. rewrite quick_check_body, Hsize, Hlt.
    apply (check_body_abort_at _ _ _ _ _ _ _ _ _ rest); assumption.
  - intros ->. rewrite free_space_sweep_body, Hlt.
    apply (check_body_abort_at _ _ _ _ _ _ _ _ _ rest); assumption.
Qed.

Lemma X23_abort_stops_at_the_next_batch_witness :
  fault_free w_abort_second
  /\ abort_script w_abort_second = repeat false 1 ++ true :: []
  /\ (1 < List.length (plan_batches MAX_FILE_BYTES (2 * GiB + MiB)))%nat
  /\ 1024 <= 2 * GiB + MiB
  /\ 2 * GiB + MiB = usable_of w_abort_second
  /\ exists o w',
       free_space_sweep (rt := sim_runtime) "G:\" false true w_abort_second
       = (o, w')
       /\ aborted_after 1 (2 * GiB + MiB) "Free-space sweep aborted by user"
            o.
Proof.
  assert (Hff : fault_free w_abort_second).
  { split; [reflexivity | intros i; reflexivity]. }
  assert (Hscript : abort_script w_abort_second
                    = repeat false 1 ++ true :: []) by reflexivity.
  assert (Hlen : (1 < List.length
                        (plan_batches MAX_FILE_BYTES (2 * GiB + MiB)))%nat).
  { vm_compute. lia. }
  assert (Hfloor : 1024 <= 2 * GiB + MiB) by (vm_compute; discriminate).
  assert (Husable : 2 * GiB + MiB = usable_of w_abort_second)
    by (vm_compute; reflexivity).
  split; [exact Hff|]. split; [exact Hscript|]. split; [exact Hlen|].
  split; [exact Hfloor|]. split; [exact Husable|].
  exact (proj2 (X23_abort_stops_at_the_next_batch sim_runtime "G:\" tenth
                  false w_abort_second 1 [] (2 * GiB + MiB) Hff Hscript
                  Hlen Hfloor) Husable).
Defined.

(** ** From one sweep to the next *)

(** X24: a sweep never changes a file of the user: whatever its
    outcome, every path of the drive that does not start with
    "Sentinel" holds after the sweep what it held before.  Whatever a
    sweep creates or rewrites has a path that starts with "Sentinel". *)
Theorem X24_sweep_leaves_user_files_alone (rt : Runtime)
  (drive_root : string)
  (progress_callback manifest_callback abort_check : bool)
  (w w' : World) (o : Outcome SweepResult) (p : string) :
  full_sweep drive_root progress_callback manifest_callback abort_check w
  = (o, w') ->
  String.prefix SENTINEL_DIR p = false ->
  dict_get p (tree (drive w')) = dict_get p (tree (drive w)).
Proof.
  intros Hrun Hp.
  destruct (full_sweep_anatomy _ _ _ _ _ _ _ Hrun) as (_ & Htree & _).
  apply Htree. exact Hp.
Qed.

Lemma X24_sweep_leaves_user_files_alone_witness :
  full_sweep (rt := sim_runtime) "G:\" false true false w_card
  = (Returned card_sweep_result, card_sweep_world)
  /\ String.prefix SENTINEL_DIR "notes.txt" = false
  /\ dict_get "notes.txt" (tree (drive card_sweep_world))
     = dict_get "notes.txt" (tree (drive w_card)).
Proof.
  assert (Hrun : full_sweep (rt := sim_runtime) "G:\" false true false w_card
                 = (Returned card_sweep_result, card_sweep_world)).
  { vm_compute. reflexivity. }
  split; [exact Hrun|]. split; [reflexivity|].
  exact (X24_sweep_leaves_user_files_alone sim_runtime _ _ _ _ _ _ _
           "notes.txt" Hrun eq_refl).
Defined.

(** X25: the manifest that the first sweep of a card stores is the one
    the next sweep verifies, and the files that the sweep itself leaves
    on the card do not disturb it: the stored manifest is faithful to
    the card as the first sweep leaves it, with the marker written, and
    a later sweep of the unchanged card finds every file of the manifest
    matching, whether or not it is aborted, and leaves the stored
    manifest as it is. *)
Theorem X25_next_sweep_verifies_the_stored_manifest (rt : Runtime)
  (drive_root : string)
  (progress_callback manifest_callback abort_check : bool)
  (w w1 : World) (o1 : Outcome SweepResult) (m : list (string * string)) :
  windows_paths (tree (drive w)) ->
  load_manifest drive_root w = (Returned None, w) ->
  full_sweep drive_root progress_callback manifest_callback abort_check w
  = (o1, w1) ->
  dict_get (_manifest_path drive_root) (manifests (host w1))
  = Some (JsonObject m) ->
  faithful (tree (drive w1)) m
  /\ forall progress_callback' manifest_callback' abort_check' w2 o2 w3,
       host w2 = host w1 -> tree (drive w2) = tree (drive w1) ->
       full_sweep drive_root progress_callback' manifest_callback'
         abort_check' w2 = (o2, w3) ->
       host w3 = host w1
       /\ forall r2, o2 = Returned r2 ->
            sw_manifest_passed r2 = true
            /\ Forall (fun v => mr_match v = true) (sw_vd_manifest r2).
Proof.
  intros Hwin Hload Hrun Hstored.
  destruct (full_sweep_anatomy _ _ _ _ _ _ _ Hrun)
    as ((_ & Hnew) & Htree & _).
  assert (Hbuilt : exists paths w0 wb,
             tree (drive w0) = tree (drive w)
             /\ build_manifest drive_root progress_callback abort_check w0
                = (Returned (m, paths, false), wb)).
  { destruct Hnew as [Hsame|(_ & m' & paths & w0 & wb & Ht0 & Hb & Hh)].
    - rewrite Hsame in Hstored. unfold load_manifest in Hload.
      rewrite Hstored in Hload. discriminate.
    - rewrite Hh in Hstored. cbn [manifests set_manifests] in Hstored.
      rewrite dict_get_set_same in Hstored. injection Hstored as <-.
      eauto. }
  destruct Hbuilt as (paths & w0 & wb & Ht0 & Hbuild).
  assert (Hfaith : faithful (tree (drive w1)) m).
  { intros rel h Hin. rewrite <- Ht0 in Hwin.
    destruct (build_manifest_sound _ _ _ _ _ _ _ _ Hwin Hbuild rel h Hin)
      as (p & c & -> & Hslash & Hpre & Hc & ->).
    exists c. split; [|reflexivity].
    fold (native_of (key_of p)). unfold key_of.
    rewrite (native_of_key p Hslash), (Htree p Hpre), <- Ht0. exact Hc. }
  split; [exact Hfaith|].
  intros pcb' mcb' ac' w2 o2 w3 Hh2 Ht2 Hrun2.
  destruct (full_sweep_anatomy _ _ _ _ _ _ _ Hrun2)
    as ((Hkeep & _) & _ & Hres).
  rewrite Hh2 in Hkeep. split.
  - exact (Hkeep m Hstored).
  - intros r2 Hr2. destruct (Hres r2 Hr2) as (Hf & _).
    apply (Hf m).
    + rewrite Hh2. exact Hstored.
    + rewrite Ht2. exact Hfaith.
Qed.

Lemma X25_next_sweep_verifies_the_stored_manifest_witness :
  windows_paths (tree (drive w_card))
  /\ load_manifest "G:\" w_card = (Returned None, w_card)
  /\ full_sweep (rt := sim_runtime) "G:\" false true false w_card
     = (Returned card_sweep_result, card_sweep_world)
  /\ dict_get (_manifest_path "G:\") (manifests (host card_sweep_world))
     = Some (JsonObject card_manifest)
  /\ faithful (rt := sim_runtime) (tree (drive card_sweep_world))
       card_manifest
  /\ forall progress_callback' manifest_callback' abort_check' w2 o2 w3,
       host w2 = host card_sweep_world ->
       tree (drive w2) = tree (drive card_sweep_world) ->
       full_sweep (rt := sim_runtime) "G:\" progress_callback'
         manifest_callback' abort_check' w2 = (o2, w3) ->
       host w3 = host card_sweep_world
       /\ forall r2, o2 = Returned r2 ->
            sw_manifest_passed r2 = true
            /\ Forall (fun v => mr_match v = true) (sw_vd_manifest r2).
Proof.
  assert (Hwin : windows_paths (tree (drive w_card))).
  { unfold windows_paths. repeat constructor. }
  assert (Hload : load_manifest "G:\" w_card = (Returned None, w_card))
    by reflexivity.
  assert (Hrun : full_sweep (rt := sim_runtime) "G:\" false true false w_card
                 = (Returned card_sweep_result, card_sweep_world)).
  { vm_compute. reflexivity. }
  assert (Hstored : dict_get (_manifest_path "G:\")
                      (manifests (host card_sweep_world))
                    = Some (JsonObject card_manifest)).
  { vm_compute. reflexivity. }
  split; [exact Hwin|]. split; [exact Hload|]. split; [exact Hrun|].
  split; [exact Hstored|].
  exact (X25_next_sweep_verifies_the_stored_manifest sim_runtime _ _ _ _ _ _
           _ _ Hwin Hload Hrun Hstored).
Defined.

(** ** A fault is never missed *)

Section FaultAt.
Context {rt : Runtime}.

Lemma step_spec_faulty msg pcb ts i fsize vd f x ev :
  step_spec msg pcb ts i fsize vd f x ev -> faulty i fsize f ->
  exists r, x = inl r.
Proof.
  intros H Hf. destruct H; try (eexists; reflexivity).
  destruct Hf as [Hf|[Hf|Hf]]; congruence.
Qed.

Lemma cycle_loop_fault_at msg pcb ac ts :
  forall k batches i vd w fsize,
    nth_error batches k = Some fsize ->
    (forall j, (j < k)%nat ->
               fate (drive w) (i + Z.of_nat j) = mkFate None Intact Intact) ->
    faulty (i + Z.of_nat k) fsize (fate (drive w) (i + Z.of_nat k)) ->
    never_aborts w ->
    Forall clean vd ->
    exists r w' good,
      cycle_loop msg pcb ac ts batches i vd w = (Returned (ExitReturn r), w')
      /\ passed r = false /\ abort_info r = None
      /\ Forall clean good
      /\ List.length good = (List.length vd + k)%nat
      /\ (verification_details r = good
          \/ exists bad, verification_details r = good ++ [bad]
                         /\ br_match bad = false).
Proof.
  induction k as [|k IH];
    intros batches i vd w fsize Hnth Hbefore Hfault Hn Hclean.
  - destruct batches as [|b later]; [discriminate|].
    cbn in Hnth. injection Hnth as ->.
    replace (i + Z.of_nat 0) with i in Hfault by (cbn; lia).
    cbn [cycle_loop].
    destruct (poll_abort_never ac w Hn) as (w1 & Hpoll & Hd1 & _ & _).
    rewrite (bind_returned _ _ _ _ _ Hpoll).
    destruct (write_verify_batch_spec msg pcb ts i fsize vd w1)
      as (x & ev & Hstep & Hspec).
    rewrite (bind_returned _ _ _ _ _ Hstep).
    rewrite Hd1 in Hspec.
    destruct (step_spec_faulty _ _ _ _ _ _ _ _ _ Hspec Hfault) as (r & ->).
    apply step_spec_inl in Hspec.
    destruct Hspec as (Hp & _ & Ha & Hvd).
    exists r. eexists. exists vd. split; [reflexivity|].
    split; [exact Hp|]. split; [exact Ha|]. split; [exact Hclean|].
    split; [lia|].
    destruct Hvd as [Hvd|(bad & Hvd & _ & _ & Hbm & _)];
      [left; exact Hvd|].
    right. exists bad. auto.
  - destruct batches as [|b later]; [discriminate|].
    cbn in Hnth. cbn [cycle_loop].
    destruct (poll_abort_never ac w Hn) as (w1 & Hpoll & Hd1 & Hn1 & _).
    rewrite (bind_returned _ _ _ _ _ Hpoll).
    destruct (healthy_batch rt msg pcb ts i b vd w1) as (ev & Hstep).
    { rewrite Hd1. specialize (Hbefore 0%nat ltac:(lia)).
      replace (i + Z.of_nat 0) with i in Hbefore by (cbn; lia).
      exact Hbefore. }
    rewrite (bind_returned _ _ _ _ _ Hstep).
    set (v := mkBatchRecord (i + 1) (batch_expected_hash i b)
                (batch_expected_hash i b) (Some (batch_expected_hash i b))
                true).
    destruct (IH later (i + 1) (vd ++ [v]) (set_trace (trace w1 ++ ev) w1)
                fsize Hnth)
      as (r & w' & good & Hloop & Hp & Ha & Hg & Hlen & Hvd).
    + intros j Hj. cbn [drive set_trace]. rewrite Hd1.
      specialize (Hbefore (S j) ltac:(lia)).
      replace (i + 1 + Z.of_nat j) with (i + Z.of_nat (S j)) by lia.
      exact Hbefore.
    + cbn [drive set_trace]. rewrite Hd1.
      replace (i + 1 + Z.of_nat k) with (i + Z.of_nat (S k)) by lia.
      exact Hfault.
    + exact Hn1.
    + apply Forall_app. split; [exact Hclean|].
      constructor; [|constructor]. subst v. repeat split.
    + exists r, w', good. split; [exact Hloop|]. split; [exact Hp|].
      split; [exact Ha|]. split; [exact Hg|]. split; [|exact Hvd].
      rewrite Hlen, length_app. cbn. lia.
Qed.

Lemma check_body_fault_at fmsg amsg word pmsg prefix pcb ac size w k fsize :
  mkdir_error (drive w) = None -> never_aborts w ->
  nth_error (plan_batches MAX_FILE_BYTES size) k = Some fsize ->
  (forall j, (j < k)%nat ->
             fate (drive w) (Z.of_nat j) = mkFate None Intact Intact) ->
  faulty (Z.of_nat k) fsize (fate (drive w) (Z.of_nat k)) ->
  exists r w',
    check_body fmsg amsg word pmsg prefix pcb ac size w = (Returned r, w')
    /\ fails_at k r.
Proof.
  intros Hmk Hn Hnth Hbefore Hfault. unfold check_body.
  assert (Hnow : exists t w1, datetime_now w = (Returned t, w1)
                              /\ drive w1 = drive w
                              /\ abort_script w1 = abort_script w).
  { unfold datetime_now. destruct (clock_script w); eauto. }
  destruct Hnow as (t & w1 & Hnow & Hd1 & Ha1).
  rewrite (bind_returned _ _ _ _ _ Hnow).
  unfold mkdir_temp at 1. erewrite bind_returned by reflexivity.
  rewrite Hd1, Hmk. unfold finally.
  set (bs := plan_batches MAX_FILE_BYTES size) in *.
  set (ts := Z.of_nat (List.length bs) * 3).
  set (w2 := set_trace (trace w1 ++ [EvMkdir prefix]) w1).
  destruct (cycle_loop_fault_at fmsg pcb ac ts k bs 0 [] w2 fsize Hnth)
    as (r & w3 & good & Hloop & Hp & Ha & Hg & Hlen & Hvd).
  { intros j Hj. subst w2. cbn [drive set_trace]. rewrite Hd1.
    apply Hbefore. exact Hj. }
  { subst w2. cbn [drive set_trace]. rewrite Hd1. exact Hfault. }
  { unfold never_aborts. subst w2. cbn [abort_script set_trace].
    rewrite Ha1. exact Hn. }
  { constructor. }
  rewrite (bind_returned _ _ _ _ _ Hloop). cbn [finish]. unfold ret.
  exists r. eexists. split; [reflexivity|].
  split; [exact Hp|]. split; [unfold aborted; rewrite Ha; reflexivity|].
  exists good. auto.
Qed.

End FaultAt.

(** X26: a fault is never missed.  When no abort comes and the device
    treats the test files of the batches before the batch of index [k]
    as it should but not that of batch [k] (the write fails, or one of
    the two reads fails or gives bytes with another digest than the
    bytes written), the check does not pass: it returns a failure, not
    aborted, with the clean records of the [k] batches before and at
    most one more record, which does not match. *)
Theorem X26_a_fault_is_never_missed (rt : Runtime) (drive_root : string)
  (size_fraction : spec_float) (progress_callback abort_check : bool)
  (w : World) (k : nat) (fsize size_bytes : Z) :
  mkdir_error (drive w) = None -> never_aborts w -> 1024 <= size_bytes ->
  nth_error (plan_batches MAX_FILE_BYTES size_bytes) k = Some fsize ->
  (forall j, (j < k)%nat ->
             fate (drive w) (Z.of_nat j) = mkFate None Intact Intact) ->
  faulty (Z.of_nat k) fsize (fate (drive w) (Z.of_nat k)) ->
  (planned_size size_fraction w = Returned size_bytes ->
   exists r w',
     quick_check drive_root size_fraction progress_callback abort_check w
     = (Returned r, w')
     /\ fails_at k r)
  /\ (size_bytes = usable_of w ->
      exists r w',
        free_space_sweep drive_root progress_callback abort_check w
        = (Returned r, w')
        /\ fails_at k r).
Proof.
  intros Hmk Hn Hfloor Hnth Hbefore Hfault.
  pose proof Hfloor as Hlt. apply Z.ltb_ge in Hlt.
  split.
  - intros Hsize. rewrite quick_check_body, Hsize, Hlt.
    apply check_body_fault_at with (fsize := fsize); assumption.
  - intros ->. rewrite free_space_sweep_body, Hlt.
    apply check_body_fault_at with (fsize := fsize); assumption.
Qed.

Lemma X26_a_fault_is_never_missed_witness :
  mkdir_error (drive w_bad_first_read) = None
  /\ never_aborts w_bad_first_read
  /\ 1024 <= 1024
  /\ nth_error (plan_batches MAX_FILE_BYTES 1024) 0 = Some 1024
  /\ (forall j, (j < 0)%nat ->
                fate (drive w_bad_first_read) (Z.of_nat j)
                = mkFate None Intact Intact)
  /\ faulty (rt := sim_runtime) (Z.of_nat 0) 1024
       (fate (drive w_bad_first_read) (Z.of_nat 0))
  /\ 1024 = usable_of w_bad_first_read
  /\ exists r w',
       free_space_sweep (rt := sim_runtime) "G:\" false false
         w_bad_first_read = (Returned r, w')
       /\ fails_at 0 r.
Proof.
  assert (Hmk : mkdir_error (drive w_bad_first_read) = None) by reflexivity.
  assert (Hn : never_aborts w_bad_first_read) by constructor.
  assert (Hfloor : 1024 <= 1024) by lia.
  assert (Hnth : nth_error (plan_batches MAX_FILE_BYTES 1024) 0 = Some 1024)
    by (vm_compute; reflexivity).
  assert (Hbefore : forall j, (j < 0)%nat ->
                      fate (drive w_bad_first_read) (Z.of_nat j)
                      = mkFate None Intact Intact) by (intros j Hj; lia).
  assert (Hfault : faulty (rt := sim_runtime) (Z.of_nat 0) 1024
                     (fate (drive w_bad_first_read) (Z.of_nat 0))).
  { right. left. vm_compute. discriminate. }
  assert (Husable : 1024 = usable_of w_bad_first_read)
    by (vm_compute; reflexivity).
  split; [exact Hmk|]. split; [exact Hn|]. split; [exact Hfloor|].
  split; [exact Hnth|]. split; [exact Hbefore|]. split; [exact Hfault|].
  split; [exact Husable|].
  exact (proj2 (X26_a_fault_is_never_missed sim_runtime "G:\" tenth false
                  false w_bad_first_read 0 1024 1024 Hmk Hn Hfloor Hnth
                  Hbefore Hfault) Husable).
Defined.
